(** * aws_fixed_reporter: the metrics extractor and the rightsizing analyzer

    A shallow embedding of the two pieces of logic of
    [src/aws_fixed_reporter.py] that carry decisions:

    - the parsing block of [get_fixed_ssm_metrics] (lines 165-236), which
      turns the standard output of the four shell probes into a metrics
      record;
    - [analyze_monthly_trends] with its helpers
      ([_calculate_utilization_stats], [_generate_instance_recommendation],
      [_generate_monthly_summary], the three type tables and the price
      tables);

    and of what surrounds them: the collectors ([get_cloudwatch_metric],
    [get_rds_metric], [get_ebs_volumes_info], [collect_ec2_data],
    [collect_rds_data] with its two estimates, [collect_all_data]) as
    functions of the answers of the AWS services, the history file
    ([save_historical_data]) and the day-to-day trends
    ([calculate_trends]).

    Numbers.  Python floats are modelled by exact rationals ([Q], kept in
    lowest terms so that equal values are equal terms), with two extra
    values for what [float()] can also return, the infinities and NaN.
    Binary rounding is not modelled: a decimal literal denotes its exact
    value.  Strings are byte strings. *)

From Stdlib Require Import String Ascii List Bool ZArith QArith Qround Lia.
From Stdlib Require Import Lqa.
Import ListNotations.

Local Open Scope string_scope.
Local Open Scope Z_scope.

(** ** Python strings *)

Module PyStr.

(** [str.isspace] on one ASCII character: tab, line feed, vertical tab, form
    feed, carriage return, the four separators 28-31 and the space. *)
Definition isspace (c : ascii) : bool :=
  let n := nat_of_ascii c in
  ((9 <=? n)%nat && (n <=? 13)%nat) || ((28 <=? n)%nat && (n <=? 32)%nat).

Fixpoint lstrip (s : string) : string :=
  match s with
  | String c s' => if isspace c then lstrip s' else s
  | EmptyString => EmptyString
  end.

Fixpoint rstrip (s : string) : string :=
  match s with
  | String c s' =>
      match rstrip s' with
      | EmptyString => if isspace c then EmptyString else String c EmptyString
      | r => String c r
      end
  | EmptyString => EmptyString
  end.

(** [s.strip()] *)
Definition strip (s : string) : string := rstrip (lstrip s).

(** [c in s] for a one-character needle. *)
Fixpoint contains (c : ascii) (s : string) : bool :=
  match s with
  | String d s' => Ascii.eqb c d || contains c s'
  | EmptyString => false
  end.

(** [s.split(c, 1)] when [c] occurs in [s]: the text before the first [c] and
    the text after it.  When [c] does not occur the second component is
    empty; the callers test [contains] first. *)
Fixpoint split_once (c : ascii) (s : string) : string * string :=
  match s with
  | String d s' =>
      if Ascii.eqb c d then (EmptyString, s')
      else let (a, b) := split_once c s' in (String d a, b)
  | EmptyString => (EmptyString, EmptyString)
  end.

(** [s.split(c)]: always at least one piece. *)
Fixpoint split (c : ascii) (s : string) : list string :=
  match s with
  | String d s' =>
      if Ascii.eqb c d then EmptyString :: split c s'
      else match split c s' with
           | p :: ps => String d p :: ps
           | [] => [String d EmptyString]
           end
  | EmptyString => [EmptyString]
  end.

(** [s.replace(c, '')] *)
Fixpoint remove (c : ascii) (s : string) : string :=
  match s with
  | String d s' => if Ascii.eqb c d then remove c s' else String d (remove c s')
  | EmptyString => EmptyString
  end.

Definition lower_char (c : ascii) : ascii :=
  let n := nat_of_ascii c in
  if (65 <=? n)%nat && (n <=? 90)%nat then ascii_of_nat (n + 32) else c.

Fixpoint lower (s : string) : string :=
  match s with
  | String c s' => String (lower_char c) (lower s')
  | EmptyString => EmptyString
  end.

(** [bool(s)]: a string is true when it is not empty. *)
Definition truthy (s : string) : bool :=
  match s with EmptyString => false | _ => true end.

(** [l[-k]] for [k >= 1]; [None] is Python's [IndexError]. *)
Definition index_from_end {A} (l : list A) (k : nat) : option A :=
  if (k <=? length l)%nat then nth_error l (length l - k) else None.

(** [l[i]] for [i >= 0]; [None] is Python's [IndexError]. *)
Definition index {A} (l : list A) (i : nat) : option A := nth_error l i.

(** The items [l[lo]], ..., [l[hi-1]] that [for i in range(lo, hi)] visits,
    for [0 <= lo]; empty when [hi <= lo]. *)
Definition items_in_range {A} (lo hi : Z) (l : list A) : list A :=
  firstn (Z.to_nat (hi - lo)) (skipn (Z.to_nat lo) l).

End PyStr.

(** ** Python's [float()] *)

Module PyFloat.

Inductive pyfloat : Type :=
| Finite (q : Q)
| Infinity (negative : bool)
| NaN.

Definition is_digit (c : ascii) : bool :=
  let n := nat_of_ascii c in (48 <=? n)%nat && (n <=? 57)%nat.

Definition digit_val (c : ascii) : Z := Z.of_nat (nat_of_ascii c) - 48.

(** The rest of a digit part: digits, each optionally preceded by one
    underscore.  Carries the value read so far and the number of digits. *)
Fixpoint digits_tail (v n : Z) (s : string) : Z * Z * string :=
  match s with
  | String c s' =>
      if is_digit c then digits_tail (10 * v + digit_val c) (n + 1) s'
      else if Ascii.eqb c "_" then
        match s' with
        | String d s'' =>
            if is_digit d then digits_tail (10 * v + digit_val d) (n + 1) s''
            else (v, n, s)
        | EmptyString => (v, n, s)
        end
      else (v, n, s)
  | EmptyString => (v, n, s)
  end.

(** digitpart ::= digit (["_"] digit)* *)
Definition digitpart (s : string) : option (Z * Z * string) :=
  match s with
  | String c s' =>
      if is_digit c then Some (digits_tail (digit_val c) 1 s') else None
  | EmptyString => None
  end.

(** An optional sign: whether it is a minus, and the rest. *)
Definition sign (s : string) : bool * string :=
  match s with
  | String c s' =>
      if Ascii.eqb c "-" then (true, s')
      else if Ascii.eqb c "+" then (false, s')
      else (false, s)
  | EmptyString => (false, s)
  end.

(** digitpart ["." [digitpart]] | "." digitpart: the digits read as one
    integer, the number of digits after the point, and the rest. *)
Definition decimal (s : string) : option (Z * Z * string) :=
  match digitpart s with
  | Some (i, _, r) =>
      match r with
      | String c r' =>
          if Ascii.eqb c "." then
            match digitpart r' with
            | Some (f, n, r'') => Some (i * 10 ^ n + f, n, r'')
            | None => Some (i, 0, r')
            end
          else Some (i, 0, r)
      | EmptyString => Some (i, 0, r)
      end
  | None =>
      match s with
      | String c r' => if Ascii.eqb c "." then digitpart r' else None
      | EmptyString => None
      end
  end.

(** [("e" | "E") ["+" | "-"] digitpart], or nothing. *)
Definition exponent (s : string) : option (Z * string) :=
  match s with
  | String c r =>
      if Ascii.eqb c "e" || Ascii.eqb c "E" then
        let (neg, r') := sign r in
        match digitpart r' with
        | Some (e, _, r'') => Some (if neg then - e else e, r'')
        | None => None
        end
      else Some (0, s)
  | EmptyString => Some (0, s)
  end.

(** [m * 10^e] as a rational in lowest terms. *)
Definition scale (m e : Z) : Q :=
  Qred (if 0 <=? e then inject_Z (m * 10 ^ e)
        else Qmake m (Z.to_pos (10 ^ (- e)))).

(** [float(s)]; [None] is [ValueError]. *)
Definition float (s : string) : option pyfloat :=
  let (neg, r) := sign (PyStr.strip s) in
  let w := PyStr.lower r in
  if String.eqb w "inf" || String.eqb w "infinity" then Some (Infinity neg)
  else if String.eqb w "nan" then Some NaN
  else
    match decimal r with
    | Some (m, n, r1) =>
        match exponent r1 with
        | Some (e, EmptyString) =>
            Some (Finite (scale (if neg then - m else m) (e - n)))
        | _ => None
        end
    | None => None
    end.

(** The value [v] when [0 <= v <= 100] holds, as the chained comparison of
    the source decides it (false for the infinities and for NaN). *)
Definition percentage (v : pyfloat) : option Q :=
  match v with
  | Finite q => if Qle_bool 0 q && Qle_bool q 100 then Some q else None
  | _ => None
  end.

End PyFloat.

(** ** The metrics extractor ([get_fixed_ssm_metrics], lines 165-236) *)

Module Extractor.

Import PyStr PyFloat.

Record disk_detail : Type := DiskDetail {
  filesystem : string;
  usage_percent : Q
}.

Record efs_detail : Type := EfsDetail {
  efs_filesystem : string;
  efs_size : string;
  efs_used : string;
  efs_percent : string
}.

(** The [metrics] dictionary; [efs_details] is a key that may be absent. *)
Record metrics : Type := Metrics {
  memory_percent : Q;
  disk_usage_avg : Q;
  disk_details : list disk_detail;
  collection_method : string;
  success : bool;
  efs_attached : bool;
  efs_details : option efs_detail
}.

Definition initial_metrics : metrics :=
  {| memory_percent := 0; disk_usage_avg := 0; disk_details := [];
     collection_method := "none"; success := false; efs_attached := false;
     efs_details := None |}.

Definition set_memory (q : Q) (m : metrics) : metrics :=
  {| memory_percent := q; disk_usage_avg := disk_usage_avg m;
     disk_details := disk_details m; collection_method := collection_method m;
     success := true; efs_attached := efs_attached m;
     efs_details := efs_details m |}.

Definition set_disk_details (d : list disk_detail) (m : metrics) : metrics :=
  {| memory_percent := memory_percent m; disk_usage_avg := disk_usage_avg m;
     disk_details := d; collection_method := collection_method m;
     success := success m; efs_attached := efs_attached m;
     efs_details := efs_details m |}.

Definition set_disk_usage_avg (q : Q) (m : metrics) : metrics :=
  {| memory_percent := memory_percent m; disk_usage_avg := q;
     disk_details := disk_details m; collection_method := collection_method m;
     success := success m; efs_attached := efs_attached m;
     efs_details := efs_details m |}.

Definition set_efs (a : bool) (d : option efs_detail) (m : metrics) : metrics :=
  {| memory_percent := memory_percent m; disk_usage_avg := disk_usage_avg m;
     disk_details := disk_details m; collection_method := collection_method m;
     success := success m; efs_attached := a; efs_details := d |}.

Definition set_collection_method (s : string) (m : metrics) : metrics :=
  {| memory_percent := memory_percent m; disk_usage_avg := disk_usage_avg m;
     disk_details := disk_details m; collection_method := s;
     success := success m; efs_attached := efs_attached m;
     efs_details := efs_details m |}.

(** Line 168: [[line.strip() for line in stdout.split('\n') if line.strip()]]
    on the stripped standard output. *)
Definition stdout_lines (stdout : string) : list string :=
  map strip
    (filter (fun line => truthy (strip line))
       (split (ascii_of_nat 10) (strip stdout))).

(** Lines 173-180: the memory line. *)
Definition parse_memory (lines : list string) (m : metrics) : metrics :=
  match index lines 0 with
  | Some l0 =>
      match float l0 with
      | Some memory_val =>
          match percentage memory_val with
          | Some q => set_memory q m
          | None => m
          end
      | None => m
      end
  | None => m
  end.

(** Line 184. *)
Definition end_index (lines : list string) : Z :=
  let n := Z.of_nat (length lines) in
  if 3 <? n then n - 2 else n - 1.

(** Lines 186-197, one iteration: the detail a line contributes, if any. *)
Definition parse_disk_line (line : string) : option disk_detail :=
  if contains ":" line then
    let (fs, percent_str) := split_once ":" line in
    match float (remove "%" percent_str) with
    | Some percent =>
        match percentage percent with
        | Some q => Some (DiskDetail fs q)
        | None => None
        end
    | None => None
    end
  else None.

Fixpoint filter_map {A B} (f : A -> option B) (l : list A) : list B :=
  match l with
  | [] => []
  | x :: l' =>
      match f x with
      | Some y => y :: filter_map f l'
      | None => filter_map f l'
      end
  end.

(** Lines 183-197: the details appended by the loop over
    [range(1, end_index)]; [disk_usages] is their percentages. *)
Definition parse_disks (lines : list string) : list disk_detail :=
  filter_map parse_disk_line (items_in_range 1 (end_index lines) lines).

Definition sum (l : list Q) : Q := fold_left Qplus l 0%Q.

(** [sum(l) / len(l)] for a non-empty [l]. *)
Definition mean (l : list Q) : Q :=
  Qred (sum l / inject_Z (Z.of_nat (length l))).

(** Lines 209-210 and 211-212: the mean of the parsed percentages when there
    are any. *)
Definition fallback_avg (disk_usages : list Q) (m : metrics) : metrics :=
  match disk_usages with
  | [] => m
  | _ => set_disk_usage_avg (mean disk_usages) m
  end.

(** Line 203: [lines[-2] if len(lines) > 3 else lines[-1]]. *)
Definition avg_disk_line (lines : list string) : option string :=
  if (3 <? length lines)%nat then index_from_end lines 2
  else index_from_end lines 1.

(** Lines 200-212: the average-disk line. *)
Definition parse_avg (lines : list string) (disk_usages : list Q)
    (m : metrics) : metrics :=
  if (2 <? length lines)%nat then
    match avg_disk_line lines with
    | Some line =>
        match float line with
        | Some avg_disk =>
            match percentage avg_disk with
            | Some q => set_disk_usage_avg q m
            | None => m
            end
        | None => fallback_avg disk_usages m
        end
    | None => fallback_avg disk_usages m
    end
  else fallback_avg disk_usages m.

(** Lines 223-230: the four fields of an EFS record, when it has them. *)
Definition parse_efs_details (efs_line : string) : option efs_detail :=
  if contains ":" efs_line then
    match split ":" efs_line with
    | a :: b :: c :: d :: _ => Some (EfsDetail a b c d)
    | _ => None
    end
  else None.

(** Lines 215-234: the network-filesystem line. *)
Definition parse_efs (lines : list string) (m : metrics) : metrics :=
  if (3 <? length lines)%nat then
    match index_from_end lines 1 with
    | Some last =>
        let efs_line := strip last in
        if truthy efs_line && negb (String.eqb efs_line "NO_EFS") then
          match parse_efs_details efs_line with
          | Some d => set_efs true (Some d) m
          | None => set_efs true (efs_details m) m
          end
        else set_efs false (efs_details m) m
    | None => m
    end
  else m.

(** Lines 172-236 as a function of [lines]: what the polling loop leaves in
    [metrics] when the command succeeded with a non-empty output. *)
Definition get_fixed_ssm_metrics (lines : list string) : metrics :=
  let m := parse_memory lines initial_metrics in
  let details := parse_disks lines in
  let m := set_disk_details details m in
  let m := parse_avg lines (map usage_percent details) m in
  let m := parse_efs lines m in
  set_collection_method "ssm_fixed" m.

(** The same from the raw standard output (lines 165-168). *)
Definition get_fixed_ssm_metrics_stdout (stdout : string) : metrics :=
  get_fixed_ssm_metrics (stdout_lines stdout).

End Extractor.

(** ** The rightsizing analyzer ([analyze_monthly_trends] and its helpers) *)

Module Analyzer.

Local Open Scope Q_scope.

(** *** Exceptions *)

Inductive exn : Type :=
| KeyError (key : string)
| IndexError.

Inductive result (A : Type) : Type :=
| Ok (a : A)
| Raise (e : exn).
Arguments Ok {A} a.
Arguments Raise {A} e.

Definition bind {A B} (r : result A) (k : A -> result B) : result B :=
  match r with
  | Ok a => k a
  | Raise e => Raise e
  end.

Notation "x <- r ;; k" := (bind r (fun x => k))
  (at level 61, r at next level, right associativity).

(** *** Numbers *)

Definition Qltb (x y : Q) : bool := negb (Qle_bool y x).

(** [max(0, x)] *)
Definition max0 (x : Q) : Q := if Qltb 0 x then x else 0.

(** Rounding to the nearest integer, ties to even. *)
Definition round_half_even (q : Q) : Z :=
  let f := Qfloor q in
  match Qcompare (q - inject_Z f) (1 # 2) with
  | Lt => f
  | Gt => (f + 1)%Z
  | Eq => if Z.even f then f else (f + 1)%Z
  end.

(** [round(q, n)] *)
Definition round (q : Q) (n : nat) : Q :=
  let p := Z.to_pos (10 ^ Z.of_nat n) in
  Qred (Qmake (round_half_even (q * inject_Z (Zpos p))) p).

Definition sum (l : list Q) : Q := fold_left Qplus l 0.

Fixpoint insert_sorted (x : Q) (l : list Q) : list Q :=
  match l with
  | [] => [x]
  | y :: l' => if Qle_bool x y then x :: l else y :: insert_sorted x l'
  end.

Definition sort (l : list Q) : list Q := fold_right insert_sorted [] l.

(** *** Series of numbers (a column after [pd.to_numeric(...).dropna()]) *)

Definition mean (values : list Q) : Q :=
  sum values / inject_Z (Z.of_nat (length values)).

Definition series_max (values : list Q) : Q :=
  match values with
  | [] => 0
  | v :: vs => fold_left (fun a b => if Qltb a b then b else a) vs v
  end.

Definition series_min (values : list Q) : Q :=
  match values with
  | [] => 0
  | v :: vs => fold_left (fun a b => if Qltb b a then b else a) vs v
  end.

(** [values.quantile(q)], linear interpolation between the two closest
    ranks of the sorted values. *)
Definition quantile (values : list Q) (q : Q) : Q :=
  let sorted := sort values in
  let pos := q * inject_Z (Z.of_nat (length values - 1)) in
  let lo := Qfloor pos in
  let frac := pos - inject_Z lo in
  let a := nth (Z.to_nat lo) sorted 0 in
  let b := nth (Z.to_nat lo + 1) sorted a in
  a + (b - a) * frac.

Definition count (p : Q -> bool) (values : list Q) : nat :=
  length (filter p values).

(** *** The history table *)

(** A cell of a utilization column as [pd.to_numeric(..., errors='coerce')]
    reads it: [Some q] for a number, [None] for a value it turns into NaN
    (a text such as 'N/A', a missing value, NaN itself). *)
Definition cell : Type := option Q.

(** A row of the history; [Date] is the column after
    [pd.to_datetime(..., errors='coerce')], an instant counted in
    microseconds, [None] for NaT. *)
Record row : Type := Row {
  Date : option Z;
  Service : string;
  ID : string;
  Name_Tag : string;
  Type_ : string;
  CPUUtilization : cell;
  RAMUtilization : cell;
  DiskUsage : cell
}.

(** The data frame: its rows, and whether it has a 'DiskUsage(%)' column. *)
Record frame : Type := Frame {
  disk_usage_column : bool;
  rows : list row
}.

(** [pd.to_numeric(data[column], errors='coerce').dropna()] *)
Definition numeric (column : row -> cell) (data : list row) : list Q :=
  Extractor.filter_map column data.

(** *** Statistics ([_calculate_utilization_stats], lines 1119-1140) *)

(** The statistics are computed here on the exact values.  The program
    computes them in binary floating point, where the mean or a percentile
    can fall on the other side of a rounding boundary than the exact value:
    seven values 0.185 have a mean that is stored as 0.19 beside a maximum
    stored as 0.18.  No property below compares two stored statistics with
    each other; the statistics are compared with thresholds and bounds. *)

(** The statistics dictionary.  The early return for an empty series builds
    it without four of the keys, so these are optional. *)
Record stats : Type := Stats {
  avg : Q;
  max : Q;
  min : Q;
  p95 : Q;
  p90 : Q;
  low_usage_days : nat;
  high_usage_days : option nat;
  total_days : option nat;
  low_usage_percentage : option Q;
  high_usage_percentage : option Q
}.

Definition _calculate_utilization_stats (data : list row)
    (column : row -> cell) : stats :=
  let values := numeric column data in
  match values with
  | [] =>
      {| avg := 0; max := 0; min := 0; p95 := 0; p90 := 0;
         low_usage_days := 0;
         high_usage_days := None; total_days := None;
         low_usage_percentage := None; high_usage_percentage := None |}
  | _ =>
      let low := count (fun v => Qltb v 20) values in
      let high := count (fun v => Qltb 80 v) values in
      let total := length values in
      {| avg := round (mean values) 2;
         max := round (series_max values) 2;
         min := round (series_min values) 2;
         p95 := round (quantile values (95 # 100)) 2;
         p90 := round (quantile values (90 # 100)) 2;
         low_usage_days := low;
         high_usage_days := Some high;
         total_days := Some total;
         low_usage_percentage :=
           Some (round (inject_Z (Z.of_nat low) / inject_Z (Z.of_nat total)
                        * 100) 1);
         high_usage_percentage :=
           Some (round (inject_Z (Z.of_nat high) / inject_Z (Z.of_nat total)
                        * 100) 1) |}
  end.

(** The dictionary of the early return of line 1124. *)
Definition reduced_stats : stats :=
  {| avg := 0; max := 0; min := 0; p95 := 0; p90 := 0;
     low_usage_days := 0;
     high_usage_days := None; total_days := None;
     low_usage_percentage := None; high_usage_percentage := None |}.

(** [stats['low_usage_percentage']] and [stats['high_usage_percentage']] *)
Definition getitem_low_usage_percentage (s : stats) : result Q :=
  match low_usage_percentage s with
  | Some q => Ok q
  | None => Raise (KeyError "low_usage_percentage")
  end.

Definition getitem_high_usage_percentage (s : stats) : result Q :=
  match high_usage_percentage s with
  | Some q => Ok q
  | None => Raise (KeyError "high_usage_percentage")
  end.

(** *** The static tables (lines 1263-1390) *)

Definition dict (V : Type) : Type := list (string * V).

Fixpoint lookup {V} (d : dict V) (k : string) : option V :=
  match d with
  | [] => None
  | (k', v) :: d' => if String.eqb k k' then Some v else lookup d' k
  end.

(** [d.get(k, default)] *)
Definition get {V} (d : dict V) (k : string) (default : V) : V :=
  match lookup d k with
  | Some v => v
  | None => default
  end.

Definition ec2_downsize_map : dict string :=
  [ ("t3a.large", "t3a.medium"); ("t3a.medium", "t3a.small");
    ("t3a.small", "t3a.micro");
    ("t3a.xlarge", "t3a.large"); ("t3a.2xlarge", "t3a.xlarge");
    ("t3.large", "t3.medium"); ("t3.medium", "t3.small");
    ("t3.small", "t3.micro");
    ("t3.xlarge", "t3.large"); ("t3.2xlarge", "t3.xlarge");
    ("m5.large", "t3a.large"); ("m5.xlarge", "m5.large");
    ("m5.2xlarge", "m5.xlarge"); ("m5.4xlarge", "m5.2xlarge");
    ("c5.large", "t3a.medium"); ("c5.xlarge", "c5.large");
    ("c5.2xlarge", "c5.xlarge");
    ("r5.large", "m5.large"); ("r5.xlarge", "r5.large");
    ("r5.2xlarge", "r5.xlarge") ]%string.

Definition rds_downsize_map : dict string :=
  [ ("db.t4g.medium", "db.t4g.small"); ("db.t4g.large", "db.t4g.medium");
    ("db.t4g.xlarge", "db.t4g.large"); ("db.t4g.2xlarge", "db.t4g.xlarge");
    ("db.t3.medium", "db.t3.small"); ("db.t3.large", "db.t3.medium");
    ("db.t3.xlarge", "db.t3.large"); ("db.t3.2xlarge", "db.t3.xlarge");
    ("db.m5.large", "db.t4g.large"); ("db.m5.xlarge", "db.m5.large");
    ("db.m5.2xlarge", "db.m5.xlarge");
    ("db.r5.large", "db.m5.large"); ("db.r5.xlarge", "db.r5.large");
    ("db.r5.2xlarge", "db.r5.xlarge") ]%string.

Definition downsize_map (service : string) : dict string :=
  if String.eqb service "EC2" then ec2_downsize_map else rds_downsize_map.

Definition _get_smaller_instance_type (current_type service : string)
    : string :=
  get (downsize_map service) current_type current_type.

Definition ec2_upsize_map : dict string :=
  [ ("t3a.micro", "t3a.small"); ("t3a.small", "t3a.medium");
    ("t3a.medium", "t3a.large");
    ("t3a.large", "t3a.xlarge"); ("t3a.xlarge", "t3a.2xlarge");
    ("t3.micro", "t3.small"); ("t3.small", "t3.medium");
    ("t3.medium", "t3.large");
    ("t3.large", "t3.xlarge"); ("t3.xlarge", "t3.2xlarge");
    ("t3a.2xlarge", "m5.xlarge"); ("t3.2xlarge", "m5.xlarge");
    ("m5.large", "m5.xlarge"); ("m5.xlarge", "m5.2xlarge");
    ("m5.2xlarge", "m5.4xlarge");
    ("c5.large", "c5.xlarge"); ("c5.xlarge", "c5.2xlarge") ]%string.

Definition rds_upsize_map : dict string :=
  [ ("db.t4g.micro", "db.t4g.small"); ("db.t4g.small", "db.t4g.medium");
    ("db.t4g.medium", "db.t4g.large"); ("db.t4g.large", "db.t4g.xlarge");
    ("db.t4g.xlarge", "db.t4g.2xlarge");
    ("db.t3.micro", "db.t3.small"); ("db.t3.small", "db.t3.medium");
    ("db.t3.medium", "db.t3.large"); ("db.t3.large", "db.t3.xlarge");
    ("db.t4g.2xlarge", "db.m5.large"); ("db.t3.2xlarge", "db.m5.large");
    ("db.m5.large", "db.m5.xlarge"); ("db.m5.xlarge", "db.m5.2xlarge")
  ]%string.

Definition upsize_map (service : string) : dict string :=
  if String.eqb service "EC2" then ec2_upsize_map else rds_upsize_map.

Definition _get_larger_instance_type (current_type service : string)
    : string :=
  get (upsize_map service) current_type current_type.

Definition ec2_memory_optimized_map : dict string :=
  [ ("t3.medium", "r5.large"); ("t3.large", "r5.large");
    ("t3.xlarge", "r5.xlarge");
    ("t3a.medium", "r5.large"); ("t3a.large", "r5.large");
    ("t3a.xlarge", "r5.xlarge");
    ("m5.large", "r5.large"); ("m5.xlarge", "r5.xlarge");
    ("m5.2xlarge", "r5.2xlarge");
    ("c5.large", "r5.large"); ("c5.xlarge", "r5.xlarge") ]%string.

Definition rds_memory_optimized_map : dict string :=
  [ ("db.t4g.medium", "db.r5.large"); ("db.t4g.large", "db.r5.large");
    ("db.t3.medium", "db.r5.large"); ("db.t3.large", "db.r5.large");
    ("db.m5.large", "db.r5.large"); ("db.m5.xlarge", "db.r5.xlarge")
  ]%string.

Definition memory_optimized_map (service : string) : dict string :=
  if String.eqb service "EC2" then ec2_memory_optimized_map
  else rds_memory_optimized_map.

Definition _get_memory_optimized_type (current_type service : string)
    : string :=
  get (memory_optimized_map service) current_type current_type.

Definition ec2_costs : dict Q :=
  [ ("t3.nano", 3.80); ("t3.micro", 7.66); ("t3.small", 15.33);
    ("t3.medium", 30.66); ("t3.large", 61.32);
    ("t3.xlarge", 122.63); ("t3.2xlarge", 245.26);
    ("t3a.nano", 3.28); ("t3a.micro", 6.57); ("t3a.small", 13.14);
    ("t3a.medium", 26.28); ("t3a.large", 52.56);
    ("t3a.xlarge", 105.12); ("t3a.2xlarge", 210.24);
    ("m5.large", 70.08); ("m5.xlarge", 140.16); ("m5.2xlarge", 280.32);
    ("m5.4xlarge", 560.64);
    ("c5.large", 62.05); ("c5.xlarge", 124.10); ("c5.2xlarge", 248.20);
    ("r5.large", 91.25); ("r5.xlarge", 182.50); ("r5.2xlarge", 365.00);
    ("r5.4xlarge", 730.00) ]%string.

Definition rds_costs : dict Q :=
  [ ("db.t2.micro", 11.68); ("db.t2.small", 23.36); ("db.t2.medium", 46.72);
    ("db.t2.large", 93.44);
    ("db.t3.micro", 12.41); ("db.t3.small", 24.82); ("db.t3.medium", 49.64);
    ("db.t3.large", 99.28);
    ("db.t3.xlarge", 198.56); ("db.t3.2xlarge", 397.12);
    ("db.t4g.micro", 10.22); ("db.t4g.small", 20.44);
    ("db.t4g.medium", 40.88); ("db.t4g.large", 81.76);
    ("db.t4g.xlarge", 163.52); ("db.t4g.2xlarge", 327.04);
    ("db.m5.large", 105.12); ("db.m5.xlarge", 210.24);
    ("db.m5.2xlarge", 420.48);
    ("db.r5.large", 136.87); ("db.r5.xlarge", 273.75);
    ("db.r5.2xlarge", 547.50) ]%string.

Definition _get_instance_monthly_cost (instance_type service : string) : Q :=
  if String.eqb service "EC2" then get ec2_costs instance_type 50.0
  else get rds_costs instance_type 75.0.

Definition _estimate_cost_savings (current_type recommended_type
    service : string) : Q :=
  let current_cost := _get_instance_monthly_cost current_type service in
  let recommended_cost :=
    _get_instance_monthly_cost recommended_type service in
  max0 (Qred (current_cost - recommended_cost)).

Definition _estimate_cost_increase (current_type recommended_type
    service : string) : Q :=
  let current_cost := _get_instance_monthly_cost current_type service in
  let recommended_cost :=
    _get_instance_monthly_cost recommended_type service in
  max0 (Qred (recommended_cost - current_cost)).

(** *** Recommendations ([_generate_instance_recommendation], 1142-1222) *)

Inductive Action : Type :=
| monitor | downsize | upsize | optimize_memory | increase_storage.

Inductive Level : Type := low | medium | high.

(** The [reason] text, by the template that formats it and the numbers it
    quotes. *)
Inductive Reason : Type :=
| within_normal_range
| consistently_low_utilization (cpu_avg ram_avg : Q)
| high_cpu_utilization (cpu_avg cpu_p95 : Q)
| high_ram_utilization (ram_avg ram_p95 : Q)
| high_disk_utilization (disk_avg : Q).

Record recommendation : Type := Recommendation {
  instance_id : string;
  name : string;
  service : string;
  current_type : string;
  data_points : nat;
  cpu_stats : stats;
  ram_stats : stats;
  disk_stats : option stats;
  action : Action;
  reason : Reason;
  confidence : Level;
  priority : Level;
  estimated_monthly_savings : Q;
  estimated_monthly_cost_increase : Q;
  recommended_type : string
}.

(** [recommendation.update({...})] on the keys the branches write. *)
Definition update (r : recommendation) (a : Action) (ty : string)
    (why : Reason) (c p : Level) (savings increase : Q) : recommendation :=
  {| instance_id := instance_id r; name := name r; service := service r;
     current_type := current_type r; data_points := data_points r;
     cpu_stats := cpu_stats r; ram_stats := ram_stats r;
     disk_stats := disk_stats r;
     action := a; reason := why; confidence := c; priority := p;
     estimated_monthly_savings := savings;
     estimated_monthly_cost_increase := increase;
     recommended_type := ty |}.

(** The guard of line 1165-1167.  [and] evaluates left to right and stops at
    the first false operand, so the last key is read only when the four
    comparisons before it hold. *)
Definition downsize_condition (cpu ram : stats) : result bool :=
  if Qltb (avg cpu) 15 && Qltb (p95 cpu) 30
     && Qltb (avg ram) 25 && Qltb (p95 ram) 50
  then low_pct <- getitem_low_usage_percentage cpu ;; Ok (Qltb 70 low_pct)
  else Ok false.

(** The guard of lines 1182-1183. *)
Definition upsize_condition (cpu : stats) : result bool :=
  if Qltb 75 (avg cpu) && Qltb 90 (p95 cpu)
  then high_pct <- getitem_high_usage_percentage cpu ;; Ok (Qltb 30 high_pct)
  else Ok false.

(** The guard of lines 1198-1199. *)
Definition memory_condition (ram : stats) : result bool :=
  if Qltb 85 (avg ram) && Qltb 95 (p95 ram)
  then high_pct <- getitem_high_usage_percentage ram ;; Ok (Qltb 25 high_pct)
  else Ok false.

(** The guard of line 1214; [None] is false, a dictionary is true. *)
Definition storage_condition (disk : option stats) : bool :=
  match disk with
  | Some d => Qltb 85 (avg d) && Qltb 95 (p95 d)
  | None => false
  end.

(** Lines 1146-1162: the dictionary the function starts from, and returns
    unchanged when no branch writes to it. *)
Definition initial_recommendation
    (instance_id name service instance_type : string)
    (cpu_stats ram_stats : stats) (disk_stats : option stats)
    (data_points : nat) : recommendation :=
  {| instance_id := instance_id; name := name; service := service;
     current_type := instance_type; data_points := data_points;
     cpu_stats := cpu_stats; ram_stats := ram_stats;
     disk_stats := disk_stats;
     action := monitor; reason := within_normal_range;
     confidence := medium; priority := low;
     estimated_monthly_savings := 0;
     estimated_monthly_cost_increase := 0;
     recommended_type := instance_type |}.

Definition _generate_instance_recommendation
    (instance_id name service instance_type : string)
    (cpu_stats ram_stats : stats) (disk_stats : option stats)
    (data_points : nat) : result recommendation :=
  let recommendation :=
    initial_recommendation instance_id name service instance_type
      cpu_stats ram_stats disk_stats data_points in
  is_low <- downsize_condition cpu_stats ram_stats ;;
  if is_low : bool then
    let recommended_type :=
      _get_smaller_instance_type instance_type service in
    if negb (String.eqb recommended_type instance_type) then
      let savings :=
        _estimate_cost_savings instance_type recommended_type service in
      Ok (update recommendation downsize recommended_type
            (consistently_low_utilization (avg cpu_stats) (avg ram_stats))
            high (if Qltb 100 savings then high else medium)
            savings (estimated_monthly_cost_increase recommendation))
    else Ok recommendation
  else
  is_high <- upsize_condition cpu_stats ;;
  if is_high : bool then
    let recommended_type :=
      _get_larger_instance_type instance_type service in
    if negb (String.eqb recommended_type instance_type) then
      let cost_increase :=
        _estimate_cost_increase instance_type recommended_type service in
      Ok (update recommendation upsize recommended_type
            (high_cpu_utilization (avg cpu_stats) (p95 cpu_stats))
            high high
            (estimated_monthly_savings recommendation) cost_increase)
    else Ok recommendation
  else
  is_ram <- memory_condition ram_stats ;;
  if is_ram : bool then
    let recommended_type :=
      _get_memory_optimized_type instance_type service in
    if negb (String.eqb recommended_type instance_type) then
      let cost_increase :=
        _estimate_cost_increase instance_type recommended_type service in
      Ok (update recommendation optimize_memory recommended_type
            (high_ram_utilization (avg ram_stats) (p95 ram_stats))
            medium medium
            (estimated_monthly_savings recommendation) cost_increase)
    else Ok recommendation
  else
  if storage_condition disk_stats then
    Ok (update recommendation increase_storage
          (recommended_type recommendation)
          (high_disk_utilization
             (match disk_stats with Some d => avg d | None => 0 end))
          medium medium
          (estimated_monthly_savings recommendation)
          (estimated_monthly_cost_increase recommendation))
  else Ok recommendation.

(** *** The monthly summary ([_generate_monthly_summary], 1224-1261) *)

Definition Action_eqb (a b : Action) : bool :=
  match a, b with
  | monitor, monitor | downsize, downsize | upsize, upsize
  | optimize_memory, optimize_memory
  | increase_storage, increase_storage => true
  | _, _ => false
  end.

Definition Level_eqb (a b : Level) : bool :=
  match a, b with
  | low, low | medium, medium | high, high => true
  | _, _ => false
  end.

(** [counts[a] = counts.get(a, 0) + 1] on a dictionary in insertion order. *)
Fixpoint increment (a : Action) (counts : list (Action * nat))
    : list (Action * nat) :=
  match counts with
  | [] => [(a, 1%nat)]
  | (b, n) :: counts' =>
      if Action_eqb a b then (b, S n) :: counts'
      else (b, n) :: increment a counts'
  end.

(** [series.unique()]: the distinct values in order of first appearance. *)
Fixpoint unique {A} (eqb : A -> A -> bool) (l : list A) : list A :=
  match l with
  | [] => []
  | x :: l' => x :: filter (fun y => negb (eqb x y)) (unique eqb l')
  end.

(** [round(pd.to_numeric(data[column], errors='coerce').mean(), 2)]; the
    mean of no number is NaN, here [None]. *)
Definition rounded_mean (data : list row) (column : row -> cell)
    : option Q :=
  match numeric column data with
  | [] => None
  | values => Some (round (mean values) 2)
  end.

(** The [summary] dictionary of [_generate_monthly_summary]; the four
    averages are keys that may be absent. *)
Record monthly_summary : Type := MonthlySummary {
  total_recommendations : nat;
  action_breakdown : list (Action * nat);
  total_estimated_monthly_savings : Q;
  total_estimated_monthly_cost_increase : Q;
  net_impact : Q;
  high_priority_count : nat;
  ec2_instances_analyzed : nat;
  rds_instances_analyzed : nat;
  avg_ec2_cpu : option (option Q);
  avg_ec2_ram : option (option Q);
  avg_rds_cpu : option (option Q);
  avg_rds_ram : option (option Q)
}.

Definition is_empty {A} (l : list A) : bool :=
  match l with [] => true | _ => false end.

Definition _generate_monthly_summary (data : list row)
    (recommendations : list recommendation) : monthly_summary :=
  let action_counts :=
    fold_left (fun counts rec => increment (action rec) counts)
      recommendations [] in
  let total_savings :=
    fold_left (fun t rec => t + estimated_monthly_savings rec)
      recommendations 0 in
  let total_cost_increase :=
    fold_left (fun t rec => t + estimated_monthly_cost_increase rec)
      recommendations 0 in
  let ec2_data := filter (fun r => String.eqb (Service r) "EC2") data in
  let rds_data := filter (fun r => String.eqb (Service r) "RDS") data in
  {| total_recommendations :=
       length (filter (fun r => negb (Action_eqb (action r) monitor))
                 recommendations);
     action_breakdown := action_counts;
     total_estimated_monthly_savings := round total_savings 2;
     total_estimated_monthly_cost_increase := round total_cost_increase 2;
     net_impact := round (total_savings - total_cost_increase) 2;
     high_priority_count :=
       length (filter (fun r => Level_eqb (priority r) high)
                 recommendations);
     ec2_instances_analyzed :=
       if is_empty ec2_data then 0%nat
       else length (unique String.eqb (map ID ec2_data));
     rds_instances_analyzed :=
       if is_empty rds_data then 0%nat
       else length (unique String.eqb (map ID rds_data));
     avg_ec2_cpu :=
       if is_empty ec2_data then None
       else Some (rounded_mean ec2_data CPUUtilization);
     avg_ec2_ram :=
       if is_empty ec2_data then None
       else Some (rounded_mean ec2_data RAMUtilization);
     avg_rds_cpu :=
       if is_empty rds_data then None
       else Some (rounded_mean rds_data CPUUtilization);
     avg_rds_ram :=
       if is_empty rds_data then None
       else Some (rounded_mean rds_data RAMUtilization) |}.

(** *** The analysis ([analyze_monthly_trends], lines 1047-1117) *)

(** [timedelta(days=30)] in microseconds. *)
Definition thirty_days : Z := (30 * 86400 * 1000000)%Z.

(** The row filter of line 1064, [historical['Date'] >= cutoff_date] with
    [cutoff_date = datetime.now() - timedelta(days=30)]: the clock is read
    once, and is the argument [now].  NaT compares false. *)
Definition in_window (now : Z) (r : row) : bool :=
  match Date r with
  | Some d => (now - thirty_days <=? d)%Z
  | None => false
  end.

(** Ascending order of dates, NaT last. *)
Definition date_le (a b : row) : bool :=
  match Date a, Date b with
  | Some x, Some y => (x <=? y)%Z
  | Some _, None => true
  | None, Some _ => false
  | None, None => true
  end.

Fixpoint insert_row (r : row) (l : list row) : list row :=
  match l with
  | [] => [r]
  | y :: l' => if date_le r y then r :: l else y :: insert_row r l'
  end.

(** [data.sort_values('Date')]; rows of equal date keep their order. *)
Definition sort_values_Date (data : list row) : list row :=
  fold_right insert_row [] data.

(** [data.iloc[-1]] *)
Definition iloc_last (data : list row) : result row :=
  match PyStr.index_from_end data 1 with
  | Some r => Ok r
  | None => Raise IndexError
  end.

(** [series.isna().all()] *)
Definition all_na (column : row -> cell) (data : list row) : bool :=
  forallb (fun r => match column r with None => true | Some _ => false end)
    data.

(** Lines 1094-1099. *)
Definition disk_stats_of (disk_column : bool) (instance_data : list row)
    : option stats :=
  if disk_column then
    if all_na DiskUsage instance_data then None
    else Some (_calculate_utilization_stats instance_data DiskUsage)
  else None.

(** The rows of one instance, line 1079. *)
Definition instance_rows (recent_data : list row) (id : string)
    : list row :=
  filter (fun r => String.eqb (ID r) id) recent_data.

(** One iteration of the loop of lines 1078-1108: [None] when the instance
    is skipped by [continue], else the recommendation appended, or the
    exception that leaves the loop. *)
Definition analyze_instance (disk_column : bool) (recent_data : list row)
    (id : string) : option (result recommendation) :=
  let instance_data := instance_rows recent_data id in
  if (length instance_data <? 7)%nat then None
  else Some (
    latest_record <- iloc_last (sort_values_Date instance_data) ;;
    let service := Service latest_record in
    let instance_type := Type_ latest_record in
    let name := Name_Tag latest_record in
    let cpu_stats :=
      _calculate_utilization_stats instance_data CPUUtilization in
    let ram_stats :=
      _calculate_utilization_stats instance_data RAMUtilization in
    let disk_stats := disk_stats_of disk_column instance_data in
    _generate_instance_recommendation id name service instance_type
      cpu_stats ram_stats disk_stats (length instance_data)).

(** The loop of lines 1078-1108 over the distinct identifiers. *)
Fixpoint analyze_instances (disk_column : bool) (recent_data : list row)
    (ids : list string) : result (list recommendation) :=
  match ids with
  | [] => Ok []
  | id :: ids' =>
      match analyze_instance disk_column recent_data id with
      | None => analyze_instances disk_column recent_data ids'
      | Some r =>
          rec <- r ;;
          recs <- analyze_instances disk_column recent_data ids' ;;
          Ok (rec :: recs)
      end
  end.

Definition option_Z_eqb (a b : option Z) : bool :=
  match a, b with
  | Some x, Some y => (x =? y)%Z
  | None, None => true
  | _, _ => false
  end.

Record analysis_summary : Type := AnalysisSummary {
  total_instances : nat;
  analysis_period_days : nat;
  total_data_points : nat
}.

(** The dictionary [analyze_monthly_trends] returns; the two early returns
    give empty dictionaries for [analysis] and [summary], here [None]. *)
Record analysis_output : Type := AnalysisOutput {
  recommendations : list recommendation;
  analysis : option monthly_summary;
  summary : option analysis_summary
}.

Definition no_data : analysis_output :=
  {| recommendations := []; analysis := None; summary := None |}.

(** Line 1064: [recent_data]. *)
Definition recent_rows (now : Z) (historical : frame) : list row :=
  filter (in_window now) (rows historical).

(** Line 1078: [recent_data['ID'].unique()]. *)
Definition recent_ids (now : Z) (historical : frame) : list string :=
  unique String.eqb (map ID (recent_rows now historical)).

(** [analyze_monthly_trends] as a function of the history it loads and of
    the instant [now] that [datetime.now()] returns. *)
Definition analyze_monthly_trends (now : Z) (historical : frame)
    : result analysis_output :=
  if is_empty (rows historical) then Ok no_data
  else
    let recent_data := recent_rows now historical in
    if is_empty recent_data then Ok no_data
    else
      let ids := recent_ids now historical in
      let analysis_summary :=
        {| total_instances := length ids;
           analysis_period_days :=
             length (unique option_Z_eqb (map Date recent_data));
           total_data_points := length recent_data |} in
      recommendations <-
        analyze_instances (disk_usage_column historical) recent_data ids ;;
      let monthly_analysis :=
        _generate_monthly_summary recent_data recommendations in
      Ok {| recommendations := recommendations;
            analysis := Some monthly_analysis;
            summary := Some analysis_summary |}.

End Analyzer.

(** ** The rules as the specification words them *)

Module Rules.

Import Analyzer.
Local Open Scope Q_scope.

(** The utilization test of the downsize rule, with the comparisons the
    code makes (both percentile tests are strict). *)
Definition downsize_thresholds (cpu ram : stats) : Prop :=
  avg cpu < 15 /\ p95 cpu < 30 /\ avg ram < 25 /\ p95 ram < 50
  /\ exists l, low_usage_percentage cpu = Some l /\ 70 < l.

(** The same test with the two percentile comparisons of the specification
    text, [cpu95 <= 30] and [ram95 <= 50]. *)
Definition downsize_thresholds_as_specified (cpu ram : stats) : Prop :=
  avg cpu < 15 /\ p95 cpu <= 30 /\ avg ram < 25 /\ p95 ram <= 50
  /\ exists l, low_usage_percentage cpu = Some l /\ 70 < l.

Definition upsize_thresholds (cpu : stats) : Prop :=
  75 < avg cpu /\ 90 < p95 cpu
  /\ exists h, high_usage_percentage cpu = Some h /\ 30 < h.

Definition memory_thresholds (ram : stats) : Prop :=
  85 < avg ram /\ 95 < p95 ram
  /\ exists h, high_usage_percentage ram = Some h /\ 25 < h.

(** What a recommendation reports about money: neither amount is negative,
    at most one is not zero, and which one is decided by the action. *)
Definition cost_report (r : recommendation) : Prop :=
  0 <= estimated_monthly_savings r
  /\ 0 <= estimated_monthly_cost_increase r
  /\ (estimated_monthly_savings r = 0
      \/ estimated_monthly_cost_increase r = 0)
  /\ match action r with
     | downsize =>
         estimated_monthly_cost_increase r = 0
         /\ estimated_monthly_savings r
            = _estimate_cost_savings (current_type r) (recommended_type r)
                (service r)
         /\ 0 < estimated_monthly_savings r
     | upsize =>
         estimated_monthly_savings r = 0
         /\ estimated_monthly_cost_increase r
            = _estimate_cost_increase (current_type r) (recommended_type r)
                (service r)
     | optimize_memory =>
         estimated_monthly_savings r = 0
         /\ estimated_monthly_cost_increase r
            = _estimate_cost_increase (current_type r) (recommended_type r)
                (service r)
         /\ 0 < estimated_monthly_cost_increase r
     | increase_storage | monitor =>
         estimated_monthly_savings r = 0
         /\ estimated_monthly_cost_increase r = 0
     end.

(** The recommendations the summary counts as actionable (line 1243). *)
Definition actionable (recs : list recommendation) : list recommendation :=
  filter (fun r => negb (Action_eqb (action r) monitor)) recs.

(** The number of recommendations that name [id]. *)
Definition named (id : string) (recs : list recommendation) : nat :=
  length (filter (fun r => String.eqb (instance_id r) id) recs).

End Rules.

(** ** Histories used as concrete inputs *)

Module Examples.

Import Analyzer.
Local Open Scope Q_scope.

(** Midnight of day [n], in microseconds. *)
Definition day (n : Z) : option Z := Some (n * 86400000000)%Z.

(** Seven daily rows, days 1 to 7, of one EC2 instance, from the CPU values
    of the seven days, with one RAM and one disk value for all of them. *)
Definition week (id ty : string) (cpu : list cell) (ram disk : cell)
    : list row :=
  map (fun dc : Z * cell =>
         {| Date := day (fst dc); Service := "EC2"; ID := id;
            Name_Tag := id; Type_ := ty;
            CPUUtilization := snd dc; RAMUtilization := ram;
            DiskUsage := disk |})
      (combine [1; 2; 3; 4; 5; 6; 7]%Z cpu).

Definition steady (c : Q) : list cell := repeat (Some c) 7.

(** The instant of the analysis: day 10, and day 100. *)
Definition day_10 : Z := (10 * 86400000000)%Z.

(** An idle t3a.large: CPU 5, RAM 10, disk 40. *)
Definition idle_history : frame :=
  {| disk_usage_column := true;
     rows := week "i-idle" "t3a.large" (steady 5) (Some 10) (Some 40) |}.

(** A t3a.large whose CPU is 9 on six days and 39 on one: the average is
    13.29, the 95th percentile exactly 30 and 85.7 percent of the days are
    under 20. *)
Definition boundary_history : frame :=
  {| disk_usage_column := true;
     rows := week "i-edge" "t3a.large"
               [Some 9; Some 9; Some 9; Some 9; Some 9; Some 9; Some 39]
               (Some 10) (Some 40) |}.

(** An idle t3a.micro, a type the downsize table has no entry for, with a
    full disk. *)
Definition smallest_history : frame :=
  {| disk_usage_column := true;
     rows := week "i-micro" "t3a.micro" (steady 5) (Some 10) (Some 98) |}.

(** An instance whose CPU and RAM cells hold no number on any day. *)
Definition unavailable_history : frame :=
  {| disk_usage_column := true;
     rows := week "i-na" "t3a.large" (repeat None 7) None (Some 40) |}.

(** The same instance on six days only. *)
Definition six_days_history : frame :=
  {| disk_usage_column := true;
     rows := week "i-na" "t3a.large" (repeat None 6) None (Some 40) |}.

(** A moderately used instance with a full disk. *)
Definition full_disk_history : frame :=
  {| disk_usage_column := true;
     rows := week "i-disk" "t3a.large" (steady 50) (Some 50) (Some 98) |}.

(** A saturated t3a.2xlarge, whose larger type in the table is m5.xlarge. *)
Definition saturated_history : frame :=
  {| disk_usage_column := true;
     rows := week "i-busy" "t3a.2xlarge" (steady 95) (Some 50) (Some 40) |}.

End Examples.

(** ** Counting recommendations *)

Module Counting.

Import Analyzer.

(** The number of recommendations with action [a]. *)
Definition with_action (a : Action) (recs : list recommendation) : nat :=
  length (filter (fun r => Action_eqb (action r) a) recs).

(** [counts.get(a)] on the dictionary of [increment]. *)
Fixpoint count_of (a : Action) (counts : list (Action * nat)) : option nat :=
  match counts with
  | [] => None
  | (b, n) :: counts' => if Action_eqb a b then Some n else count_of a counts'
  end.

(** Whether an instance has the seven rows the analysis asks for. *)
Definition has_a_week (recent : list row) (id : string) : bool :=
  (7 <=? length (instance_rows recent id))%nat.

End Counting.

(** ** The collectors (lines 93-114 and 263-558) *)

(** What the collectors compute from the answers of the AWS services.  The
    answers themselves are arguments: a call that raises is one of the
    possible answers. *)
Module Collector.

Import Analyzer.
Local Open Scope Q_scope.

(** *** CloudWatch ([get_cloudwatch_metric], 93-114; [get_rds_metric],
    509-528) *)

Record datapoint : Type := Datapoint {
  Timestamp : Z;
  Average : Q
}.

Fixpoint insert_datapoint (d : datapoint) (l : list datapoint)
    : list datapoint :=
  match l with
  | [] => [d]
  | y :: l' =>
      if (Timestamp y <=? Timestamp d)%Z then d :: l
      else y :: insert_datapoint d l'
  end.

(** [sorted(datapoints, key=lambda x: x['Timestamp'], reverse=True)]: the
    latest first, datapoints of equal timestamp in the order of the
    response. *)
Definition sorted_reverse (datapoints : list datapoint) : list datapoint :=
  fold_right insert_datapoint [] datapoints.

(** The value returned for a response with the list [Datapoints]; [None]
    is a call that raised, which the [except] clause turns into 0. *)
Definition get_cloudwatch_metric (response : option (list datapoint)) : Q :=
  match response with
  | Some datapoints =>
      match sorted_reverse datapoints with
      | d :: _ => round (Average d) 2
      | [] => 0
      end
  | None => 0
  end.

Definition get_rds_metric (response : option (list datapoint)) : Q :=
  get_cloudwatch_metric response.

(** *** Volumes ([get_ebs_volumes_info], 263-296) *)

(** The answer of [describe_volumes] for one volume. *)
Inductive volumes_response : Type :=
| describe_volumes_raises
| no_volumes
| first_volume (Size : Z).

(** An entry of [BlockDeviceMappings], with the answer that the call made
    for it receives. *)
Inductive device : Type :=
| no_ebs
| Ebs (VolumeId : string) (vol_response : volumes_response).

Record volume_info : Type := VolumeInfo {
  count : nat;
  total_size : Z;
  sizes : list Z;
  volume_ids : list string
}.

Definition empty_volume_info : volume_info :=
  {| count := 0; total_size := 0; sizes := []; volume_ids := [] |}.

(** The loop of lines 278-290 on the dictionary it updates in place; an
    exception leaves the loop and the [except] clause returns the
    dictionary as it is. *)
Fixpoint scan_devices (devices : list device) (info : volume_info)
    : volume_info :=
  match devices with
  | [] => info
  | no_ebs :: rest => scan_devices rest info
  | Ebs _ describe_volumes_raises :: _ => info
  | Ebs _ no_volumes :: rest => scan_devices rest info
  | Ebs volume_id (first_volume size) :: rest =>
      scan_devices rest
        {| count := S (count info);
           total_size := (total_size info + size)%Z;
           sizes := (sizes info ++ [size])%list;
           volume_ids := (volume_ids info ++ [volume_id])%list |}
  end.

(** The answer of [describe_instances] for the instance. *)
Inductive instances_response : Type :=
| describe_instances_raises
| no_reservations
| first_instance (BlockDeviceMappings : list device).

Definition get_ebs_volumes_info (response : instances_response)
    : volume_info :=
  match response with
  | first_instance devices => scan_devices devices empty_volume_info
  | no_reservations => empty_volume_info
  | describe_instances_raises => empty_volume_info
  end.

(** *** EC2 records ([collect_ec2_data], 298-441) *)

(** [min(a, b)]: the first of the smallest. *)
Definition pymin (a b : Q) : Q := if Qltb b a then b else a.

(** Lines 372-377. *)
Definition estimated_memory (cpu_util : Q) : Q :=
  if Qltb 70 cpu_util then pymin 80 (cpu_util * 1.1)
  else if Qltb 30 cpu_util then pymin 60 (cpu_util * 1.3)
  else 25.

(** What [get_fixed_ssm_metrics] returns: the parsed output when the
    command succeeded with a non-empty output, else the dictionary it
    starts from. *)
Definition ssm_metrics_of (output : option (list string))
    : Extractor.metrics :=
  match output with
  | Some lines => Extractor.get_fixed_ssm_metrics lines
  | None => Extractor.initial_metrics
  end.

Record instance : Type := Instance {
  InstanceId : string;
  InstanceType : string;
  Tags : list (string * string)
}.

(** Lines 325-329. *)
Fixpoint name_of (tags : list (string * string)) : string :=
  match tags with
  | [] => "N/A"
  | (key, value) :: tags' =>
      if String.eqb key "Name" then value else name_of tags'
  end.

(** The answers received for one instance. *)
Record observations : Type := Observations {
  cpu_response : option (list datapoint);
  ebs_response : instances_response;
  ssm_output : option (list string)
}.

(** The record of lines 402-427: the columns that the history keeps for the
    analysis, as a row, and three of the others. *)
Record record : Type := Record_ {
  columns : row;
  DiskCount : nat;
  DiskTotal : Z;
  DataCollection : string
}.

(** Lines 354-427 for the instance the names [instance_id],
    [instance_type] and [name] are bound to; [today] is the instant that
    the text of [self.today] denotes. *)
Definition ec2_record (today : Z) (i : instance) (o : observations)
    : record :=
  let cpu_util := get_cloudwatch_metric (cpu_response o) in
  let ebs_info := get_ebs_volumes_info (ebs_response o) in
  let ssm_metrics := ssm_metrics_of (ssm_output o) in
  let '(memory_percent, disk_usage_avg, collection_method) :=
    if Extractor.success ssm_metrics then
      (Extractor.memory_percent ssm_metrics,
       Extractor.disk_usage_avg ssm_metrics, "SSM+CloudWatch")
    else (estimated_memory cpu_util, 0, "CloudWatch+Estimated") in
  {| columns :=
       {| Date := Some today; Service := "EC2"; ID := InstanceId i;
          Name_Tag := name_of (Tags i); Type_ := InstanceType i;
          CPUUtilization := Some cpu_util;
          RAMUtilization := Some (round memory_percent 2);
          DiskUsage := Some (round disk_usage_avg 2) |};
     DiskCount := Nat.max 1 (count ebs_info);
     DiskTotal := Z.max 8 (total_size ebs_info);
     DataCollection := collection_method |}.

(** The instance the names are bound to after the loop of lines 320-329 over
    one reservation: its last instance, or what they were bound to before
    when it has none. *)
Definition bound_instance (instances : list instance)
    (bound : option instance) : option instance :=
  match PyStr.index_from_end instances 1 with
  | Some i => Some i
  | None => bound
  end.

(** The loop over the reservations (lines 319-432).  The record is built in
    the body of the reservation loop, after the loop over its instances.
    With no name bound yet the body raises NameError, which the handler of
    line 437 catches: the function returns the records it has. *)
Fixpoint collect_reservations (today : Z) (observe : string -> observations)
    (reservations : list (list instance)) (bound : option instance)
    (data : list record) : list record :=
  match reservations with
  | [] => data
  | instances :: rest =>
      match bound_instance instances bound with
      | None => data
      | Some i =>
          collect_reservations today observe rest (Some i)
            (data ++ [ec2_record today i (observe (InstanceId i))])%list
      end
  end.

(** [collect_ec2_data] on the pages of reservations that the paginator
    yields; [observe] gives the answers received for an instance, by its
    identifier. *)
Definition collect_ec2_data (today : Z) (observe : string -> observations)
    (pages : list (list (list instance))) : list record :=
  collect_reservations today observe (concat pages) None [].

(** *** RDS records ([collect_rds_data], 443-507, and the two estimates,
    530-558) *)

Definition vcpu_map : dict Z :=
  [ ("db.t2.micro", 1); ("db.t2.small", 1); ("db.t2.medium", 2);
    ("db.t2.large", 2);
    ("db.t3.micro", 2); ("db.t3.small", 2); ("db.t3.medium", 2);
    ("db.t3.large", 2);
    ("db.t3.xlarge", 4); ("db.t3.2xlarge", 8);
    ("db.t4g.micro", 2); ("db.t4g.small", 2); ("db.t4g.medium", 2);
    ("db.t4g.large", 2);
    ("db.t4g.xlarge", 4); ("db.t4g.2xlarge", 8);
    ("db.m5.large", 2); ("db.m5.xlarge", 4); ("db.m5.2xlarge", 8);
    ("db.m5.4xlarge", 16);
    ("db.m6i.large", 2); ("db.m6i.xlarge", 4); ("db.m6i.2xlarge", 8);
    ("db.r5.large", 2); ("db.r5.xlarge", 4); ("db.r5.2xlarge", 8);
    ("db.r5.4xlarge", 16);
    ("db.r6i.large", 2); ("db.r6i.xlarge", 4); ("db.r6i.2xlarge", 8)
  ]%string%Z.

Definition estimate_rds_vcpu (db_class : string) : Z :=
  get vcpu_map db_class 2%Z.

Definition memory_map : dict Z :=
  [ ("db.t2.micro", 1); ("db.t2.small", 2); ("db.t2.medium", 4);
    ("db.t2.large", 8);
    ("db.t3.micro", 1); ("db.t3.small", 2); ("db.t3.medium", 4);
    ("db.t3.large", 8);
    ("db.t3.xlarge", 16); ("db.t3.2xlarge", 32);
    ("db.t4g.micro", 1); ("db.t4g.small", 2); ("db.t4g.medium", 4);
    ("db.t4g.large", 8);
    ("db.t4g.xlarge", 16); ("db.t4g.2xlarge", 32);
    ("db.m5.large", 8); ("db.m5.xlarge", 16); ("db.m5.2xlarge", 32);
    ("db.m5.4xlarge", 64);
    ("db.m6i.large", 8); ("db.m6i.xlarge", 16); ("db.m6i.2xlarge", 32);
    ("db.r5.large", 16); ("db.r5.xlarge", 32); ("db.r5.2xlarge", 64);
    ("db.r5.4xlarge", 128);
    ("db.r6i.large", 16); ("db.r6i.xlarge", 32); ("db.r6i.2xlarge", 64)
  ]%string%Z.

Definition estimate_rds_memory (db_class : string) : Z :=
  get memory_map db_class 8%Z.

(** Lines 463-471: [memory_utilization] from the class and from the value
    that [get_rds_metric] returned for FreeableMemory. *)
Definition memory_utilization (db_class : string) (freeable_memory : Q)
    : Q :=
  let freeable_memory_mb := freeable_memory / inject_Z (1024 * 1024) in
  let memory_gb := inject_Z (estimate_rds_memory db_class) in
  if Qltb 0 memory_gb && Qltb 0 freeable_memory_mb then
    ((memory_gb * 1024 - freeable_memory_mb) / (memory_gb * 1024)) * 100
  else 0.

(** The columns of the record of lines 473-499 that the history keeps for
    the analysis; 'N/A' in the disk column is not a number. *)
Definition rds_columns (today : Z) (db_id db_class : string)
    (cpu_response memory_response : option (list datapoint)) : row :=
  {| Date := Some today; Service := "RDS"; ID := db_id;
     Name_Tag := db_id; Type_ := db_class;
     CPUUtilization := Some (get_rds_metric cpu_response);
     RAMUtilization :=
       Some (round (memory_utilization db_class
                      (get_rds_metric memory_response)) 2);
     DiskUsage := None |}.

End Collector.

(** ** The history file ([collect_all_data], 585-593;
    [save_historical_data], 607-641) *)

Module History.

Import Analyzer.

(** [df.drop_duplicates(subset=..., keep='last')]: of the rows with the
    same key the last one stays, at its place. *)
Fixpoint drop_duplicates (same : row -> row -> bool) (df : list row)
    : list row :=
  match df with
  | [] => []
  | r :: rest =>
      if existsb (same r) rest then drop_duplicates same rest
      else r :: drop_duplicates same rest
  end.

(** The key ['ID', 'Date']. *)
Definition same_ID_Date (a b : row) : bool :=
  String.eqb (ID a) (ID b) && option_Z_eqb (Date a) (Date b).

(** The key ['ID', 'Service', 'Date']. *)
Definition same_ID_Service_Date (a b : row) : bool :=
  String.eqb (ID a) (ID b) && String.eqb (Service a) (Service b)
  && option_Z_eqb (Date a) (Date b).

(** Lines 585-593 on the results of the futures in the order of their
    completion. *)
Definition collect_all_data (results : list (list row)) : list row :=
  let df := concat results in
  if is_empty df then df else drop_duplicates same_ID_Service_Date df.

(** [historical['Date'] != today_str]; [today] is the instant that the text
    of [self.today] denotes. *)
Definition not_today (today : Z) (r : row) : bool :=
  negb (option_Z_eqb (Date r) (Some today)).

(** The frame that [save_historical_data] writes to the history file, from
    the frame [historical] it loads, the frame [df] of the run, and the
    instant [now] that [datetime.now()] returns. *)
Definition save_historical_data (now today : Z) (historical df : list row)
    : list row :=
  if negb (is_empty historical) then
    let historical := filter (not_today today) historical in
    let combined := (historical ++ df)%list in
    let combined := filter (in_window now) combined in
    drop_duplicates same_ID_Date combined
  else df.

End History.

(** ** Day-to-day trends ([calculate_trends], 643-694) *)

Module Trends.

Import Analyzer.
Local Open Scope Q_scope.

Inductive Trend : Type := increased | decreased | stable | not_available.

(** The lambda of lines 672, 679 and 682; NaN, here [None], compares false
    both times. *)
Definition trend_of (x : cell) : Trend :=
  match x with
  | Some x =>
      if Qltb 5 x then increased
      else if Qltb x (-5) then decreased
      else stable
  | None => stable
  end.

(** [series.fillna(0)] *)
Definition fillna0 (c : cell) : Q :=
  match c with
  | Some q => q
  | None => 0
  end.

(** [a - b] on a column, NaN staying NaN. *)
Definition minus (a : cell) (b : Q) : cell :=
  match a with
  | Some x => Some (Qred (x - b))
  | None => None
  end.

(** [current_df.merge(previous_df[...], on='ID', how='left')]: the rows of
    [current_df] in their order, each once for every row of [previous_df]
    with its ID, in the order of these, and once alone when there is
    none. *)
Definition merge_left (current_df previous_df : list row)
    : list (row * option row) :=
  flat_map
    (fun c =>
       match filter (fun p => String.eqb (ID p) (ID c)) previous_df with
       | [] => [(c, None)]
       | matches => map (fun p => (c, Some p)) matches
       end)
    current_df.

(** A row of the frame returned: the row of [current_df] and the six columns
    added. *)
Record trend_row : Type := TrendRow {
  current : row;
  CPU_Change : cell;
  RAM_Change : cell;
  Disk_Change : Q;
  CPU_Trend : Trend;
  RAM_Trend : Trend;
  Disk_Trend : Trend
}.

(** The value of a column of [previous_df] in a merged row, NaN when the
    row has no match. *)
Definition prev (column : row -> cell) (p : option row) : cell :=
  match p with
  | Some r => column r
  | None => None
  end.

(** Lines 662-692 for one merged row. *)
Definition trend_row_of (disk_column : bool) (m : row * option row)
    : trend_row :=
  let (c, p) := m in
  let cpu_change :=
    minus (CPUUtilization c) (fillna0 (prev CPUUtilization p)) in
  let ram_change :=
    minus (RAMUtilization c) (fillna0 (prev RAMUtilization p)) in
  let disk_change :=
    if disk_column
    then Qred (fillna0 (DiskUsage c) - fillna0 (prev DiskUsage p))
    else 0 in
  {| current := c;
     CPU_Change := cpu_change;
     RAM_Change := ram_change;
     Disk_Change := disk_change;
     CPU_Trend := trend_of cpu_change;
     RAM_Trend := trend_of ram_change;
     Disk_Trend :=
       if disk_column then trend_of (Some disk_change)
       else not_available |}.

(** [calculate_trends]; [previous_df] comes with the flag of its
    'DiskUsage(%)' column, which [current_df], the frame of a run, always
    has. *)
Definition calculate_trends (current_df : list row) (previous_df : frame)
    : list trend_row :=
  if is_empty (rows previous_df) then
    map (fun c =>
           {| current := c;
              CPU_Change := Some 0; RAM_Change := Some 0; Disk_Change := 0;
              CPU_Trend := not_available; RAM_Trend := not_available;
              Disk_Trend := not_available |})
      current_df
  else
    map (trend_row_of (disk_usage_column previous_df))
      (merge_left current_df (rows previous_df)).

End Trends.

(** ** Scenarios for the collectors, the history and the trends *)

Module Scenarios.

Import Analyzer.
Local Open Scope Q_scope.

(** A row of an EC2 instance with a disk usage of 40. *)
Definition usage (date : Z) (id : string) (cpu ram : Q) : row :=
  {| Date := Some date; Service := "EC2"; ID := id; Name_Tag := id;
     Type_ := "t3a.large"; CPUUtilization := Some cpu;
     RAMUtilization := Some ram; DiskUsage := Some 40 |}.

Definition day_9 : Z := (9 * 86400000000)%Z.

(** The rows of day 9, and a run on day 10 in which i-1 is seen again, i-2
    is gone and i-3 is new. *)
Definition yesterday_df : frame :=
  {| disk_usage_column := true;
     rows := [usage day_9 "i-1" 10 50; usage day_9 "i-2" 20 60] |}.

Definition today_df : list row :=
  [usage Examples.day_10 "i-1" 30 50; usage Examples.day_10 "i-3" 7 2].

(** The same run collected twice by mistake. *)
Definition doubled_results : list (list row) := [today_df; today_df].

(** An instance that answers CloudWatch (CPU 3) but not the probes. *)
Definition silent : Collector.observations :=
  {| Collector.cpu_response := Some [Collector.Datapoint 0 3];
     Collector.ebs_response := Collector.no_reservations;
     Collector.ssm_output := None |}.

Definition silent_instance : Collector.instance :=
  {| Collector.InstanceId := "i-est"; Collector.InstanceType := "t3a.large";
     Collector.Tags := [("Name", "batch")] |}.

(** Its rows on the days 4 to 10. *)
Definition silent_week : list row :=
  map (fun d =>
         Collector.columns
           (Collector.ec2_record (d * 86400000000) silent_instance silent))
    [4; 5; 6; 7; 8; 9; 10]%Z.

(** Two reservations, the first with two instances. *)
Definition two_reservations : list (list (list Collector.instance)) :=
  [ [ [ {| Collector.InstanceId := "i-1";
           Collector.InstanceType := "t3a.large"; Collector.Tags := [] |};
        {| Collector.InstanceId := "i-2";
           Collector.InstanceType := "t3a.small"; Collector.Tags := [] |} ] ];
    [ [ silent_instance ] ] ].

(** Three volumes, the request for the second one failing. *)
Definition three_devices : list Collector.device :=
  [ Collector.Ebs "vol-1" (Collector.first_volume 8);
    Collector.Ebs "vol-2" Collector.describe_volumes_raises;
    Collector.Ebs "vol-3" (Collector.first_volume 100) ].

(** Three datapoints, the latest listed second. *)
Definition three_datapoints : list Collector.datapoint :=
  [ Collector.Datapoint 300 (1 # 3); Collector.Datapoint 900 12.345;
    Collector.Datapoint 600 50 ].

(** A t3a.large with a full disk (98) whose memory usage is 15 on six days
    and 65 on one, so that its average is 22.14 and its 95th percentile
    exactly 50, the processor staying at 5; and one whose processor usage is
    9 on six days and 39 on one (95th percentile exactly 30), the memory
    staying at 10. *)
Definition full_disk_memory_edge : frame :=
  {| disk_usage_column := true;
     rows :=
       map (fun dr : Z * Z =>
              {| Date := Examples.day (fst dr); Service := "EC2";
                 ID := "i-ram-edge"; Name_Tag := "i-ram-edge";
                 Type_ := "t3a.large"; CPUUtilization := Some 5;
                 RAMUtilization := Some (inject_Z (snd dr));
                 DiskUsage := Some 98 |})
         [(1, 15); (2, 15); (3, 15); (4, 15); (5, 15); (6, 15); (7, 65)]%Z
  |}.

Definition full_disk_processor_edge : frame :=
  {| disk_usage_column := true;
     rows :=
       Examples.week "i-cpu-edge" "t3a.large"
         [Some 9; Some 9; Some 9; Some 9; Some 9; Some 9; Some 39]
         (Some 10) (Some 98) |}.

(** The rows that the collector wrote for the silent instance, as a
    history. *)
Definition silent_history : frame :=
  {| disk_usage_column := true; rows := silent_week |}.

End Scenarios.

(** ** Invariants of the collectors *)

Module Invariants.

(** A datapoint of the list that none of the list is later than. *)
Definition latest (h : Collector.datapoint) (l : list Collector.datapoint)
    : Prop :=
  In h l
  /\ forall x, In x l -> (Collector.Timestamp x <= Collector.Timestamp h)%Z.

(** The counters of a volume dictionary agree with its lists. *)
Definition consistent (info : Collector.volume_info) : Prop :=
  Collector.count info = length (Collector.sizes info)
  /\ Collector.count info = length (Collector.volume_ids info)
  /\ Collector.total_size info
     = fold_right Z.add 0%Z (Collector.sizes info).

(** [r] is the record of the last instance of the reservation. *)
Definition record_of_last (today : Z)
    (observe : string -> Collector.observations)
    (instances : list Collector.instance) (r : Collector.record) : Prop :=
  exists i,
    PyStr.index_from_end instances 1 = Some i
    /\ r = Collector.ec2_record today i (observe (Collector.InstanceId i)).

End Invariants.

(** ** The price table of a service *)

Module Prices.

Import Analyzer.

(** The table that [_get_instance_monthly_cost] reads for a service. *)
Definition price_table (service : string) : dict Q :=
  if String.eqb service "EC2" then ec2_costs else rds_costs.

(** Whether the table lists a price for the type. *)
Definition priced (service instance_type : string) : bool :=
  match lookup (price_table service) instance_type with
  | Some _ => true
  | None => false
  end.

End Prices.

(** ** The collection summary of a run ([run], lines 1776-1783) *)

Module Run.

Local Open Scope Q_scope.

(** [len(ec2_df[ec2_df['DataCollection'] == 'SSM+CloudWatch'])] *)
Definition ssm_count (ec2_df : list Collector.record) : nat :=
  length
    (filter
       (fun r => String.eqb (Collector.DataCollection r) "SSM+CloudWatch")
       ec2_df).

(** [len(ec2_df[ec2_df['DataCollection'] == 'CloudWatch+Estimated'])] *)
Definition estimated_count (ec2_df : list Collector.record) : nat :=
  length
    (filter
       (fun r =>
          String.eqb (Collector.DataCollection r) "CloudWatch+Estimated")
       ec2_df).

(** The success rate printed, before it is formatted. *)
Definition success_rate (ec2_df : list Collector.record) : Q :=
  let ssm_count := ssm_count ec2_df in
  let estimated_count := estimated_count ec2_df in
  if (0 <? ssm_count + estimated_count)%nat then
    inject_Z (Z.of_nat ssm_count)
    / inject_Z (Z.of_nat (ssm_count + estimated_count)) * 100
  else 0.

End Run.

Import PyStr PyFloat Extractor Analyzer Rules Examples Counting.


Local Open Scope Q_scope.

(** * Properties of the extractor *)

Section ExtractorFacts.

Lemma success_set_disk_details d m :
  success (set_disk_details d m) = success m.
Proof. reflexivity. Qed.

Lemma success_fallback_avg u m : success (fallback_avg u m) = success m.
Proof. destruct u; reflexivity. Qed.

Lemma success_parse_avg lines u m :
  success (parse_avg lines u m) = success m.
Proof.
  unfold parse_avg.
  destruct (2 <? length lines)%nat; [|apply success_fallback_avg].
  destruct (avg_disk_line lines) as [line|]; [|apply success_fallback_avg].
  destruct (float line) as [v|]; [|apply success_fallback_avg].
  destruct (percentage v); reflexivity.
Qed.

Lemma success_parse_efs lines m : success (parse_efs lines m) = success m.
Proof.
  unfold parse_efs.
  destruct (3 <? length lines)%nat; [|reflexivity].
  destruct (index_from_end lines 1) as [last|]; [|reflexivity].
  destruct (truthy (strip last) && negb (String.eqb (strip last) "NO_EFS"));
    [|reflexivity].
  destruct (parse_efs_details (strip last)); reflexivity.
Qed.

(** The success flag of the whole run is the one the memory line sets. *)
Lemma success_is_memory lines :
  success (get_fixed_ssm_metrics lines)
  = success (parse_memory lines initial_metrics).
Proof.
  unfold get_fixed_ssm_metrics. cbn [success set_collection_method].
  now rewrite success_parse_efs, success_parse_avg.
Qed.

Lemma percentage_spec v q :
  percentage v = Some q <-> v = Finite q /\ 0 <= q /\ q <= 100.
Proof.
  destruct v as [p| |]; simpl.
  - destruct (Qle_bool 0 p) eqn:H0, (Qle_bool p 100) eqn:H1; simpl;
      split; try discriminate.
    + intros [= <-]. now rewrite <- !Qle_bool_iff.
    + now intros [[= <-] _].
    + intros [[= <-] [_ H]]. apply Qle_bool_iff in H. congruence.
    + intros [[= <-] [H _]]. apply Qle_bool_iff in H. congruence.
    + intros [[= <-] [H _]]. apply Qle_bool_iff in H. congruence.
  - split; [discriminate | now intros [? _]].
  - split; [discriminate | now intros [? _]].
Qed.

Lemma disk_usage_avg_parse_efs lines m :
  disk_usage_avg (parse_efs lines m) = disk_usage_avg m.
Proof.
  unfold parse_efs.
  destruct (3 <? length lines)%nat; [|reflexivity].
  destruct (index_from_end lines 1) as [last|]; [|reflexivity].
  destruct (truthy (strip last) && negb (String.eqb (strip last) "NO_EFS"));
    [|reflexivity].
  destruct (parse_efs_details (strip last)); reflexivity.
Qed.

(** The average of the whole run is the one the average-disk step leaves. *)
Lemma disk_usage_avg_is_parse_avg lines :
  disk_usage_avg (get_fixed_ssm_metrics lines)
  = disk_usage_avg
      (parse_avg lines (map usage_percent (parse_disks lines))
         (set_disk_details (parse_disks lines)
            (parse_memory lines initial_metrics))).
Proof.
  unfold get_fixed_ssm_metrics. cbn [disk_usage_avg set_collection_method].
  now rewrite disk_usage_avg_parse_efs.
Qed.

Lemma disk_usage_avg_parse_memory lines :
  disk_usage_avg (parse_memory lines initial_metrics) = 0.
Proof.
  unfold parse_memory.
  destruct (index lines 0) as [l0|]; [|reflexivity].
  destruct (float l0) as [v|]; [|reflexivity].
  destruct (percentage v); reflexivity.
Qed.

Lemma disk_details_fallback_avg u m :
  disk_details (fallback_avg u m) = disk_details m.
Proof. destruct u; reflexivity. Qed.

(** The details of the whole run are the ones the filesystem loop appends. *)
Lemma disk_details_is_parse_disks lines :
  disk_details (get_fixed_ssm_metrics lines) = parse_disks lines.
Proof.
  unfold get_fixed_ssm_metrics. cbn [disk_details set_collection_method].
  assert (E : forall m, disk_details (parse_efs lines m) = disk_details m).
  { intros m. unfold parse_efs.
    destruct (3 <? length lines)%nat; [|reflexivity].
    destruct (index_from_end lines 1) as [last|]; [|reflexivity].
    destruct (truthy (strip last) && negb (String.eqb (strip last) "NO_EFS"));
      [|reflexivity].
    destruct (parse_efs_details (strip last)); reflexivity. }
  rewrite E. unfold parse_avg.
  destruct (2 <? length lines)%nat;
    [|now rewrite disk_details_fallback_avg].
  destruct (avg_disk_line lines) as [line|];
    [|now rewrite disk_details_fallback_avg].
  destruct (float line) as [v|]; [|now rewrite disk_details_fallback_avg].
  destruct (percentage v); reflexivity.
Qed.

End ExtractorFacts.

(** ** The claims about the extractor *)

(** C3.  On the four lines 42.50, /dev/sda1:55%, 30.00, NO_EFS the extractor
    reports memory 42.5, the single disk detail (/dev/sda1, 55), an average
    disk usage of 30, no network filesystem, and success. *)
Theorem extract_four_probe_lines :
  get_fixed_ssm_metrics ["42.50"; "/dev/sda1:55%"; "30.00"; "NO_EFS"]%string
  = {| memory_percent := 85 # 2;
       disk_usage_avg := 30;
       disk_details := [DiskDetail "/dev/sda1" 55];
       collection_method := "ssm_fixed";
       success := true;
       efs_attached := false;
       efs_details := None |}.
Proof. vm_compute. reflexivity. Qed.

(** C4, as stated, fails: with exactly two lines that both parse as
    percentages, the second is not reported as the average.  The lines
    42.50 and 30.00 give an average of 0. *)
Lemma two_lines_average_not_read :
  ~ (forall l0 l1 q0 q1,
        float l0 = Some (Finite q0) -> 0 <= q0 /\ q0 <= 100 ->
        float l1 = Some (Finite q1) -> 0 <= q1 /\ q1 <= 100 ->
        disk_usage_avg (get_fixed_ssm_metrics [l0; l1]) == q1).
Proof.
  intros H.
  specialize (H "42.50"%string "30.00"%string (85 # 2) 30).
  assert (E : disk_usage_avg
                (get_fixed_ssm_metrics ["42.50"; "30.00"]%string) == 30).
  { apply H; vm_compute; try reflexivity; split; discriminate. }
  vm_compute in E. discriminate.
Qed.

(** C4, amended.  With exactly two lines the average-disk line is not read
    and no filesystem line is visited: the average is 0 and there are no
    disk details, whatever the lines hold.  With exactly three lines whose
    last line parses as a float in [0,100], that value is the average. *)
Theorem average_line_read_from_three_lines :
  (forall l0 l1,
      disk_usage_avg (get_fixed_ssm_metrics [l0; l1]) = 0
      /\ disk_details (get_fixed_ssm_metrics [l0; l1]) = [])
  /\ (forall l0 l1 l2 q,
        float l2 = Some (Finite q) -> 0 <= q /\ q <= 100 ->
        disk_usage_avg (get_fixed_ssm_metrics [l0; l1; l2]) = q).
Proof.
  split.
  - intros l0 l1. split.
    + rewrite disk_usage_avg_is_parse_avg.
      unfold parse_disks, end_index, items_in_range; simpl.
      unfold parse_avg; simpl.
      apply disk_usage_avg_parse_memory.
    + reflexivity.
  - intros l0 l1 l2 q Hf Hq.
    rewrite disk_usage_avg_is_parse_avg.
    unfold parse_avg, avg_disk_line, index_from_end; simpl.
    rewrite Hf.
    assert (E : percentage (Finite q) = Some q)
      by (apply percentage_spec; tauto).
    rewrite E. reflexivity.
Qed.

Lemma average_line_read_from_three_lines_witness :
  disk_usage_avg
    (get_fixed_ssm_metrics ["42.50"; "/dev/sda1:55%"; "30.00"]%string) = 30.
Proof.
  apply (proj2 average_line_read_from_three_lines
           "42.50"%string "/dev/sda1:55%"%string "30.00"%string 30).
  - vm_compute. reflexivity.
  - split; discriminate.
Defined.

(** C5.  With more than two lines, the mean of the parsed filesystem
    percentages is used exactly when the average-disk line does not parse
    as a float: then the average is that mean (0 when no pair parsed); when
    the line parses, the average is its value if it lies in [0,100] and 0
    otherwise.  In particular, with more than three lines, a second-to-last
    line that parses to a value outside [0,100] leaves the average at 0
    even when filesystem pairs were parsed. *)
Theorem fallback_only_on_parse_failure (lines : list string) (line : string) :
  (2 < length lines)%nat ->
  avg_disk_line lines = Some line ->
  let usages := map usage_percent (parse_disks lines) in
  (float line = None ->
     disk_usage_avg (get_fixed_ssm_metrics lines)
     = match usages with [] => 0 | _ => Extractor.mean usages end)
  /\ (forall v, float line = Some v ->
        disk_usage_avg (get_fixed_ssm_metrics lines)
        = match percentage v with Some q => q | None => 0 end)
  /\ ((3 < length lines)%nat ->
      index_from_end lines 2 = Some line
      /\ forall v, float line = Some v -> percentage v = None ->
           usages <> [] ->
           disk_usage_avg (get_fixed_ssm_metrics lines) = 0).
Proof.
  intros Hlen Hline usages.
  assert (Hm : disk_usage_avg
                 (set_disk_details (parse_disks lines)
                    (parse_memory lines initial_metrics)) = 0)
    by apply disk_usage_avg_parse_memory.
  assert (Hv : forall v, float line = Some v ->
             disk_usage_avg (get_fixed_ssm_metrics lines)
             = match percentage v with Some q => q | None => 0 end).
  { intros v Hf. rewrite disk_usage_avg_is_parse_avg. unfold parse_avg.
    apply Nat.ltb_lt in Hlen. rewrite Hlen, Hline, Hf.
    destruct (percentage v); [reflexivity | exact Hm]. }
  split; [|split].
  - intros Hf. rewrite disk_usage_avg_is_parse_avg. unfold parse_avg.
    apply Nat.ltb_lt in Hlen. rewrite Hlen, Hline, Hf.
    fold usages. destruct usages; [exact Hm | reflexivity].
  - exact Hv.
  - intros H3. split.
    + unfold avg_disk_line in Hline. apply Nat.ltb_lt in H3.
      now rewrite H3 in Hline.
    + intros v Hf Hp _. rewrite (Hv v Hf), Hp. reflexivity.
Qed.

Lemma fallback_only_on_parse_failure_witness :
  disk_usage_avg
    (get_fixed_ssm_metrics
       ["42.50"; "/dev/sda1:55%"; "/dev/sdb:65%"; "130.00"; "NO_EFS"]%string)
  = 0.
Proof.
  refine (proj2 (proj2 (proj2 (fallback_only_on_parse_failure
    ["42.50"; "/dev/sda1:55%"; "/dev/sdb:65%"; "130.00"; "NO_EFS"]%string
    "130.00"%string _ _)) _) (Finite 130) _ _ _).
  - simpl. lia.
  - reflexivity.
  - simpl. lia.
  - vm_compute. reflexivity.
  - reflexivity.
  - vm_compute. discriminate.
Defined.

(** C6.  The success flag is true exactly when there is a first line and it
    parses as a float in [0,100]; it is the same for any two inputs with
    the same first line, so no later line (a malformed filesystem pair,
    average or network-filesystem line) changes it.  Every input yields a
    result, in which every filesystem line that parses is kept whatever the
    lines around it hold. *)
Theorem success_iff_memory_line_parses :
  (forall lines,
      success (get_fixed_ssm_metrics lines) = true
      <-> exists l0 q, index lines 0 = Some l0
                       /\ float l0 = Some (Finite q) /\ 0 <= q /\ q <= 100)
  /\ (forall l0 rest rest',
        success (get_fixed_ssm_metrics (l0 :: rest))
        = success (get_fixed_ssm_metrics (l0 :: rest')))
  /\ (forall lines,
        disk_details (get_fixed_ssm_metrics lines)
        = filter_map parse_disk_line
            (items_in_range 1 (end_index lines) lines)).
Proof.
  split; [|split].
  - intros lines. rewrite success_is_memory. unfold parse_memory.
    destruct (index lines 0) as [l0|].
    + destruct (float l0) as [v|] eqn:Hf.
      * destruct (percentage v) as [q|] eqn:Hp.
        -- apply percentage_spec in Hp. destruct Hp as [-> Hq].
           split; [intros _; now exists l0, q | reflexivity].
        -- split; [discriminate|].
           intros (l & q & [= <-] & Hf' & Hq). rewrite Hf in Hf'.
           injection Hf' as ->.
           assert (E : percentage (Finite q) = Some q)
             by (apply percentage_spec; tauto).
           congruence.
      * split; [discriminate|].
        intros (l & q & [= <-] & Hf' & _). congruence.
    + split; [discriminate|]. intros (l & q & H & _). discriminate.
  - intros l0 rest rest'. now rewrite !success_is_memory.
  - intros lines. apply disk_details_is_parse_disks.
Qed.

(** * Properties of the analyzer *)

(** Reduce the projections of a recommendation built by the classifier. *)
Ltac record_simpl :=
  cbn [update initial_recommendation instance_id name service current_type
       data_points cpu_stats ram_stats disk_stats action reason confidence
       priority estimated_monthly_savings estimated_monthly_cost_increase
       recommended_type].

(** Settle the three fields that identify a recommendation. *)
Ltac identity_fields :=
  record_simpl;
  split; [reflexivity | split; [reflexivity | split; [reflexivity|]]].

Section AnalyzerFacts.

Lemma Qltb_lt x y : Qltb x y = true <-> x < y.
Proof.
  unfold Qltb. rewrite negb_true_iff, <- not_true_iff_false, Qle_bool_iff.
  split; [apply Qnot_le_lt | apply Qlt_not_le].
Qed.

Lemma Qltb_ge x y : Qltb x y = false <-> y <= x.
Proof.
  unfold Qltb. rewrite negb_false_iff. apply Qle_bool_iff.
Qed.

(** *** The two shapes of a statistics dictionary *)

Lemma stats_of_no_number data column :
  numeric column data = [] ->
  _calculate_utilization_stats data column = reduced_stats.
Proof.
  intros H. unfold _calculate_utilization_stats. now rewrite H.
Qed.

Lemma stats_of_numbers data column :
  numeric column data <> [] ->
  exists l h,
    low_usage_percentage (_calculate_utilization_stats data column) = Some l
    /\ high_usage_percentage (_calculate_utilization_stats data column)
       = Some h.
Proof.
  intros H. unfold _calculate_utilization_stats.
  destruct (numeric column data); [congruence|].
  eexists _, _. split; reflexivity.
Qed.

Lemma stats_shape data column :
  (numeric column data = []
   /\ _calculate_utilization_stats data column = reduced_stats)
  \/ (numeric column data <> []
      /\ exists l h,
         low_usage_percentage (_calculate_utilization_stats data column)
         = Some l
         /\ high_usage_percentage (_calculate_utilization_stats data column)
            = Some h).
Proof.
  destruct (numeric column data) eqn:E.
  - left. split; [reflexivity | now apply stats_of_no_number].
  - right. assert (N : numeric column data <> []) by congruence.
    rewrite <- E. split; [assumption | now apply stats_of_numbers].
Qed.

(** *** The guards on computed statistics *)

Lemma upsize_condition_computed data column :
  exists b,
    upsize_condition (_calculate_utilization_stats data column) = Ok b.
Proof.
  destruct (stats_shape data column) as [[_ ->] | [_ (l & h & _ & Hh)]].
  - exists false. reflexivity.
  - unfold upsize_condition, getitem_high_usage_percentage. rewrite Hh.
    simpl. destruct (_ && _); eexists; reflexivity.
Qed.

Lemma memory_condition_computed data column :
  exists b,
    memory_condition (_calculate_utilization_stats data column) = Ok b.
Proof.
  destruct (stats_shape data column) as [[_ ->] | [_ (l & h & _ & Hh)]].
  - exists false. reflexivity.
  - unfold memory_condition, getitem_high_usage_percentage. rewrite Hh.
    simpl. destruct (_ && _); eexists; reflexivity.
Qed.

(** The downsize guard on computed statistics raises exactly when the CPU
    column has no number and the RAM statistics pass their two tests. *)
Lemma downsize_condition_computed data cpu_column ram :
  let cpu := _calculate_utilization_stats data cpu_column in
  (numeric cpu_column data = []
   /\ Qltb (avg ram) 25 && Qltb (p95 ram) 50 = true
   /\ downsize_condition cpu ram = Raise (KeyError "low_usage_percentage"))
  \/ ((numeric cpu_column data <> []
       \/ Qltb (avg ram) 25 && Qltb (p95 ram) 50 = false)
      /\ exists b, downsize_condition cpu ram = Ok b).
Proof.
  intros cpu. subst cpu.
  destruct (stats_shape data cpu_column) as [[E ->] | [N (l & h & Hl & _)]].
  - unfold downsize_condition. simpl.
    destruct (Qltb (avg ram) 25); simpl.
    + destruct (Qltb (p95 ram) 50); simpl.
      * left. auto.
      * right. split; [now right | now exists false].
    + right. split; [now right | now exists false].
  - right. split; [now left|].
    unfold downsize_condition, getitem_low_usage_percentage. rewrite Hl.
    simpl. destruct (_ && _); eexists; reflexivity.
Qed.

Lemma downsize_condition_iff cpu ram :
  downsize_condition cpu ram = Ok true <-> downsize_thresholds cpu ram.
Proof.
  unfold downsize_condition, downsize_thresholds, getitem_low_usage_percentage.
  rewrite <- !Qltb_lt.
  destruct (Qltb (avg cpu) 15), (Qltb (p95 cpu) 30), (Qltb (avg ram) 25),
    (Qltb (p95 ram) 50); simpl;
    try (split; [discriminate | intros (? & ? & ? & ? & _); discriminate]).
  destruct (low_usage_percentage cpu) as [l|]; simpl.
  - split.
    + intros [= H]. repeat split; trivial. exists l. split; trivial.
      now apply Qltb_lt.
    + intros (_ & _ & _ & _ & l' & [= <-] & H). apply Qltb_lt in H.
      now rewrite H.
  - split; [discriminate|]. intros (_ & _ & _ & _ & l' & H & _).
    discriminate.
Qed.

Lemma upsize_condition_iff cpu :
  upsize_condition cpu = Ok true <-> upsize_thresholds cpu.
Proof.
  unfold upsize_condition, upsize_thresholds, getitem_high_usage_percentage.
  rewrite <- !Qltb_lt.
  destruct (Qltb 75 (avg cpu)), (Qltb 90 (p95 cpu)); simpl;
    try (split; [discriminate | intros (? & ? & _); discriminate]).
  destruct (high_usage_percentage cpu) as [h|]; simpl.
  - split.
    + intros [= H]. repeat split; trivial. exists h. split; trivial.
      now apply Qltb_lt.
    + intros (_ & _ & h' & [= <-] & H). apply Qltb_lt in H. now rewrite H.
  - split; [discriminate|]. intros (_ & _ & h' & H & _). discriminate.
Qed.

Lemma memory_condition_iff ram :
  memory_condition ram = Ok true <-> memory_thresholds ram.
Proof.
  unfold memory_condition, memory_thresholds, getitem_high_usage_percentage.
  rewrite <- !Qltb_lt.
  destruct (Qltb 85 (avg ram)), (Qltb 95 (p95 ram)); simpl;
    try (split; [discriminate | intros (? & ? & _); discriminate]).
  destruct (high_usage_percentage ram) as [h|]; simpl.
  - split.
    + intros [= H]. repeat split; trivial. exists h. split; trivial.
      now apply Qltb_lt.
    + intros (_ & _ & h' & [= <-] & H). apply Qltb_lt in H. now rewrite H.
  - split; [discriminate|]. intros (_ & _ & h' & H & _). discriminate.
Qed.

(** *** The static tables *)

Lemma lookup_In {V} (d : dict V) k v : lookup d k = Some v -> In (k, v) d.
Proof.
  induction d as [|[k' v'] d IH]; simpl; [discriminate|].
  destruct (String.eqb k k') eqn:E.
  - intros [= <-]. apply String.eqb_eq in E. subst. now left.
  - intros H. right. now apply IH.
Qed.

Lemma get_hit {V} (d : dict V) k v default :
  lookup d k = Some v -> get d k default = v.
Proof. unfold get. now intros ->. Qed.

Lemma get_miss {V} (d : dict V) k default :
  lookup d k = None -> get d k default = default.
Proof. unfold get. now intros ->. Qed.

Lemma max0_nonneg x : 0 <= max0 x.
Proof.
  unfold max0. destruct (Qltb 0 x) eqn:E.
  - apply Qltb_lt in E. now apply Qlt_le_weak.
  - apply Qle_refl.
Qed.

Lemma max0_pos x : 0 < x -> max0 (Qred x) = Qred x /\ 0 < max0 (Qred x).
Proof.
  intros H. unfold max0.
  assert (E : Qltb 0 (Qred x) = true)
    by (apply Qltb_lt; now rewrite Qred_correct).
  rewrite E. split; [reflexivity | now rewrite Qred_correct].
Qed.

(** Every entry of a table satisfies a test that holds of all of them. *)
Lemma table_forall {V} (test : string -> V -> bool) (d : dict V) k v :
  forallb (fun kv => test (fst kv) (snd kv)) d = true ->
  lookup d k = Some v -> test k v = true.
Proof.
  intros Hall Hl. apply lookup_In in Hl.
  rewrite forallb_forall in Hall. exact (Hall (k, v) Hl).
Qed.

(** The type a downsize entry names is another type, and a cheaper one. *)
Lemma downsize_entry service ty smaller :
  lookup (downsize_map service) ty = Some smaller ->
  String.eqb smaller ty = false
  /\ _estimate_cost_savings ty smaller service
     = Qred (_get_instance_monthly_cost ty service
             - _get_instance_monthly_cost smaller service)
  /\ 0 < _estimate_cost_savings ty smaller service.
Proof.
  unfold downsize_map, _estimate_cost_savings, _get_instance_monthly_cost.
  destruct (String.eqb service "EC2"); intros H.
  - pose proof (table_forall
      (fun k v => negb (String.eqb v k)
                  && Qltb 0 (get ec2_costs k 50.0 - get ec2_costs v 50.0))
      ec2_downsize_map ty smaller eq_refl H) as T.
    apply andb_prop in T. destruct T as [T1 T2].
    apply negb_true_iff in T1. apply Qltb_lt in T2.
    split; [assumption|]. now apply max0_pos.
  - pose proof (table_forall
      (fun k v => negb (String.eqb v k)
                  && Qltb 0 (get rds_costs k 75.0 - get rds_costs v 75.0))
      rds_downsize_map ty smaller eq_refl H) as T.
    apply andb_prop in T. destruct T as [T1 T2].
    apply negb_true_iff in T1. apply Qltb_lt in T2.
    split; [assumption|]. now apply max0_pos.
Qed.

(** The type a memory-optimized entry names is another type, and a dearer
    one. *)
Lemma memory_optimized_entry service ty target :
  lookup (memory_optimized_map service) ty = Some target ->
  String.eqb target ty = false
  /\ 0 < _estimate_cost_increase ty target service.
Proof.
  unfold memory_optimized_map, _estimate_cost_increase,
    _get_instance_monthly_cost.
  destruct (String.eqb service "EC2"); intros H.
  - pose proof (table_forall
      (fun k v => negb (String.eqb v k)
                  && Qltb 0 (get ec2_costs v 50.0 - get ec2_costs k 50.0))
      ec2_memory_optimized_map ty target eq_refl H) as T.
    apply andb_prop in T. destruct T as [T1 T2].
    apply negb_true_iff in T1. apply Qltb_lt in T2.
    split; [assumption|]. now apply max0_pos.
  - pose proof (table_forall
      (fun k v => negb (String.eqb v k)
                  && Qltb 0 (get rds_costs v 75.0 - get rds_costs k 75.0))
      rds_memory_optimized_map ty target eq_refl H) as T.
    apply andb_prop in T. destruct T as [T1 T2].
    apply negb_true_iff in T1. apply Qltb_lt in T2.
    split; [assumption|]. now apply max0_pos.
Qed.

(** *** The classifier, branch by branch *)

Lemma classify_downsize_hit id nm svc ty cpu ram disk n smaller :
  downsize_condition cpu ram = Ok true ->
  lookup (downsize_map svc) ty = Some smaller ->
  _generate_instance_recommendation id nm svc ty cpu ram disk n
  = Ok (update (initial_recommendation id nm svc ty cpu ram disk n)
          downsize smaller
          (consistently_low_utilization (avg cpu) (avg ram)) high
          (if Qltb 100 (_estimate_cost_savings ty smaller svc)
           then high else medium)
          (_estimate_cost_savings ty smaller svc) 0).
Proof.
  intros Hc Hl. unfold _generate_instance_recommendation. rewrite Hc.
  cbn [bind]. unfold _get_smaller_instance_type.
  rewrite (get_hit _ _ _ _ Hl).
  destruct (downsize_entry _ _ _ Hl) as (-> & _). reflexivity.
Qed.

Lemma classify_downsize_miss id nm svc ty cpu ram disk n :
  downsize_condition cpu ram = Ok true ->
  lookup (downsize_map svc) ty = None ->
  _generate_instance_recommendation id nm svc ty cpu ram disk n
  = Ok (initial_recommendation id nm svc ty cpu ram disk n).
Proof.
  intros Hc Hl. unfold _generate_instance_recommendation. rewrite Hc.
  cbn [bind]. unfold _get_smaller_instance_type.
  rewrite (get_miss _ _ _ Hl), String.eqb_refl. reflexivity.
Qed.

Lemma downsize_condition_busy_cpu cpu ram :
  75 < avg cpu -> downsize_condition cpu ram = Ok false.
Proof.
  intros H. unfold downsize_condition.
  assert (E : Qltb (avg cpu) 15 = false).
  { apply Qltb_ge. apply Qlt_le_weak.
    apply Qlt_trans with (y := 75); [reflexivity | assumption]. }
  now rewrite E.
Qed.

Lemma downsize_condition_busy_ram cpu ram :
  85 < avg ram -> downsize_condition cpu ram = Ok false.
Proof.
  intros H. unfold downsize_condition.
  assert (E : Qltb (avg ram) 25 = false).
  { apply Qltb_ge. apply Qlt_le_weak.
    apply Qlt_trans with (y := 85); [reflexivity | assumption]. }
  rewrite E. now destruct (Qltb (avg cpu) 15), (Qltb (p95 cpu) 30).
Qed.

Lemma classify_upsize_miss id nm svc ty cpu ram disk n :
  upsize_condition cpu = Ok true ->
  lookup (upsize_map svc) ty = None ->
  _generate_instance_recommendation id nm svc ty cpu ram disk n
  = Ok (initial_recommendation id nm svc ty cpu ram disk n).
Proof.
  intros Hc Hl. unfold _generate_instance_recommendation.
  assert (Hbusy : 75 < avg cpu)
    by (apply upsize_condition_iff in Hc; apply Hc).
  rewrite (downsize_condition_busy_cpu cpu ram Hbusy), Hc.
  cbn [bind]. unfold _get_larger_instance_type.
  rewrite (get_miss _ _ _ Hl), String.eqb_refl. reflexivity.
Qed.

Lemma classify_memory_miss id nm svc ty cpu ram disk n :
  upsize_condition cpu = Ok false ->
  memory_condition ram = Ok true ->
  lookup (memory_optimized_map svc) ty = None ->
  _generate_instance_recommendation id nm svc ty cpu ram disk n
  = Ok (initial_recommendation id nm svc ty cpu ram disk n).
Proof.
  intros Hu Hc Hl. unfold _generate_instance_recommendation.
  assert (Hbusy : 85 < avg ram)
    by (apply memory_condition_iff in Hc; apply Hc).
  rewrite (downsize_condition_busy_ram cpu ram Hbusy), Hu, Hc.
  cbn [bind]. unfold _get_memory_optimized_type.
  rewrite (get_miss _ _ _ Hl), String.eqb_refl. reflexivity.
Qed.

Lemma initial_cost_report id nm svc ty cpu ram disk n :
  cost_report (initial_recommendation id nm svc ty cpu ram disk n).
Proof.
  unfold cost_report. record_simpl.
  repeat split; try apply Qle_refl. now left.
Qed.

(** Whatever the classifier returns names the instance it was given and
    reports its money as [cost_report] says. *)
Lemma classify_returns id nm svc ty cpu ram disk n rec :
  _generate_instance_recommendation id nm svc ty cpu ram disk n = Ok rec ->
  instance_id rec = id /\ current_type rec = ty /\ service rec = svc
  /\ cost_report rec.
Proof.
  unfold _generate_instance_recommendation.
  destruct (downsize_condition cpu ram) as [[|]|e]; cbn [bind];
    [| |discriminate].
  { unfold _get_smaller_instance_type, get.
    destruct (lookup (downsize_map svc) ty) as [smaller|] eqn:Hl.
    - destruct (downsize_entry _ _ _ Hl) as (-> & _ & Hpos).
      cbn [negb]. intros [= <-]. identity_fields.
      unfold cost_report; record_simpl;
        repeat split; try apply Qle_refl; auto.
      now apply Qlt_le_weak.
    - rewrite String.eqb_refl. cbn [negb]. intros [= <-]. identity_fields.
      apply initial_cost_report. }
  destruct (upsize_condition cpu) as [[|]|e]; cbn [bind]; [| |discriminate].
  { destruct (negb (String.eqb (_get_larger_instance_type ty svc) ty)).
    - intros [= <-]. identity_fields.
      unfold cost_report; record_simpl;
        repeat split; try apply Qle_refl; auto.
      apply max0_nonneg.
    - intros [= <-]. identity_fields.
      apply initial_cost_report. }
  destruct (memory_condition ram) as [[|]|e]; cbn [bind]; [| |discriminate].
  { unfold _get_memory_optimized_type, get.
    destruct (lookup (memory_optimized_map svc) ty) as [target|] eqn:Hl.
    - destruct (memory_optimized_entry _ _ _ Hl) as (-> & Hpos).
      cbn [negb]. intros [= <-]. identity_fields.
      unfold cost_report; record_simpl;
        repeat split; try apply Qle_refl; auto.
      now apply Qlt_le_weak.
    - rewrite String.eqb_refl. cbn [negb]. intros [= <-]. identity_fields.
      apply initial_cost_report. }
  destruct (storage_condition disk).
  - intros [= <-]. identity_fields.
    unfold cost_report; record_simpl;
      repeat split; try apply Qle_refl; auto.
  - intros [= <-]. identity_fields.
    apply initial_cost_report.
Qed.

(** The only exception the classifier raises on computed statistics is the
    missing key of the downsize guard. *)
Lemma classify_computed id nm svc ty data disk n :
  let cpu := _calculate_utilization_stats data CPUUtilization in
  let ram := _calculate_utilization_stats data RAMUtilization in
  (numeric CPUUtilization data = []
   /\ Qltb (avg ram) 25 && Qltb (p95 ram) 50 = true
   /\ _generate_instance_recommendation id nm svc ty cpu ram disk n
      = Raise (KeyError "low_usage_percentage"))
  \/ ((numeric CPUUtilization data <> []
       \/ Qltb (avg ram) 25 && Qltb (p95 ram) 50 = false)
      /\ exists rec,
         _generate_instance_recommendation id nm svc ty cpu ram disk n
         = Ok rec).
Proof.
  intros cpu ram.
  destruct (downsize_condition_computed data CPUUtilization ram)
    as [(E & T & R) | (C & b & R)]; fold cpu in R.
  - left. repeat split; trivial.
    unfold _generate_instance_recommendation. now rewrite R.
  - right. split; [assumption|].
    unfold _generate_instance_recommendation. rewrite R. cbn [bind].
    destruct b.
    { destruct (negb _); eexists; reflexivity. }
    destruct (upsize_condition_computed data CPUUtilization) as [b1 R1].
    fold cpu in R1. rewrite R1. cbn [bind]. destruct b1.
    { destruct (negb _); eexists; reflexivity. }
    destruct (memory_condition_computed data RAMUtilization) as [b2 R2].
    fold ram in R2. rewrite R2. cbn [bind]. destruct b2.
    { destruct (negb _); eexists; reflexivity. }
    destruct (storage_condition disk); eexists; reflexivity.
Qed.

(** *** The loop over the instances *)

Lemma In_unique x l : In x (unique String.eqb l) <-> In x l.
Proof.
  induction l as [|a l IH]; simpl; [tauto|].
  rewrite filter_In, IH. split.
  - intros [H | [H _]]; auto.
  - intros [H | H]; [now left|].
    destruct (String.eqb a x) eqn:E.
    + apply String.eqb_eq in E. now left.
    + right. now split.
Qed.

Lemma NoDup_unique l : NoDup (unique String.eqb l).
Proof.
  induction l as [|a l IH]; simpl; constructor.
  - rewrite filter_In. intros [_ H]. now rewrite String.eqb_refl in H.
  - now apply NoDup_filter.
Qed.

Lemma length_insert_row r l : length (insert_row r l) = S (length l).
Proof.
  induction l as [|y l IH]; simpl; [reflexivity|].
  destruct (date_le r y); simpl; congruence.
Qed.

Lemma length_sort_values_Date data :
  length (sort_values_Date data) = length data.
Proof.
  induction data as [|r data IH]; simpl; [reflexivity|].
  unfold sort_values_Date in *. simpl. now rewrite length_insert_row, IH.
Qed.

Lemma In_insert_row x r l : In x (insert_row r l) <-> x = r \/ In x l.
Proof.
  induction l as [|y l IH]; simpl.
  - split; intros [H | H]; auto.
  - destruct (date_le r y); simpl; [|rewrite IH]; split; intuition auto.
Qed.

Lemma In_sort_values_Date x data : In x (sort_values_Date data) <-> In x data.
Proof.
  induction data as [|r data IH]; simpl; [tauto|].
  unfold sort_values_Date in *. simpl. rewrite In_insert_row, IH.
  split; intros [H | H]; auto.
Qed.

Lemma iloc_last_some data :
  data <> [] -> exists r, iloc_last data = Ok r /\ In r data.
Proof.
  intros H. unfold iloc_last, index_from_end.
  destruct data as [|a data]; [congruence|]. cbn [length Nat.leb].
  destruct (nth_error (a :: data) (S (length data) - 1)) as [r|] eqn:E.
  - exists r. split; [reflexivity|]. now apply nth_error_In in E.
  - apply nth_error_None in E. simpl in E. lia.
Qed.

(** The rows of an instance that has at least seven of them have a latest
    record, which is one of these rows. *)
Lemma latest_record_exists recent id :
  (7 <= length (instance_rows recent id))%nat ->
  exists latest,
    iloc_last (sort_values_Date (instance_rows recent id)) = Ok latest
    /\ In latest recent /\ ID latest = id.
Proof.
  intros H.
  destruct (iloc_last_some (sort_values_Date (instance_rows recent id)))
    as (r & Hr & Hin).
  - intros E. apply (f_equal (@length row)) in E.
    rewrite length_sort_values_Date in E. simpl in E. lia.
  - exists r. split; [assumption|].
    apply (proj1 (In_sort_values_Date _ _)) in Hin.
    unfold instance_rows in Hin. apply filter_In in Hin. destruct Hin as [Hin E].
    apply String.eqb_eq in E. now split.
Qed.

(** One iteration, in the two cases of its first test. *)
Lemma analyze_instance_skipped dc recent id :
  (length (instance_rows recent id) < 7)%nat ->
  analyze_instance dc recent id = None.
Proof.
  intros H. unfold analyze_instance.
  apply Nat.ltb_lt in H. now rewrite H.
Qed.

Lemma analyze_instance_analyzed dc recent id latest :
  (7 <= length (instance_rows recent id))%nat ->
  iloc_last (sort_values_Date (instance_rows recent id)) = Ok latest ->
  analyze_instance dc recent id
  = Some (_generate_instance_recommendation id (Name_Tag latest)
            (Service latest) (Type_ latest)
            (_calculate_utilization_stats (instance_rows recent id)
               CPUUtilization)
            (_calculate_utilization_stats (instance_rows recent id)
               RAMUtilization)
            (disk_stats_of dc (instance_rows recent id))
            (length (instance_rows recent id))).
Proof.
  intros H L. unfold analyze_instance.
  apply Nat.ltb_ge in H. rewrite H, L. reflexivity.
Qed.

Lemma analyze_instance_none dc recent id :
  analyze_instance dc recent id = None <->
  (length (instance_rows recent id) < 7)%nat.
Proof.
  split; [|apply analyze_instance_skipped].
  unfold analyze_instance.
  destruct (length (instance_rows recent id) <? 7)%nat eqn:E;
    [intros _; now apply Nat.ltb_lt | discriminate].
Qed.

(** An analyzed instance either gets a recommendation that names it, or
    the missing-key error; the error arises exactly when its CPU column has
    no number and its RAM statistics pass the two tests of the downsize
    guard. *)
Lemma analyze_instance_result dc recent id :
  (7 <= length (instance_rows recent id))%nat ->
  let data := instance_rows recent id in
  let ram := _calculate_utilization_stats data RAMUtilization in
  (numeric CPUUtilization data = []
   /\ Qltb (avg ram) 25 && Qltb (p95 ram) 50 = true
   /\ analyze_instance dc recent id
      = Some (Raise (KeyError "low_usage_percentage")))
  \/ ((numeric CPUUtilization data <> []
       \/ Qltb (avg ram) 25 && Qltb (p95 ram) 50 = false)
      /\ exists rec,
         analyze_instance dc recent id = Some (Ok rec)
         /\ instance_id rec = id /\ cost_report rec).
Proof.
  intros H data ram.
  destruct (latest_record_exists recent id H) as (latest & L & _).
  rewrite (analyze_instance_analyzed dc recent id latest H L).
  fold data.
  destruct (classify_computed id (Name_Tag latest) (Service latest)
              (Type_ latest) data (disk_stats_of dc data) (length data))
    as [(E & T & R) | (C & rec & R)].
  - left. repeat split; trivial. now rewrite R.
  - right. split; [assumption|]. exists rec. rewrite R.
    apply classify_returns in R. tauto.
Qed.

Lemma analyze_instances_ok dc recent ids recs :
  analyze_instances dc recent ids = Ok recs ->
  (forall id rec, In id ids ->
     analyze_instance dc recent id = Some (Ok rec) -> In rec recs)
  /\ (forall rec, In rec recs ->
        exists id, In id ids
                   /\ analyze_instance dc recent id = Some (Ok rec)).
Proof.
  revert recs. induction ids as [|id ids IH]; simpl; intros recs.
  - intros [= <-]. split; [tauto | intros rec []].
  - destruct (analyze_instance dc recent id) as [[rec0|e]|] eqn:E;
      cbn [bind].
    + destruct (analyze_instances dc recent ids) as [recs0|e];
        cbn [bind]; [|discriminate].
      intros [= <-]. destruct (IH recs0 eq_refl) as [IH1 IH2]. split.
      * intros id' rec [<- | Hin] Hrec.
        -- left. congruence.
        -- right. eauto.
      * intros rec [<- | Hin]; [eauto|].
        destruct (IH2 rec Hin) as (id' & ? & ?). eauto.
    + discriminate.
    + intros Hrecs. destruct (IH recs Hrecs) as [IH1 IH2]. split.
      * intros id' rec [<- | Hin] Hrec; [congruence | eauto].
      * intros rec Hin. destruct (IH2 rec Hin) as (id' & ? & ?). eauto.
Qed.

(** The loop ends with an exception exactly when some iteration raises. *)
Lemma analyze_instances_raise dc recent ids :
  (exists e, analyze_instances dc recent ids = Raise e)
  <-> exists id e, In id ids
                   /\ analyze_instance dc recent id = Some (Raise e).
Proof.
  induction ids as [|id ids IH]; simpl.
  - split; [intros [e H]; discriminate | intros (id & e & [] & _)].
  - destruct (analyze_instance dc recent id) as [[rec0|e0]|] eqn:E;
      cbn [bind].
    + destruct (analyze_instances dc recent ids) as [recs0|e1]; cbn [bind].
      * split; [intros [e H]; discriminate|].
        intros (id' & e & [<- | Hin] & H); [congruence|].
        destruct (proj2 IH) as [e' He']; [eauto | discriminate].
      * split; [|eauto]. intros _.
        destruct (proj1 IH) as (id' & e & ? & ?); eauto.
    + split; eauto.
    + rewrite IH. split.
      * intros (id' & e & ? & ?); eauto.
      * intros (id' & e & [<- | Hin] & H); [congruence | eauto].
Qed.

Lemma analyze_instances_raised dc recent ids e :
  analyze_instances dc recent ids = Raise e ->
  exists id, In id ids /\ analyze_instance dc recent id = Some (Raise e).
Proof.
  induction ids as [|id ids IH]; simpl; [discriminate|].
  destruct (analyze_instance dc recent id) as [[rec0|e0]|] eqn:E; cbn [bind].
  - destruct (analyze_instances dc recent ids) as [recs0|e1]; cbn [bind];
      [discriminate|].
    intros [= <-]. destruct (IH eq_refl) as (id' & ? & ?). eauto.
  - intros [= <-]. eauto.
  - intros H. destruct (IH H) as (id' & ? & ?). eauto.
Qed.

(** *** The analysis as a whole *)

(** The analysis returns the recommendations of its loop, and raises what
    its loop raises. *)
Lemma analysis_is_loop now historical :
  match analyze_monthly_trends now historical with
  | Ok out =>
      analyze_instances (disk_usage_column historical)
        (recent_rows now historical) (recent_ids now historical)
      = Ok (recommendations out)
      /\ (forall s, analysis out = Some s ->
            total_recommendations s
            = length (actionable (recommendations out)))
  | Raise e =>
      analyze_instances (disk_usage_column historical)
        (recent_rows now historical) (recent_ids now historical)
      = Raise e
  end.
Proof.
  unfold analyze_monthly_trends, recent_ids, recent_rows.
  destruct (rows historical) as [|r0 rs] eqn:Er; cbn [is_empty].
  { simpl. split; [reflexivity | discriminate]. }
  destruct (filter (in_window now) (r0 :: rs)) as [|r1 recent] eqn:Ef;
    cbn [is_empty].
  { simpl. split; [reflexivity | discriminate]. }
  cbv zeta.
  destruct (analyze_instances _ _ _) as [recs|e]; cbn [bind].
  - cbn [recommendations analysis]. split; [reflexivity|].
    intros s [= <-]. reflexivity.
  - reflexivity.
Qed.

Lemma In_recent_ids now historical id :
  In id (recent_ids now historical)
  <-> instance_rows (recent_rows now historical) id <> [].
Proof.
  unfold recent_ids. rewrite In_unique, in_map_iff. unfold instance_rows.
  split.
  - intros (r & <- & Hin) E.
    assert (H : In r (filter (fun r' => String.eqb (ID r') (ID r))
                        (recent_rows now historical)))
      by (apply filter_In; split; [assumption | apply String.eqb_refl]).
    rewrite E in H. contradiction.
  - intros H.
    destruct (filter _ _) as [|r l] eqn:E; [congruence|].
    assert (Hin : In r (r :: l)) by now left.
    rewrite <- E in Hin. apply filter_In in Hin. destruct Hin as [Hin Hid].
    apply String.eqb_eq in Hid. eauto.
Qed.

Lemma analyzed_is_recent now historical id :
  (7 <= length (instance_rows (recent_rows now historical) id))%nat ->
  In id (recent_ids now historical).
Proof.
  intros H. apply In_recent_ids. intros E. rewrite E in H. simpl in H. lia.
Qed.

(** A recommendation an iteration produces is in what the analysis
    returns, when it returns. *)
Lemma analysis_contains now historical id rec out :
  analyze_instance (disk_usage_column historical)
    (recent_rows now historical) id = Some (Ok rec) ->
  analyze_monthly_trends now historical = Ok out ->
  In rec (recommendations out).
Proof.
  intros Hrec Hout.
  pose proof (analysis_is_loop now historical) as L. rewrite Hout in L.
  destruct L as [L _].
  apply (proj1 (analyze_instances_ok _ _ _ _ L) id rec); [|assumption].
  apply analyzed_is_recent.
  destruct (Nat.lt_ge_cases
              (length (instance_rows (recent_rows now historical) id)) 7)
    as [Hlt | Hge]; [|assumption].
  rewrite (analyze_instance_skipped _ _ _ Hlt) in Hrec. discriminate.
Qed.

(** A recommendation the analysis returns was produced by the iteration of
    an instance with at least seven rows in the window. *)
Lemma analysis_contains_only now historical rec out :
  analyze_monthly_trends now historical = Ok out ->
  In rec (recommendations out) ->
  exists id,
    (7 <= length (instance_rows (recent_rows now historical) id))%nat
    /\ analyze_instance (disk_usage_column historical)
         (recent_rows now historical) id = Some (Ok rec).
Proof.
  intros Hout Hin.
  pose proof (analysis_is_loop now historical) as L. rewrite Hout in L.
  destruct L as [L _].
  destruct (proj2 (analyze_instances_ok _ _ _ _ L) rec Hin) as (id & _ & H).
  exists id. split; [|assumption].
  destruct (Nat.lt_ge_cases
              (length (instance_rows (recent_rows now historical) id)) 7)
    as [Hlt | Hge]; [|assumption].
  rewrite (analyze_instance_skipped _ _ _ Hlt) in H. discriminate.
Qed.

Lemma analyze_instance_ok_inv dc recent id rec :
  analyze_instance dc recent id = Some (Ok rec) ->
  (7 <= length (instance_rows recent id))%nat /\ instance_id rec = id.
Proof.
  intros H.
  destruct (Nat.lt_ge_cases (length (instance_rows recent id)) 7)
    as [Hlt | Hge].
  - rewrite (analyze_instance_skipped _ _ _ Hlt) in H. discriminate.
  - split; [assumption|].
    destruct (analyze_instance_result dc recent id Hge)
      as [(_ & _ & R) | (_ & rec' & R & Hid & _)]; congruence.
Qed.

Lemma analyze_instance_raise_inv dc recent id e :
  analyze_instance dc recent id = Some (Raise e) ->
  (7 <= length (instance_rows recent id))%nat
  /\ e = KeyError "low_usage_percentage"
  /\ numeric CPUUtilization (instance_rows recent id) = []
  /\ Qltb (avg (_calculate_utilization_stats (instance_rows recent id)
                  RAMUtilization)) 25
     && Qltb (p95 (_calculate_utilization_stats (instance_rows recent id)
                     RAMUtilization)) 50 = true.
Proof.
  intros H.
  destruct (Nat.lt_ge_cases (length (instance_rows recent id)) 7)
    as [Hlt | Hge].
  - rewrite (analyze_instance_skipped _ _ _ Hlt) in H. discriminate.
  - split; [assumption|].
    destruct (analyze_instance_result dc recent id Hge)
      as [(E & T & R) | (_ & rec' & R & _)].
    + split; [congruence | now split].
    + congruence.
Qed.

Lemma loop_count dc recent ids recs :
  NoDup ids ->
  analyze_instances dc recent ids = Ok recs ->
  forall id,
    named id recs
    = if existsb (String.eqb id) ids
         && (7 <=? length (instance_rows recent id))%nat
      then 1%nat else 0%nat.
Proof.
  intros Hnd. revert recs.
  induction Hnd as [|id0 ids Hnotin Hnd IH];
    cbn [analyze_instances existsb]; intros recs.
  - intros [= <-] id. reflexivity.
  - assert (Hfresh : existsb (String.eqb id0) ids = false).
    { apply not_true_iff_false. intros E. apply existsb_exists in E.
      destruct E as (x & Hx & Ex). apply String.eqb_eq in Ex.
      subst. contradiction. }
    destruct (analyze_instance dc recent id0) as [[rec0|e]|] eqn:E;
      cbn [bind].
    + destruct (analyze_instances dc recent ids) as [recs0|e];
        cbn [bind]; [|discriminate].
      intros [= <-] id. specialize (IH recs0 eq_refl id).
      destruct (analyze_instance_ok_inv _ _ _ _ E) as [Hlen Hid].
      unfold named in *. cbn [filter]. rewrite Hid.
      destruct (String.eqb id0 id) eqn:Eid.
      * apply String.eqb_eq in Eid. subst id.
        rewrite String.eqb_refl. cbn [orb andb length].
        rewrite IH, Hfresh. cbn [andb].
        apply Nat.leb_le in Hlen. now rewrite Hlen.
      * rewrite IH. rewrite String.eqb_sym in Eid. now rewrite Eid.
    + discriminate.
    + intros Hrecs id. specialize (IH recs Hrecs id). rewrite IH.
      apply analyze_instance_none in E.
      destruct (String.eqb id id0) eqn:Eid; [|reflexivity].
      apply String.eqb_eq in Eid. subst id. rewrite Hfresh.
      cbn [orb andb]. apply Nat.leb_gt in E. now rewrite E.
Qed.

(** When the analysis returns, an instance with fewer than seven rows in
    the window has no recommendation in the result and an instance with
    seven or more has exactly one. *)
Lemma recommendation_count now historical out id :
  analyze_monthly_trends now historical = Ok out ->
  named id (recommendations out)
  = if (7 <=? length (instance_rows (recent_rows now historical) id))%nat
    then 1%nat else 0%nat.
Proof.
  intros Hout.
  pose proof (analysis_is_loop now historical) as L. rewrite Hout in L.
  destruct L as [L _].
  rewrite (loop_count _ _ _ _ (NoDup_unique _) L id).
  destruct (7 <=? length (instance_rows (recent_rows now historical) id))%nat
    eqn:E; [|now rewrite andb_false_r].
  apply Nat.leb_le in E. apply analyzed_is_recent in E.
  assert (X : existsb (String.eqb id) (recent_ids now historical) = true).
  { apply existsb_exists. exists id. split; [assumption|].
    apply String.eqb_refl. }
  unfold recent_ids in X. now rewrite X.
Qed.

Lemma ram_tests_iff (ram : stats) :
  Qltb (avg ram) 25 && Qltb (p95 ram) 50 = true
  <-> avg ram < 25 /\ p95 ram < 50.
Proof. now rewrite andb_true_iff, !Qltb_lt. Qed.

(** The analysis returns exactly when no analyzed instance combines a CPU
    column without numbers with RAM statistics that pass the two tests of
    the downsize guard. *)
Lemma analysis_returns_iff now historical :
  (exists out, analyze_monthly_trends now historical = Ok out)
  <-> forall id,
        let data := instance_rows (recent_rows now historical) id in
        let ram := _calculate_utilization_stats data RAMUtilization in
        (7 <= length data)%nat ->
        numeric CPUUtilization data <> []
        \/ ~ (avg ram < 25 /\ p95 ram < 50).
Proof.
  pose proof (analysis_is_loop now historical) as L. split.
  - intros [out Hout] id data ram Hlen. rewrite Hout in L.
    destruct L as [L _].
    destruct (analyze_instance_result (disk_usage_column historical)
                (recent_rows now historical) id Hlen)
      as [(_ & _ & R) | ([C | C] & _)].
    + exfalso.
      assert (X : exists e, analyze_instances (disk_usage_column historical)
                    (recent_rows now historical) (recent_ids now historical)
                  = Raise e).
      { apply analyze_instances_raise. exists id. eexists.
        split; [now apply analyzed_is_recent | exact R]. }
      destruct X as [e X]. congruence.
    + now left.
    + right. fold data ram in C. rewrite <- ram_tests_iff. congruence.
  - intros Hall.
    destruct (analyze_monthly_trends now historical) as [out|e];
      [eauto|].
    exfalso. apply analyze_instances_raised in L.
    destruct L as (id & _ & R).
    apply analyze_instance_raise_inv in R.
    destruct R as (Hlen & _ & E & T).
    apply ram_tests_iff in T.
    destruct (Hall id Hlen) as [C | C]; contradiction.
Qed.

(** Whatever the analysis raises is the missing key of the downsize
    guard. *)
Lemma analysis_raises_key_error now historical e :
  analyze_monthly_trends now historical = Raise e ->
  e = KeyError "low_usage_percentage".
Proof.
  intros H. pose proof (analysis_is_loop now historical) as L.
  rewrite H in L. apply analyze_instances_raised in L.
  destruct L as (id & _ & R). apply analyze_instance_raise_inv in R. tauto.
Qed.

End AnalyzerFacts.

(** ** The claims about the analyzer *)

(** C1, as stated, fails at the boundary [cpu95 = 30].  The instance of
    [boundary_history] has seven rows in the window, statistics that pass
    the test as the specification words it (CPU average 13.29, CPU 95th
    percentile exactly 30, RAM average and 95th percentile 10, 85.7 percent
    of low days) and a smaller type in the downsize table, yet the analysis
    leaves it at [monitor] with its type unchanged. *)
Lemma downsize_boundary_left_at_monitor :
  let data := instance_rows (recent_rows day_10 boundary_history) "i-edge" in
  let cpu := _calculate_utilization_stats data CPUUtilization in
  let ram := _calculate_utilization_stats data RAMUtilization in
  (7 <= length data)%nat
  /\ downsize_thresholds_as_specified cpu ram
  /\ p95 cpu = 30
  /\ lookup (downsize_map "EC2") "t3a.large" = Some "t3a.medium"%string
  /\ exists out rec,
       analyze_monthly_trends day_10 boundary_history = Ok out
       /\ recommendations out = [rec]
       /\ instance_id rec = "i-edge"%string
       /\ action rec = monitor
       /\ recommended_type rec = "t3a.large"%string.
Proof.
  cbv zeta. split; [vm_compute; lia|].
  split.
  { unfold downsize_thresholds_as_specified.
    repeat split; try (vm_compute; congruence).
    eexists. split; [vm_compute; reflexivity | vm_compute; reflexivity]. }
  split; [vm_compute; reflexivity|].
  split; [reflexivity|].
  eexists. eexists. split; [vm_compute; reflexivity|].
  repeat split.
Qed.

(** C1, amended: both percentile tests are strict.  An instance with at
    least seven rows in the window whose statistics satisfy cpuAvg < 15,
    cpu95 < 30, ramAvg < 25, ram95 < 50 and cpuLowPct > 70, and whose
    type, for the service of its latest record, has an entry in the
    downsize table, gets a recommendation with action downsize, the type of
    that entry (another type than the current one), confidence high, the
    price difference as savings, and priority high when the savings exceed
    100 and medium otherwise; the analysis returns it whenever it
    returns.  At the boundary the rule does not apply: an instance with
    cpu95 >= 30 or ram95 >= 50 gets a recommendation whose action is not
    downsize; when its averages are low (cpuAvg < 15 and ramAvg < 25) it
    keeps its type and reports no savings, and its action is monitor, or
    increase_storage when the disk rule applies. *)
Theorem downsize_rule now historical id latest :
  let recent := recent_rows now historical in
  let data := instance_rows recent id in
  let cpu := _calculate_utilization_stats data CPUUtilization in
  let ram := _calculate_utilization_stats data RAMUtilization in
  let disk := disk_stats_of (disk_usage_column historical) data in
  (7 <= length data)%nat ->
  iloc_last (sort_values_Date data) = Ok latest ->
  (forall smaller,
     downsize_thresholds cpu ram ->
     lookup (downsize_map (Service latest)) (Type_ latest) = Some smaller ->
     exists rec,
       analyze_instance (disk_usage_column historical) recent id
       = Some (Ok rec)
       /\ instance_id rec = id
       /\ current_type rec = Type_ latest
       /\ action rec = downsize
       /\ recommended_type rec = smaller
       /\ smaller <> Type_ latest
       /\ confidence rec = high
       /\ estimated_monthly_savings rec
          = _estimate_cost_savings (Type_ latest) smaller (Service latest)
       /\ (100 < estimated_monthly_savings rec -> priority rec = high)
       /\ (estimated_monthly_savings rec <= 100 -> priority rec = medium)
       /\ forall out, analyze_monthly_trends now historical = Ok out ->
                      In rec (recommendations out))
  /\ (30 <= p95 cpu \/ 50 <= p95 ram ->
      exists rec,
        analyze_instance (disk_usage_column historical) recent id
        = Some (Ok rec)
        /\ instance_id rec = id
        /\ current_type rec = Type_ latest
        /\ action rec <> downsize
        /\ (avg cpu < 15 -> avg ram < 25 ->
            recommended_type rec = Type_ latest
            /\ estimated_monthly_savings rec = 0
            /\ (storage_condition disk = false -> action rec = monitor)
            /\ (storage_condition disk = true ->
                action rec = increase_storage))
        /\ forall out, analyze_monthly_trends now historical = Ok out ->
                       In rec (recommendations out)).
Proof.
  intros recent data cpu ram disk Hlen Hlatest.
  pose proof (analyze_instance_analyzed (disk_usage_column historical)
                recent id latest Hlen Hlatest) as Hrec.
  fold data cpu ram disk in Hrec.
  split.
  - intros smaller Hth Htable.
    apply downsize_condition_iff in Hth.
    rewrite (classify_downsize_hit _ _ _ _ _ _ _ _ smaller Hth Htable)
      in Hrec.
    eexists. split; [exact Hrec|]. record_simpl.
    destruct (downsize_entry _ _ _ Htable) as (Hne & _ & _).
    repeat split.
    + intros ->. now rewrite String.eqb_refl in Hne.
    + intros H. apply Qltb_lt in H. now rewrite H.
    + intros H. apply Qltb_ge in H. now rewrite H.
    + intros out Hout. exact (analysis_contains _ _ _ _ _ Hrec Hout).
  - intros Hb.
    assert (Hd : downsize_condition cpu ram = Ok false).
    { unfold downsize_condition.
      destruct Hb as [H|H]; apply Qltb_ge in H; rewrite H;
        rewrite ?andb_false_r; reflexivity. }
    assert (Hu : avg cpu < 15 -> upsize_condition cpu = Ok false).
    { intros H. unfold upsize_condition.
      assert (E : Qltb 75 (avg cpu) = false) by (apply Qltb_ge; lra).
      now rewrite E. }
    assert (Hm : avg ram < 25 -> memory_condition ram = Ok false).
    { intros H. unfold memory_condition.
      assert (E : Qltb 85 (avg ram) = false) by (apply Qltb_ge; lra).
      now rewrite E. }
    unfold _generate_instance_recommendation in Hrec.
    rewrite Hd in Hrec. cbn [bind] in Hrec.
    destruct (upsize_condition_computed data CPUUtilization) as [bu Eu].
    destruct (memory_condition_computed data RAMUtilization) as [bm Em].
    fold cpu in Eu. fold ram in Em.
    rewrite Eu in Hrec. cbn [bind] in Hrec.
    assert (Hin : forall rec,
              analyze_instance (disk_usage_column historical) recent id
              = Some (Ok rec) ->
              forall out, analyze_monthly_trends now historical = Ok out ->
                          In rec (recommendations out)).
    { intros rec Hr out Hout. exact (analysis_contains _ _ _ _ _ Hr Hout). }
    destruct bu.
    { destruct (negb _); eexists; (split; [exact Hrec|]); record_simpl;
        (split; [reflexivity|]); (split; [reflexivity|]);
        (split; [discriminate|]);
        (split; [|now apply Hin]);
        intros Hc _; rewrite (Hu Hc) in Eu; discriminate. }
    rewrite Em in Hrec. cbn [bind] in Hrec.
    destruct bm.
    { destruct (negb _); eexists; (split; [exact Hrec|]); record_simpl;
        (split; [reflexivity|]); (split; [reflexivity|]);
        (split; [discriminate|]);
        (split; [|now apply Hin]);
        intros _ Hc; rewrite (Hm Hc) in Em; discriminate. }
    destruct (storage_condition disk) eqn:S;
      eexists; (split; [exact Hrec|]); record_simpl;
      (split; [reflexivity|]); (split; [reflexivity|]);
      (split; [discriminate|]);
      (split; [|now apply Hin]);
      intros _ _; (split; [reflexivity|]); (split; [reflexivity|]);
      split; intros; (reflexivity || discriminate).
Qed.

Lemma downsize_rule_witness :
  (exists rec,
     analyze_instance true (recent_rows day_10 idle_history) "i-idle"
     = Some (Ok rec)
     /\ action rec = downsize
     /\ recommended_type rec = "t3a.medium"%string
     /\ forall out, analyze_monthly_trends day_10 idle_history = Ok out ->
                    In rec (recommendations out))
  /\ (exists rec,
        analyze_instance true
          (recent_rows day_10 Scenarios.full_disk_memory_edge) "i-ram-edge"
        = Some (Ok rec)
        /\ action rec = increase_storage
        /\ recommended_type rec = "t3a.large"%string)
  /\ (exists rec,
        analyze_instance true (recent_rows day_10 boundary_history) "i-edge"
        = Some (Ok rec)
        /\ action rec = monitor
        /\ recommended_type rec = "t3a.large"%string).
Proof.
  split; [|split].
  - destruct (proj1 (downsize_rule day_10 idle_history "i-idle"
                       (Row (day 7) "EC2" "i-idle" "i-idle" "t3a.large"
                          (Some 5) (Some 10) (Some 40))
                       ltac:(vm_compute; lia) ltac:(vm_compute; reflexivity))
                "t3a.medium")
      as (rec & Hrec & _ & _ & Ha & Ht & _ & _ & _ & _ & _ & Hin).
    + unfold downsize_thresholds.
      repeat split; try (vm_compute; congruence).
      eexists. split; vm_compute; reflexivity.
    + reflexivity.
    + exists rec. repeat split; assumption.
  - destruct (proj2 (downsize_rule day_10 Scenarios.full_disk_memory_edge
                       "i-ram-edge"
                       (Row (day 7) "EC2" "i-ram-edge" "i-ram-edge"
                          "t3a.large" (Some 5) (Some 65) (Some 98))
                       ltac:(vm_compute; lia) ltac:(vm_compute; reflexivity)))
      as (rec & Hrec & _ & _ & _ & Hlow & _).
    + right. vm_compute. discriminate.
    + destruct Hlow as (Ht & _ & _ & Hs);
        [vm_compute; reflexivity | vm_compute; reflexivity|].
      exists rec. split; [exact Hrec|]. split; [|exact Ht].
      apply Hs. vm_compute. reflexivity.
  - destruct (proj2 (downsize_rule day_10 boundary_history "i-edge"
                       (Row (day 7) "EC2" "i-edge" "i-edge" "t3a.large"
                          (Some 39) (Some 10) (Some 40))
                       ltac:(vm_compute; lia) ltac:(vm_compute; reflexivity)))
      as (rec & Hrec & _ & _ & _ & Hlow & _).
    + left. vm_compute. discriminate.
    + destruct Hlow as (Ht & _ & Hs & _);
        [vm_compute; reflexivity | vm_compute; reflexivity|].
      exists rec. split; [exact Hrec|]. split; [|exact Ht].
      apply Hs. vm_compute. reflexivity.
Defined.

(** C2, as stated, fails on the classification.  The instance of
    [smallest_history] has seven rows in the window and meets the downsize
    thresholds, and its type t3a.micro has no entry in the downsize table;
    the recommendation the analysis returns for it is not classified as
    downsize: its action is [monitor]. *)
Lemma table_miss_keeps_action_monitor :
  let data :=
    instance_rows (recent_rows day_10 smallest_history) "i-micro" in
  let cpu := _calculate_utilization_stats data CPUUtilization in
  let ram := _calculate_utilization_stats data RAMUtilization in
  (7 <= length data)%nat
  /\ downsize_thresholds cpu ram
  /\ lookup (downsize_map "EC2") "t3a.micro" = None
  /\ exists out rec,
       analyze_monthly_trends day_10 smallest_history = Ok out
       /\ recommendations out = [rec]
       /\ instance_id rec = "i-micro"%string
       /\ action rec = monitor
       /\ action rec <> downsize.
Proof.
  cbv zeta. split; [vm_compute; lia|].
  split.
  { unfold downsize_thresholds.
    repeat split; try (vm_compute; congruence).
    eexists. split; vm_compute; reflexivity. }
  split; [reflexivity|].
  eexists. eexists. split; [vm_compute; reflexivity|].
  repeat split. discriminate.
Qed.

(** C2, amended.  Take an instance with at least seven rows in the window,
    and the first rule whose utilization thresholds it meets among
    downsize, upsize and optimize-memory; when the table of that rule has
    no entry for its type, no later rule is tried and the analysis raises
    no error for it: the recommendation is the initial one, with action
    monitor, the recommended type equal to the current type and no savings
    or cost increase.  The analysis returns it whenever it returns, and the
    count of actionable recommendations of the summary leaves it out. *)
Theorem table_miss_is_no_op now historical id latest :
  let recent := recent_rows now historical in
  let data := instance_rows recent id in
  let cpu := _calculate_utilization_stats data CPUUtilization in
  let ram := _calculate_utilization_stats data RAMUtilization in
  let rec :=
    initial_recommendation id (Name_Tag latest) (Service latest)
      (Type_ latest) cpu ram
      (disk_stats_of (disk_usage_column historical) data) (length data) in
  (7 <= length data)%nat ->
  iloc_last (sort_values_Date data) = Ok latest ->
  (downsize_thresholds cpu ram
   /\ lookup (downsize_map (Service latest)) (Type_ latest) = None)
  \/ (upsize_thresholds cpu
      /\ lookup (upsize_map (Service latest)) (Type_ latest) = None)
  \/ (~ upsize_thresholds cpu /\ memory_thresholds ram
      /\ lookup (memory_optimized_map (Service latest)) (Type_ latest)
         = None) ->
  analyze_instance (disk_usage_column historical) recent id = Some (Ok rec)
  /\ action rec = monitor
  /\ recommended_type rec = current_type rec
  /\ estimated_monthly_savings rec = 0
  /\ estimated_monthly_cost_increase rec = 0
  /\ forall out,
       analyze_monthly_trends now historical = Ok out ->
       In rec (recommendations out)
       /\ ~ In rec (actionable (recommendations out))
       /\ forall s, analysis out = Some s ->
            total_recommendations s
            = length (actionable (recommendations out)).
Proof.
  intros recent data cpu ram rec Hlen Hlatest Hbranch.
  pose proof (analyze_instance_analyzed (disk_usage_column historical)
                recent id latest Hlen Hlatest) as Hrec.
  fold data cpu ram in Hrec.
  assert (Hclass :
    _generate_instance_recommendation id (Name_Tag latest) (Service latest)
      (Type_ latest) cpu ram
      (disk_stats_of (disk_usage_column historical) data) (length data)
    = Ok rec).
  { destruct Hbranch as [[Hth Hl] | [[Hth Hl] | (Hno & Hth & Hl)]].
    - apply classify_downsize_miss; [|assumption].
      now apply downsize_condition_iff.
    - apply classify_upsize_miss; [|assumption].
      now apply upsize_condition_iff.
    - apply classify_memory_miss; [| |assumption].
      + destruct (upsize_condition_computed data CPUUtilization) as [b Hb].
        fold cpu in Hb. destruct b; [|assumption].
        apply upsize_condition_iff in Hb. contradiction.
      + now apply memory_condition_iff. }
  rewrite Hclass in Hrec.
  split; [assumption|]. repeat split.
  - exact (analysis_contains _ _ _ _ _ Hrec H).
  - unfold actionable. rewrite filter_In. intros [_ Hact]. discriminate.
  - pose proof (analysis_is_loop now historical) as L. rewrite H in L.
    apply L.
Qed.

Lemma table_miss_is_no_op_witness :
  exists rec,
    analyze_instance true (recent_rows day_10 smallest_history) "i-micro"
    = Some (Ok rec)
    /\ action rec = monitor
    /\ recommended_type rec = "t3a.micro"%string.
Proof.
  eexists.
  destruct (table_miss_is_no_op day_10 smallest_history "i-micro"
              (Row (day 7) "EC2" "i-micro" "i-micro" "t3a.micro"
                 (Some 5) (Some 10) (Some 98)))
    as (Hrec & Ha & Ht & _).
  - vm_compute. lia.
  - vm_compute. reflexivity.
  - left. split; [|reflexivity].
    unfold downsize_thresholds.
    repeat split; try (vm_compute; congruence).
    eexists. split; vm_compute; reflexivity.
  - split; [exact Hrec|]. split; [exact Ha | exact Ht].
Defined.

(** C7.  The threshold of seven rows.  Whenever the analysis returns, an
    instance with fewer than seven rows in the window has no recommendation
    in the output and an instance with seven rows or more has exactly one.
    And the analysis does return on every history in which the rows of the
    window carry a number in their CPU column, as the rows that the
    collectors write do (the CloudWatch value of lines 413 and 481): the
    key that the reduced statistics lack is then never read. *)
Theorem seven_samples_rule now historical :
  (forall out id,
     analyze_monthly_trends now historical = Ok out ->
     ((length (instance_rows (recent_rows now historical) id) < 7)%nat ->
      named id (recommendations out) = 0%nat)
     /\ ((7 <= length (instance_rows (recent_rows now historical) id))%nat ->
         named id (recommendations out) = 1%nat))
  /\ ((forall r, In r (recent_rows now historical) ->
                 CPUUtilization r <> None) ->
      exists out, analyze_monthly_trends now historical = Ok out).
Proof.
  split.
  - intros out id Hout.
    rewrite (recommendation_count now historical out id Hout).
    split; intros H.
    + apply Nat.leb_gt in H. now rewrite H.
    + apply Nat.leb_le in H. now rewrite H.
  - intros Hcpu. apply analysis_returns_iff. intros id data ram Hlen. left.
    destruct data as [|r rest] eqn:E; [simpl in Hlen; lia|].
    assert (Hr : In r (recent_rows now historical)).
    { assert (In r (instance_rows (recent_rows now historical) id))
        by (fold data; rewrite E; now left).
      unfold instance_rows in H. now apply filter_In in H. }
    specialize (Hcpu r Hr). unfold numeric. cbn [filter_map].
    destruct (CPUUtilization r); [discriminate | congruence].
Qed.

Lemma seven_samples_rule_witness :
  (exists out,
     analyze_monthly_trends day_10 Scenarios.silent_history = Ok out
     /\ named "i-est" (recommendations out) = 1%nat
     /\ named "i-idle" (recommendations out) = 0%nat)
  /\ (exists out,
        analyze_monthly_trends day_10 six_days_history = Ok out
        /\ named "i-na" (recommendations out) = 0%nat).
Proof.
  split.
  - destruct (proj2 (seven_samples_rule day_10 Scenarios.silent_history))
      as [out Hout].
    + intros r Hr. apply filter_In in Hr. destruct Hr as [Hr _].
      apply in_map_iff in Hr. destruct Hr as (d & <- & _). discriminate.
    + exists out. split; [exact Hout|].
      destruct (proj1 (seven_samples_rule day_10 Scenarios.silent_history)
                  out "i-est" Hout) as [_ H1].
      destruct (proj1 (seven_samples_rule day_10 Scenarios.silent_history)
                  out "i-idle" Hout) as [H0 _].
      split; [apply H1; vm_compute; lia | apply H0; vm_compute; lia].
  - destruct (analyze_monthly_trends day_10 six_days_history)
      as [out|e] eqn:A; [|vm_compute in A; discriminate].
    exists out. split; [reflexivity|].
    apply (proj1 (seven_samples_rule day_10 six_days_history) out "i-na" A).
    vm_compute. lia.
Defined.

(** C8, as stated, fails: a recommendation with another action than
    monitor can report neither savings nor a cost increase.  The
    increase-storage recommendation of [full_disk_history] has both at 0,
    and so has the upsize recommendation of [saturated_history], whose
    larger type m5.xlarge is priced below its t3a.2xlarge. *)
Lemma storage_and_cheaper_upsize_report_nothing :
  (exists out rec,
      analyze_monthly_trends day_10 full_disk_history = Ok out
      /\ recommendations out = [rec]
      /\ action rec = increase_storage
      /\ estimated_monthly_savings rec = 0
      /\ estimated_monthly_cost_increase rec = 0)
  /\ (exists out rec,
        analyze_monthly_trends day_10 saturated_history = Ok out
        /\ recommendations out = [rec]
        /\ action rec = upsize
        /\ recommended_type rec = "m5.xlarge"%string
        /\ estimated_monthly_savings rec = 0
        /\ estimated_monthly_cost_increase rec = 0).
Proof.
  split; eexists; eexists; (split; [vm_compute; reflexivity|]);
    repeat split.
Qed.

(** C8, amended.  In every recommendation the analysis returns, the
    savings and the cost increase are not negative and at most one of them
    is not zero.  Downsize reports the savings, max(0, current price -
    recommended price), which are positive for every entry of the downsize
    table, and no cost increase; upsize and optimize-memory report the cost
    increase, max(0, recommended price - current price), and no savings;
    the increase is positive for every entry of the memory-optimized table
    and may be zero for upsize; increase-storage and monitor report
    neither. *)
Theorem returned_cost_report now historical out rec :
  analyze_monthly_trends now historical = Ok out ->
  In rec (recommendations out) ->
  cost_report rec.
Proof.
  intros Hout Hin.
  destruct (analysis_contains_only _ _ _ _ Hout Hin) as (id & Hlen & Hrec).
  destruct (analyze_instance_result (disk_usage_column historical)
              (recent_rows now historical) id Hlen)
    as [(_ & _ & R) | (_ & rec' & R & _ & Hcost)]; congruence.
Qed.

Lemma returned_cost_report_witness :
  exists out,
    analyze_monthly_trends day_10 idle_history = Ok out
    /\ Forall cost_report (recommendations out).
Proof.
  eexists. split; [vm_compute; reflexivity|].
  constructor; [|constructor].
  eapply (returned_cost_report day_10 idle_history).
  - vm_compute. reflexivity.
  - left. reflexivity.
Defined.




(** C10.  For a column without numbers the statistics helper returns the
    reduced dictionary: avg, max, min, p95, p90 and low_usage_days, all
    zero, and no low_usage_percentage or high_usage_percentage.  An
    instance with at least seven rows in the window whose CPU and RAM cells
    hold no number makes its iteration, and with it the whole analysis,
    fail with the missing key low_usage_percentage.  The analysis returns
    exactly when every instance with at least seven rows in the window has
    a number in its CPU column or RAM statistics that fail ramAvg < 25 or
    ram95 < 50. *)
Theorem missing_key_breaks_analysis :
  (forall data column,
      numeric column data = [] ->
      _calculate_utilization_stats data column
      = {| avg := 0; max := 0; min := 0; p95 := 0; p90 := 0;
           low_usage_days := 0;
           high_usage_days := None; total_days := None;
           low_usage_percentage := None; high_usage_percentage := None |})
  /\ (forall now historical id,
        let data := instance_rows (recent_rows now historical) id in
        (7 <= length data)%nat ->
        numeric CPUUtilization data = [] ->
        numeric RAMUtilization data = [] ->
        analyze_instance (disk_usage_column historical)
          (recent_rows now historical) id
        = Some (Raise (KeyError "low_usage_percentage"))
        /\ analyze_monthly_trends now historical
           = Raise (KeyError "low_usage_percentage"))
  /\ (forall now historical,
        (exists out, analyze_monthly_trends now historical = Ok out)
        <-> forall id,
              let data := instance_rows (recent_rows now historical) id in
              let ram := _calculate_utilization_stats data RAMUtilization in
              (7 <= length data)%nat ->
              numeric CPUUtilization data <> []
              \/ ~ (avg ram < 25 /\ p95 ram < 50)).
Proof.
  split; [exact stats_of_no_number|]. split; [|exact analysis_returns_iff].
  intros now historical id data Hlen Hcpu Hram.
  assert (Hrec : analyze_instance (disk_usage_column historical)
                   (recent_rows now historical) id
                 = Some (Raise (KeyError "low_usage_percentage"))).
  { destruct (analyze_instance_result (disk_usage_column historical)
                (recent_rows now historical) id Hlen)
      as [(_ & _ & R) | ([C | C] & _)]; [assumption | contradiction |].
    fold data in C. rewrite (stats_of_no_number _ _ Hram) in C.
    discriminate. }
  split; [assumption|].
  destruct (analyze_monthly_trends now historical) as [out|e] eqn:E.
  - exfalso.
    assert (X : exists out', analyze_monthly_trends now historical = Ok out')
      by eauto.
    pose proof (proj1 (analysis_returns_iff now historical) X id Hlen)
      as Y.
    cbv zeta in Y. fold data in Y. rewrite (stats_of_no_number _ _ Hram) in Y.
    destruct Y as [Y | Y]; [contradiction|].
    apply Y. split; reflexivity.
  - f_equal. now apply analysis_raises_key_error in E.
Qed.

Lemma missing_key_breaks_analysis_witness :
  analyze_monthly_trends day_10 unavailable_history
  = Raise (KeyError "low_usage_percentage").
Proof.
  apply (proj1 (proj2 missing_key_breaks_analysis)
           day_10 unavailable_history "i-na"%string).
  - vm_compute. lia.
  - reflexivity.
  - reflexivity.
Defined.

(** * Further properties of the extractor *)

Section ExtractorInvariants.

Lemma percentage_range v q : percentage v = Some q -> 0 <= q /\ q <= 100.
Proof. intros H. apply percentage_spec in H. tauto. Qed.

Lemma memory_percent_is_memory lines :
  memory_percent (get_fixed_ssm_metrics lines)
  = memory_percent (parse_memory lines initial_metrics).
Proof.
  unfold get_fixed_ssm_metrics. cbn [memory_percent set_collection_method].
  assert (E : forall m, memory_percent (parse_efs lines m) = memory_percent m).
  { intros m. unfold parse_efs.
    destruct (3 <? length lines)%nat; [|reflexivity].
    destruct (index_from_end lines 1) as [last|]; [|reflexivity].
    destruct (truthy (strip last) && negb (String.eqb (strip last) "NO_EFS"));
      [|reflexivity].
    destruct (parse_efs_details (strip last)); reflexivity. }
  assert (F : forall u m, memory_percent (fallback_avg u m) = memory_percent m)
    by (intros [|] m; reflexivity).
  rewrite E. unfold parse_avg.
  destruct (2 <? length lines)%nat; [|now rewrite F].
  destruct (avg_disk_line lines) as [line|]; [|now rewrite F].
  destruct (float line) as [v|]; [|now rewrite F].
  destruct (percentage v); reflexivity.
Qed.

Lemma parse_disk_line_range line d :
  parse_disk_line line = Some d ->
  0 <= usage_percent d /\ usage_percent d <= 100.
Proof.
  unfold parse_disk_line. destruct (contains ":" line); [|discriminate].
  destruct (split_once ":" line) as [fs pct].
  destruct (float (remove "%" pct)) as [v|]; [|discriminate].
  destruct (percentage v) as [q|] eqn:E; [|discriminate].
  intros [= <-]. simpl. now apply percentage_range in E.
Qed.

Lemma filter_map_Forall {A B} (f : A -> option B) (P : B -> Prop) l :
  (forall x y, f x = Some y -> P y) -> Forall P (filter_map f l).
Proof.
  intros H. induction l as [|x l IH]; simpl; [constructor|].
  destruct (f x) as [y|] eqn:E; [constructor; eauto | assumption].
Qed.

Lemma parse_disks_range lines :
  Forall (fun d => 0 <= usage_percent d /\ usage_percent d <= 100)
    (parse_disks lines).
Proof.
  unfold parse_disks. apply filter_map_Forall. apply parse_disk_line_range.
Qed.

Lemma fold_Qplus_range (l : list Q) :
  Forall (fun q => 0 <= q /\ q <= 100) l ->
  forall a,
    a <= fold_left Qplus l a
    /\ fold_left Qplus l a <= a + 100 * inject_Z (Z.of_nat (length l)).
Proof.
  induction 1 as [|q l [Hq0 Hq1] Hl IH]; intros a.
  - simpl. split; [apply Qle_refl|].
    setoid_replace (a + 100 * inject_Z 0) with a by ring. apply Qle_refl.
  - cbn [fold_left length]. destruct (IH (a + q)) as [L U]. split.
    + apply Qle_trans with (y := a + q); [|assumption].
      setoid_replace a with (a + 0) at 1 by ring.
      now apply Qplus_le_compat; [apply Qle_refl|].
    + eapply Qle_trans; [exact U|].
      rewrite Nat2Z.inj_succ. unfold Z.succ. rewrite inject_Z_plus.
      setoid_replace (a + 100 * (inject_Z (Z.of_nat (length l)) + inject_Z 1))
        with (a + 100 + 100 * inject_Z (Z.of_nat (length l))) by ring.
      apply Qplus_le_compat; [|apply Qle_refl].
      now apply Qplus_le_compat; [apply Qle_refl|].
Qed.

(** The mean of percentages is a percentage. *)
Lemma mean_range (l : list Q) :
  l <> [] ->
  Forall (fun q => 0 <= q /\ q <= 100) l ->
  0 <= Extractor.mean l /\ Extractor.mean l <= 100.
Proof.
  intros Hne Hl. unfold Extractor.mean, Extractor.sum.
  rewrite Qred_correct.
  destruct (fold_Qplus_range l Hl 0) as [L U].
  assert (Hn : 0 < inject_Z (Z.of_nat (length l))).
  { destruct l; [congruence|]. rewrite <- (Zlt_Qlt 0). simpl length. lia. }
  split.
  - apply Qle_shift_div_l; [assumption|].
    now setoid_replace (0 * inject_Z (Z.of_nat (length l))) with 0 by ring.
  - apply Qle_shift_div_r; [assumption|].
    now setoid_replace (0 + 100 * inject_Z (Z.of_nat (length l)))
      with (100 * inject_Z (Z.of_nat (length l))) in U by ring.
Qed.

End ExtractorInvariants.

(** Every number the extractor reports is a percentage: the memory, each
    filesystem usage and the average disk usage lie in [0,100] whatever the
    lines hold; and the memory is 0 when the success flag is false. *)
Theorem extracted_values_are_percentages (lines : list string) :
  let m := get_fixed_ssm_metrics lines in
  (0 <= memory_percent m /\ memory_percent m <= 100)
  /\ (success m = false -> memory_percent m = 0)
  /\ Forall (fun d => 0 <= usage_percent d /\ usage_percent d <= 100)
       (disk_details m)
  /\ (0 <= disk_usage_avg m /\ disk_usage_avg m <= 100).
Proof.
  cbv zeta.
  rewrite memory_percent_is_memory, success_is_memory,
    disk_details_is_parse_disks, disk_usage_avg_is_parse_avg.
  assert (Z0 : 0 <= 0 /\ 0 <= 100) by (split; discriminate).
  split; [|split; [|split]].
  - unfold parse_memory. destruct (index lines 0) as [l0|]; [|exact Z0].
    destruct (float l0) as [v|]; [|exact Z0].
    destruct (percentage v) as [q|] eqn:E; [|exact Z0].
    simpl. now apply percentage_range in E.
  - unfold parse_memory. destruct (index lines 0) as [l0|]; [|reflexivity].
    destruct (float l0) as [v|]; [|reflexivity].
    destruct (percentage v) as [q|]; [discriminate | reflexivity].
  - apply parse_disks_range.
  - pose proof (parse_disks_range lines) as R.
    assert (Hm : disk_usage_avg
                   (set_disk_details (parse_disks lines)
                      (parse_memory lines initial_metrics)) = 0)
      by apply disk_usage_avg_parse_memory.
    assert (Hf : forall m, disk_usage_avg m = 0 ->
               0 <= disk_usage_avg
                      (fallback_avg (map usage_percent (parse_disks lines)) m)
               /\ disk_usage_avg
                    (fallback_avg (map usage_percent (parse_disks lines)) m)
                  <= 100).
    { intros m Hz. unfold fallback_avg.
      destruct (map usage_percent (parse_disks lines)) as [|u us] eqn:E.
      - rewrite Hz. exact Z0.
      - cbn [disk_usage_avg set_disk_usage_avg]. rewrite <- E.
        apply mean_range; [rewrite E; discriminate|].
        apply Forall_map. exact R. }
    unfold parse_avg.
    destruct (2 <? length lines)%nat; [|now apply Hf].
    destruct (avg_disk_line lines) as [line|]; [|now apply Hf].
    destruct (float line) as [v|]; [|now apply Hf].
    destruct (percentage v) as [q|] eqn:E.
    + simpl. now apply percentage_range in E.
    + rewrite Hm. exact Z0.
Qed.

(** Network-filesystem details are reported only together with the
    attached flag, and neither is reported for an output of three lines or
    fewer, where the last line is read as the average. *)
Theorem efs_details_only_when_attached (lines : list string) :
  let m := get_fixed_ssm_metrics lines in
  (efs_details m <> None -> efs_attached m = true)
  /\ ((length lines <= 3)%nat ->
      efs_attached m = false /\ efs_details m = None).
Proof.
  cbv zeta. unfold get_fixed_ssm_metrics.
  cbn [efs_details efs_attached set_collection_method].
  set (m0 := parse_avg lines _ _).
  assert (H0 : efs_attached m0 = false /\ efs_details m0 = None).
  { subst m0. unfold parse_avg.
    assert (F : forall u m, efs_attached (fallback_avg u m) = efs_attached m
                            /\ efs_details (fallback_avg u m) = efs_details m)
      by (intros [|] m; split; reflexivity).
    assert (M : efs_attached (set_disk_details (parse_disks lines)
                                (parse_memory lines initial_metrics)) = false
                /\ efs_details (set_disk_details (parse_disks lines)
                                  (parse_memory lines initial_metrics)) = None).
    { unfold parse_memory. destruct (index lines 0) as [l0|]; [|now split].
      destruct (float l0) as [v|]; [|now split].
      destruct (percentage v); now split. }
    destruct (2 <? length lines)%nat;
      [|destruct (F (map usage_percent (parse_disks lines))
                   (set_disk_details (parse_disks lines)
                      (parse_memory lines initial_metrics))) as [-> ->];
        exact M].
    destruct (avg_disk_line lines) as [line|];
      [|destruct (F (map usage_percent (parse_disks lines))
                   (set_disk_details (parse_disks lines)
                      (parse_memory lines initial_metrics))) as [-> ->];
        exact M].
    destruct (float line) as [v|];
      [|destruct (F (map usage_percent (parse_disks lines))
                   (set_disk_details (parse_disks lines)
                      (parse_memory lines initial_metrics))) as [-> ->];
        exact M].
    destruct (percentage v); exact M. }
  destruct H0 as [Ha Hd]. unfold parse_efs. split.
  - destruct (3 <? length lines)%nat; [|congruence].
    destruct (index_from_end lines 1) as [last|]; [|congruence].
    destruct (truthy (strip last) && negb (String.eqb (strip last) "NO_EFS")).
    + destruct (parse_efs_details (strip last)); reflexivity.
    + simpl. congruence.
  - intros Hlen. apply Nat.ltb_ge in Hlen. rewrite Hlen. now split.
Qed.

Lemma efs_details_only_when_attached_witness :
  efs_attached
    (get_fixed_ssm_metrics ["42.50"; "/dev/sda1:55%"; "fs-1:8E:0:1%"]%string)
  = false.
Proof.
  apply (proj2 (efs_details_only_when_attached
                  ["42.50"; "/dev/sda1:55%"; "fs-1:8E:0:1%"]%string)).
  simpl. lia.
Defined.

Section MiddleLines.

(** With a memory line, at least one middle line and the two closing
    lines, the filesystem loop visits exactly the middle lines. *)
Lemma middle_lines_visited l0 mid a e :
  mid <> [] ->
  items_in_range 1 (end_index (l0 :: mid ++ [a; e])) (l0 :: mid ++ [a; e])
  = mid.
Proof.
  intros Hne. unfold end_index, items_in_range.
  cbn [length]. rewrite length_app. cbn [length].
  assert (Hpos : (0 < length mid)%nat) by (destruct mid; [congruence | simpl; lia]).
  replace (3 <? Z.of_nat (S (length mid + 2)))%Z with true
    by (symmetry; apply Z.ltb_lt; lia).
  replace (Z.to_nat (Z.of_nat (S (length mid + 2)) - 2 - 1)) with (length mid)
    by lia.
  change (Z.to_nat 1) with 1%nat. cbn [skipn].
  rewrite firstn_app, firstn_all, Nat.sub_diag. simpl. apply app_nil_r.
Qed.

Lemma filter_map_app {A B} (f : A -> option B) l1 l2 :
  filter_map f (l1 ++ l2) = (filter_map f l1 ++ filter_map f l2)%list.
Proof.
  induction l1 as [|x l1 IH]; simpl; [reflexivity|].
  destruct (f x); simpl; now rewrite IH.
Qed.

End MiddleLines.

(** A filesystem line that does not parse is skipped without any effect on
    the others: in an output with a memory line, filesystem lines and the
    two closing lines, adding such a line anywhere among the filesystem
    lines leaves the reported details unchanged, and these are the parsed
    pairs of the other lines in their order. *)
Theorem malformed_pair_is_skipped l0 xs ys bad a e :
  parse_disk_line bad = None ->
  (xs ++ ys)%list <> [] ->
  disk_details (get_fixed_ssm_metrics (l0 :: (xs ++ bad :: ys) ++ [a; e]))
  = disk_details (get_fixed_ssm_metrics (l0 :: (xs ++ ys) ++ [a; e]))
  /\ disk_details (get_fixed_ssm_metrics (l0 :: (xs ++ ys) ++ [a; e]))
     = (filter_map parse_disk_line xs ++ filter_map parse_disk_line ys)%list.
Proof.
  intros Hbad Hne. rewrite !disk_details_is_parse_disks. unfold parse_disks.
  rewrite !middle_lines_visited;
    [|assumption | destruct xs; discriminate].
  rewrite !filter_map_app. cbn [filter_map]. rewrite Hbad. now split.
Qed.

Lemma malformed_pair_is_skipped_witness :
  disk_details
    (get_fixed_ssm_metrics
       ["42.50"; "/dev/sda1:55%"; "tmpfs"; "/dev/sdb:65%"; "60.00";
        "NO_EFS"]%string)
  = [DiskDetail "/dev/sda1" 55; DiskDetail "/dev/sdb" 65].
Proof.
  destruct (malformed_pair_is_skipped "42.50"%string ["/dev/sda1:55%"%string]
              ["/dev/sdb:65%"%string] "tmpfs"%string "60.00"%string
              "NO_EFS"%string) as [E1 E2].
  - reflexivity.
  - discriminate.
  - simpl app in E1, E2. rewrite E1, E2. vm_compute. reflexivity.
Defined.

(** * Further properties of the analyzer *)

Section AnalysisShape.

Lemma filter_idempotent {A} (f : A -> bool) l :
  filter f (filter f l) = filter f l.
Proof.
  induction l as [|x l IH]; simpl; [reflexivity|].
  destruct (f x) eqn:E; simpl; [rewrite E, IH|]; auto.
Qed.

(** The classifier copies what it was given into its result. *)
Lemma classify_keeps_inputs id nm svc ty cpu ram disk n rec :
  _generate_instance_recommendation id nm svc ty cpu ram disk n = Ok rec ->
  name rec = nm /\ data_points rec = n /\ cpu_stats rec = cpu
  /\ ram_stats rec = ram /\ disk_stats rec = disk.
Proof.
  unfold _generate_instance_recommendation.
  destruct (downsize_condition cpu ram) as [[|]|e]; cbn [bind];
    [| |discriminate].
  { destruct (negb _); intros [= <-]; repeat split. }
  destruct (upsize_condition cpu) as [[|]|e]; cbn [bind]; [| |discriminate].
  { destruct (negb _); intros [= <-]; repeat split. }
  destruct (memory_condition ram) as [[|]|e]; cbn [bind]; [| |discriminate].
  { destruct (negb _); intros [= <-]; repeat split. }
  destruct (storage_condition disk); intros [= <-]; repeat split.
Qed.

(** A recommendation of an iteration is the classifier's, on the latest
    record and the statistics of the rows of the instance. *)
Lemma analyze_instance_classified dc recent id rec :
  analyze_instance dc recent id = Some (Ok rec) ->
  exists latest,
    In latest recent /\ ID latest = id
    /\ _generate_instance_recommendation id (Name_Tag latest)
         (Service latest) (Type_ latest)
         (_calculate_utilization_stats (instance_rows recent id)
            CPUUtilization)
         (_calculate_utilization_stats (instance_rows recent id)
            RAMUtilization)
         (disk_stats_of dc (instance_rows recent id))
         (length (instance_rows recent id))
       = Ok rec.
Proof.
  intros H. destruct (analyze_instance_ok_inv _ _ _ _ H) as [Hlen _].
  destruct (latest_record_exists recent id Hlen) as (latest & L & Hin & Hid).
  exists latest. repeat split; trivial.
  rewrite (analyze_instance_analyzed dc recent id latest Hlen L) in H.
  congruence.
Qed.

Lemma loop_identifiers dc recent ids recs :
  analyze_instances dc recent ids = Ok recs ->
  map instance_id recs = filter (has_a_week recent) ids.
Proof.
  revert recs. induction ids as [|id ids IH];
    cbn [analyze_instances filter]; intros recs.
  - now intros [= <-].
  - unfold has_a_week at 1.
    destruct (analyze_instance dc recent id) as [[rec0|e]|] eqn:E;
      cbn [bind].
    + destruct (analyze_instances dc recent ids) as [recs0|e];
        cbn [bind]; [|discriminate].
      intros [= <-]. destruct (analyze_instance_ok_inv _ _ _ _ E) as [Hl Hid].
      apply Nat.leb_le in Hl. rewrite Hl. cbn [map].
      now rewrite Hid, (IH recs0 eq_refl).
    + discriminate.
    + intros H. apply analyze_instance_none in E. apply Nat.leb_gt in E.
      rewrite E. now apply IH.
Qed.

End AnalysisShape.

(** The analysis sees the history only through the rows of its window:
    rows dated more than 30 days before the clock, and rows whose date is
    not a date, change neither the recommendations nor any count of the
    two summaries. *)
Theorem analysis_of_the_window now historical :
  analyze_monthly_trends now historical
  = analyze_monthly_trends now
      {| disk_usage_column := disk_usage_column historical;
         rows := recent_rows now historical |}.
Proof.
  set (h' := {| disk_usage_column := disk_usage_column historical;
                rows := recent_rows now historical |}).
  assert (E : recent_rows now h' = recent_rows now historical)
    by (unfold recent_rows, h'; cbn [rows]; apply filter_idempotent).
  unfold analyze_monthly_trends, recent_ids. rewrite E.
  cbn [rows disk_usage_column h'].
  destruct (rows historical) as [|r rs] eqn:Er; cbn [is_empty].
  - unfold recent_rows. rewrite Er. reflexivity.
  - destruct (recent_rows now historical); reflexivity.
Qed.

(** When the analysis returns, its recommendations are those of the
    instances with at least seven rows in the window, one each, in the
    order in which the instances first appear in the window; each records
    the number of these rows as its data points. *)
Theorem recommendations_in_order_of_appearance now historical out :
  analyze_monthly_trends now historical = Ok out ->
  let recent := recent_rows now historical in
  map instance_id (recommendations out)
  = filter (has_a_week recent) (recent_ids now historical)
  /\ Forall (fun rec =>
               data_points rec
               = length (instance_rows recent (instance_id rec))
               /\ (7 <= data_points rec)%nat)
       (recommendations out).
Proof.
  intros Hout recent.
  pose proof (analysis_is_loop now historical) as L. rewrite Hout in L.
  destruct L as [L _]. split; [exact (loop_identifiers _ _ _ _ L)|].
  apply Forall_forall. intros rec Hin.
  destruct (analysis_contains_only _ _ _ _ Hout Hin) as (id & Hlen & Hrec).
  destruct (analyze_instance_ok_inv _ _ _ _ Hrec) as [_ Hid].
  destruct (analyze_instance_classified _ _ _ _ Hrec) as (latest & _ & _ & C).
  apply classify_keeps_inputs in C. destruct C as (_ & Hn & _).
  rewrite Hid, Hn. now split.
Qed.

Lemma recommendations_in_order_of_appearance_witness :
  exists out,
    analyze_monthly_trends day_10 idle_history = Ok out
    /\ map instance_id (recommendations out) = ["i-idle"%string].
Proof.
  eexists. split; [vm_compute; reflexivity|].
  refine (eq_trans (proj1 (recommendations_in_order_of_appearance
                             day_10 idle_history _ _)) _);
    vm_compute; reflexivity.
Defined.

Section ActionProfile.

(** What the classifier writes beside the action, branch by branch. *)
Lemma classify_action_profile id nm svc ty cpu ram disk n rec :
  _generate_instance_recommendation id nm svc ty cpu ram disk n = Ok rec ->
  match action rec with
  | monitor =>
      recommended_type rec = ty /\ confidence rec = medium
      /\ priority rec = low
  | downsize =>
      recommended_type rec <> ty /\ confidence rec = high
      /\ priority rec
         = (if Qltb 100 (estimated_monthly_savings rec) then high else medium)
  | upsize =>
      recommended_type rec <> ty /\ confidence rec = high
      /\ priority rec = high
  | optimize_memory =>
      recommended_type rec <> ty /\ confidence rec = medium
      /\ priority rec = medium
  | increase_storage =>
      recommended_type rec = ty /\ confidence rec = medium
      /\ priority rec = medium
  end.
Proof.
  assert (N : forall a b, negb (String.eqb a b) = true -> a <> b).
  { intros a b H ->. now rewrite String.eqb_refl in H. }
  unfold _generate_instance_recommendation.
  destruct (downsize_condition cpu ram) as [[|]|e]; cbn [bind];
    [| |discriminate].
  { destruct (negb _) eqn:E; intros [= <-]; record_simpl; repeat split.
    now apply N. }
  destruct (upsize_condition cpu) as [[|]|e]; cbn [bind]; [| |discriminate].
  { destruct (negb _) eqn:E; intros [= <-]; record_simpl; repeat split.
    now apply N. }
  destruct (memory_condition ram) as [[|]|e]; cbn [bind]; [| |discriminate].
  { destruct (negb _) eqn:E; intros [= <-]; record_simpl; repeat split.
    now apply N. }
  destruct (storage_condition disk); intros [= <-]; record_simpl;
    repeat split.
Qed.

Lemma analysis_summary_is now historical out s :
  analyze_monthly_trends now historical = Ok out ->
  analysis out = Some s ->
  s = _generate_monthly_summary (recent_rows now historical)
        (recommendations out).
Proof.
  unfold analyze_monthly_trends.
  destruct (is_empty (rows historical)).
  { intros [= <-]. discriminate. }
  destruct (is_empty (recent_rows now historical)).
  { intros [= <-]. discriminate. }
  cbv zeta.
  destruct (analyze_instances _ _ _) as [recs|e]; cbn [bind];
    [|discriminate].
  intros [= <-]. cbn [analysis recommendations]. now intros [= <-].
Qed.

Lemma count_of_increment a b counts :
  count_of a (increment b counts)
  = if Action_eqb a b
    then Some (S (match count_of a counts with Some n => n | None => 0 end))
    else count_of a counts.
Proof.
  assert (R : forall x, Action_eqb x x = true) by (intros []; reflexivity).
  assert (T : forall x y, Action_eqb x y = true -> x = y)
    by (intros [] []; simpl; congruence).
  induction counts as [|[c n] counts IH]; cbn [increment count_of].
  - destruct (Action_eqb a b); reflexivity.
  - destruct (Action_eqb b c) eqn:Ebc; cbn [count_of].
    + apply T in Ebc. subst c. destruct (Action_eqb a b); reflexivity.
    + destruct (Action_eqb a c) eqn:Eac.
      * destruct (Action_eqb a b) eqn:Eab; [|reflexivity].
        apply T in Eab. apply T in Eac. subst. now rewrite R in Ebc.
      * exact IH.
Qed.

(** The dictionary of counts after the loop of lines 1232-1234: what it
    held, plus the occurrences of each action; an action that does not
    occur and was not held is not listed. *)
Lemma count_of_fold a recs :
  forall counts,
    count_of a (fold_left (fun c rec => increment (action rec) c) recs counts)
    = match count_of a counts, with_action a recs with
      | None, O => None
      | None, S k => Some (S k)
      | Some n, k => Some (n + k)%nat
      end.
Proof.
  assert (S : forall x y, Action_eqb x y = Action_eqb y x)
    by (intros [] []; reflexivity).
  unfold with_action.
  induction recs as [|r recs IH]; intros counts; cbn [fold_left filter].
  - destruct (count_of a counts); [f_equal; simpl; lia | reflexivity].
  - rewrite IH, count_of_increment, (S (action r) a).
    destruct (Action_eqb a (action r)); cbn [length].
    + destruct (count_of a counts) as [n|]; f_equal; lia.
    + reflexivity.
Qed.

Lemma filter_partition_length {A} (f : A -> bool) l :
  (length (filter (fun x => negb (f x)) l) + length (filter f l)
   = length l)%nat.
Proof.
  induction l as [|x l IH]; simpl; [reflexivity|].
  destruct (f x); simpl; lia.
Qed.

Lemma filter_length_le {A} (f g : A -> bool) l :
  (forall x, In x l -> f x = true -> g x = true) ->
  (length (filter f l) <= length (filter g l))%nat.
Proof.
  induction l as [|x l IH]; simpl; intros H; [lia|].
  assert (IH' : (length (filter f l) <= length (filter g l))%nat)
    by (apply IH; auto).
  destruct (f x) eqn:E.
  - rewrite (H x (or_introl eq_refl) E). simpl. lia.
  - destruct (g x); simpl; lia.
Qed.

End ActionProfile.

(** In every recommendation the analysis returns, the recommended type
    differs from the current type exactly when the action is downsize,
    upsize or optimize-memory; and the action decides confidence and
    priority: monitor is medium and low, upsize high and high,
    optimize-memory and increase-storage medium and medium, downsize high
    with priority high exactly when the savings exceed 100 and medium
    otherwise. *)
Theorem action_decides_the_rest now historical out rec :
  analyze_monthly_trends now historical = Ok out ->
  In rec (recommendations out) ->
  (recommended_type rec <> current_type rec
   <-> action rec = downsize \/ action rec = upsize
       \/ action rec = optimize_memory)
  /\ match action rec with
     | monitor => confidence rec = medium /\ priority rec = low
     | downsize =>
         confidence rec = high
         /\ (100 < estimated_monthly_savings rec -> priority rec = high)
         /\ (estimated_monthly_savings rec <= 100 -> priority rec = medium)
     | upsize => confidence rec = high /\ priority rec = high
     | optimize_memory | increase_storage =>
         confidence rec = medium /\ priority rec = medium
     end.
Proof.
  intros Hout Hin.
  destruct (analysis_contains_only _ _ _ _ Hout Hin) as (id & _ & Hrec).
  destruct (analyze_instance_classified _ _ _ _ Hrec) as (latest & _ & _ & C).
  pose proof (classify_action_profile _ _ _ _ _ _ _ _ _ C) as P.
  apply classify_returns in C. destruct C as (_ & Hty & _). rewrite Hty.
  destruct (action rec); split;
    try (split; [intros H; tauto
                | intros [H | [H | H]]; discriminate]);
    try (split; [intros _; auto | intros _; tauto]);
    try tauto.
  destruct P as (_ & Hc & Hp). split; [assumption|]. rewrite Hp. split.
  - intros H. apply Qltb_lt in H. now rewrite H.
  - intros H. apply Qltb_ge in H. now rewrite H.
Qed.

Lemma action_decides_the_rest_witness :
  exists out,
    analyze_monthly_trends day_10 full_disk_history = Ok out
    /\ Forall (fun rec =>
                 action rec = increase_storage ->
                 confidence rec = medium /\ priority rec = medium)
         (recommendations out).
Proof.
  eexists. split; [vm_compute; reflexivity|].
  apply Forall_forall. intros rec Hin Ha.
  match type of Hin with
  | In _ (recommendations ?o) =>
      assert (Hout : analyze_monthly_trends day_10 full_disk_history = Ok o)
        by (vm_compute; reflexivity)
  end.
  pose proof (proj2 (action_decides_the_rest _ _ _ _ Hout Hin)) as P.
  rewrite Ha in P. exact P.
Defined.

(** The counts of the monthly summary agree with the recommendations: the
    action breakdown lists every action that occurs, once, with its number
    of occurrences, and no other; the actionable count and the number of
    monitor recommendations add up to the number of recommendations; and
    the high-priority count never exceeds the actionable count. *)
Theorem summary_counts_agree now historical out s :
  analyze_monthly_trends now historical = Ok out ->
  analysis out = Some s ->
  let recs := recommendations out in
  (forall a,
      count_of a (action_breakdown s)
      = match with_action a recs with O => None | k => Some k end)
  /\ (total_recommendations s + with_action monitor recs = length recs)%nat
  /\ (high_priority_count s <= total_recommendations s)%nat.
Proof.
  intros Hout Hs recs.
  rewrite (analysis_summary_is _ _ _ _ Hout Hs).
  unfold _generate_monthly_summary.
  cbn [action_breakdown total_recommendations high_priority_count].
  fold recs. split; [|split].
  - intros a. rewrite count_of_fold. cbn [count_of].
    destruct (with_action a recs); reflexivity.
  - unfold with_action.
    apply (filter_partition_length (fun r => Action_eqb (action r) monitor)).
  - apply filter_length_le. intros rec Hin Hp.
    destruct (action_decides_the_rest _ _ _ _ Hout Hin) as [_ P].
    destruct (action rec), (priority rec); try reflexivity;
      try discriminate; destruct P; discriminate.
Qed.

Lemma summary_counts_agree_witness :
  exists out s,
    analyze_monthly_trends day_10 idle_history = Ok out
    /\ analysis out = Some s
    /\ (high_priority_count s <= total_recommendations s)%nat.
Proof.
  eexists. eexists. split; [vm_compute; reflexivity|].
  split; [reflexivity|].
  match goal with
  | |- (high_priority_count ?s <= _)%nat =>
      refine (proj2 (proj2 (summary_counts_agree day_10 idle_history _ s
                              _ _)))
  end; [vm_compute; reflexivity | reflexivity].
Defined.

(** * Bounds on the statistics *)

Section NumericBounds.

Lemma round_half_even_ge (z : Z) (x : Q) :
  inject_Z z <= x -> (z <= round_half_even x)%Z.
Proof.
  intros H. unfold round_half_even.
  apply Qfloor_resp_le in H. rewrite Qfloor_Z in H.
  destruct (Qcompare _ _); [destruct (Z.even _)|..]; lia.
Qed.

Lemma round_half_even_le (z : Z) (x : Q) :
  x <= inject_Z z -> (round_half_even x <= z)%Z.
Proof.
  intros H. unfold round_half_even.
  pose proof (Qfloor_resp_le _ _ H) as F. rewrite Qfloor_Z in F.
  destruct (Z.eq_dec (Qfloor x) z) as [E|N].
  - assert (L : x - inject_Z (Qfloor x) < 1 # 2) by (rewrite E; lra).
    cbv zeta. rewrite (proj1 (Qlt_alt _ _) L). lia.
  - destruct (Qcompare _ _); [destruct (Z.even _)|..]; lia.
Qed.

(** Rounding to the nearest is monotone. *)
Lemma round_half_even_mono (x y : Q) :
  x <= y -> (round_half_even x <= round_half_even y)%Z.
Proof.
  intros H. pose proof (Qfloor_resp_le _ _ H) as F.
  destruct (Z.eq_dec (Qfloor x) (Qfloor y)) as [E|N].
  - unfold round_half_even. rewrite <- E.
    destruct (Qcompare (x - inject_Z (Qfloor x)) (1 # 2)) eqn:Cx;
      destruct (Qcompare (y - inject_Z (Qfloor x)) (1 # 2)) eqn:Cy;
      try (destruct (Z.even (Qfloor x))); try lia; exfalso;
      first [apply (proj2 (Qeq_alt _ _)) in Cx
            | apply (proj2 (Qlt_alt _ _)) in Cx
            | apply (proj2 (Qgt_alt _ _)) in Cx];
      first [apply (proj2 (Qeq_alt _ _)) in Cy
            | apply (proj2 (Qlt_alt _ _)) in Cy
            | apply (proj2 (Qgt_alt _ _)) in Cy]; lra.
  - apply Z.le_trans with (Qfloor y).
    + assert (round_half_even x <= Qfloor x + 1)%Z; [|lia].
      unfold round_half_even.
      destruct (Qcompare _ _); [destruct (Z.even _)|..]; lia.
    + unfold round_half_even.
      destruct (Qcompare _ _); [destruct (Z.even _)|..]; lia.
Qed.

Lemma round_value (q : Q) (n : nat) :
  let p := Z.to_pos (10 ^ Z.of_nat n) in
  round q n == round_half_even (q * inject_Z (Zpos p)) # p.
Proof. cbv zeta. unfold round. apply Qred_correct. Qed.

Lemma round_mono (x y : Q) (n : nat) : x <= y -> round x n <= round y n.
Proof.
  intros H. rewrite !round_value. set (p := Z.to_pos _).
  assert (M : x * inject_Z (Zpos p) <= y * inject_Z (Zpos p)).
  { apply Qmult_le_compat_r; [exact H|]. unfold Qle. simpl. lia. }
  apply round_half_even_mono in M. unfold Qle. simpl. nia.
Qed.

(** Rounding does not leave an interval with integer ends. *)
Lemma round_between (lo hi : Z) (q : Q) (n : nat) :
  inject_Z lo <= q -> q <= inject_Z hi ->
  inject_Z lo <= round q n /\ round q n <= inject_Z hi.
Proof.
  intros L H. rewrite !round_value. set (p := Z.to_pos _).
  assert (P : 0 <= inject_Z (Zpos p)) by (unfold Qle; simpl; lia).
  split.
  - assert (M : inject_Z (lo * Zpos p) <= q * inject_Z (Zpos p)).
    { rewrite inject_Z_mult. now apply Qmult_le_compat_r. }
    apply round_half_even_ge in M. unfold Qle. simpl. lia.
  - assert (M : q * inject_Z (Zpos p) <= inject_Z (hi * Zpos p)).
    { rewrite inject_Z_mult. now apply Qmult_le_compat_r. }
    apply round_half_even_le in M. unfold Qle. simpl. lia.
Qed.

Lemma fold_Qplus_between (lo hi : Q) (l : list Q) :
  Forall (fun q => lo <= q /\ q <= hi) l ->
  forall a,
    a + lo * inject_Z (Z.of_nat (length l)) <= fold_left Qplus l a
    /\ fold_left Qplus l a <= a + hi * inject_Z (Z.of_nat (length l)).
Proof.
  induction 1 as [|q l [Hq0 Hq1] Hl IH]; intros a.
  - cbn [fold_left length]. change (inject_Z (Z.of_nat 0)) with 0.
    split; lra.
  - cbn [fold_left length]. destruct (IH (a + q)) as [L U].
    rewrite Nat2Z.inj_succ. unfold Z.succ. rewrite inject_Z_plus.
    change (inject_Z 1) with 1. split; lra.
Qed.

(** The mean lies between any two bounds of the values. *)
Lemma mean_between (lo hi : Q) (l : list Q) :
  l <> [] ->
  Forall (fun q => lo <= q /\ q <= hi) l ->
  lo <= Analyzer.mean l /\ Analyzer.mean l <= hi.
Proof.
  intros Hne Hl. unfold Analyzer.mean, Analyzer.sum.
  destruct (fold_Qplus_between lo hi l Hl 0) as [L U].
  assert (Hn : 0 < inject_Z (Z.of_nat (length l))).
  { destruct l; [congruence|]. rewrite <- (Zlt_Qlt 0). simpl length. lia. }
  split.
  - apply Qle_shift_div_l; [assumption|]. lra.
  - apply Qle_shift_div_r; [assumption|]. lra.
Qed.

Lemma fold_max_spec (vs : list Q) : forall v,
  let m := fold_left (fun a b => if Qltb a b then b else a) vs v in
  In m (v :: vs) /\ Forall (fun q => q <= m) (v :: vs).
Proof.
  induction vs as [|w vs IH]; intros v; cbv zeta.
  - simpl. split; [now left|]. constructor; [lra | constructor].
  - cbn [fold_left].
    destruct (IH (if Qltb v w then w else v)) as [I F].
    cbv zeta in I, F. inversion F as [|? ? F1 F2]; subst.
    split.
    + destruct I as [I|I]; [|now right; right].
      rewrite <- I. destruct (Qltb v w); [right; now left | now left].
    + destruct (Qltb v w) eqn:C.
      * apply Qltb_lt in C. constructor; [lra|]. now constructor.
      * apply Qltb_ge in C. constructor; [exact F1|].
        constructor; [lra | exact F2].
Qed.

Lemma fold_min_spec (vs : list Q) : forall v,
  let m := fold_left (fun a b => if Qltb b a then b else a) vs v in
  In m (v :: vs) /\ Forall (fun q => m <= q) (v :: vs).
Proof.
  induction vs as [|w vs IH]; intros v; cbv zeta.
  - simpl. split; [now left|]. constructor; [lra | constructor].
  - cbn [fold_left].
    destruct (IH (if Qltb w v then w else v)) as [I F].
    cbv zeta in I, F. inversion F as [|? ? F1 F2]; subst.
    split.
    + destruct I as [I|I]; [|now right; right].
      rewrite <- I. destruct (Qltb w v); [right; now left | now left].
    + destruct (Qltb w v) eqn:C.
      * apply Qltb_lt in C. constructor; [lra|]. now constructor.
      * apply Qltb_ge in C. constructor; [exact F1|].
        constructor; [lra | exact F2].
Qed.

(** The largest and the smallest value are values, and bound the others. *)
Lemma series_max_spec (values : list Q) :
  values <> [] ->
  In (series_max values) values
  /\ Forall (fun q => q <= series_max values) values.
Proof.
  destruct values as [|v vs]; [congruence|]. intros _.
  apply fold_max_spec.
Qed.

Lemma series_min_spec (values : list Q) :
  values <> [] ->
  In (series_min values) values
  /\ Forall (fun q => series_min values <= q) values.
Proof.
  destruct values as [|v vs]; [congruence|]. intros _.
  apply fold_min_spec.
Qed.

Lemma insert_sorted_Forall (P : Q -> Prop) x l :
  P x -> Forall P l -> Forall P (insert_sorted x l).
Proof.
  intros Hx. induction 1 as [|y l Hy Hl IH]; simpl.
  - now constructor.
  - destruct (Qle_bool x y); repeat constructor; assumption.
Qed.

Lemma sort_Forall (P : Q -> Prop) l : Forall P l -> Forall P (sort l).
Proof.
  induction 1; simpl; [constructor | now apply insert_sorted_Forall].
Qed.

Lemma length_insert_sorted x l :
  length (insert_sorted x l) = S (length l).
Proof.
  induction l as [|y l IH]; simpl; [reflexivity|].
  destruct (Qle_bool x y); simpl; congruence.
Qed.

Lemma length_sort l : length (sort l) = length l.
Proof.
  induction l; simpl; [reflexivity|].
  rewrite length_insert_sorted. congruence.
Qed.

(** A quantile lies between any two bounds of the values. *)
Lemma quantile_between (lo hi : Q) (values : list Q) (q : Q) :
  values <> [] -> 0 <= q -> q <= 1 ->
  Forall (fun v => lo <= v /\ v <= hi) values ->
  lo <= quantile values q /\ quantile values q <= hi.
Proof.
  intros Hne Hq0 Hq1 Hl. unfold quantile.
  set (n1 := inject_Z (Z.of_nat (length values - 1))).
  set (k := Qfloor (q * n1)).
  assert (Hn1 : 0 <= n1).
  { unfold n1. rewrite <- (Zle_Qle 0). lia. }
  assert (Hpos0 : 0 <= q * n1) by nra.
  assert (Hpos1 : q * n1 <= n1) by nra.
  assert (Hk0 : (0 <= k)%Z).
  { unfold k. change 0%Z with (Qfloor 0). now apply Qfloor_resp_le. }
  assert (Hk1 : (k <= Z.of_nat (length values - 1))%Z).
  { unfold k. rewrite <- (Qfloor_Z (Z.of_nat (length values - 1))).
    now apply Qfloor_resp_le. }
  assert (Hlen : (Z.to_nat k < length (sort values))%nat).
  { rewrite length_sort. destruct values; [congruence|]. simpl length in *.
    lia. }
  pose proof (sort_Forall _ _ Hl) as Hs. rewrite Forall_forall in Hs.
  assert (Ha : lo <= nth (Z.to_nat k) (sort values) 0
               /\ nth (Z.to_nat k) (sort values) 0 <= hi).
  { apply Hs. now apply nth_In. }
  set (a := nth (Z.to_nat k) (sort values) 0) in *.
  assert (Hb : lo <= nth (Z.to_nat k + 1) (sort values) a
               /\ nth (Z.to_nat k + 1) (sort values) a <= hi).
  { destruct (Nat.lt_ge_cases (Z.to_nat k + 1) (length (sort values)))
      as [Lt|Ge].
    - apply Hs. now apply nth_In.
    - rewrite nth_overflow by assumption. exact Ha. }
  set (b := nth (Z.to_nat k + 1) (sort values) a) in *.
  assert (Hf0 : 0 <= q * n1 - inject_Z k).
  { pose proof (Qfloor_le (q * n1)). fold k in H. lra. }
  assert (Hf1 : q * n1 - inject_Z k <= 1).
  { pose proof (Qlt_floor (q * n1)) as H. fold k in H.
    rewrite inject_Z_plus in H. change (inject_Z 1) with 1 in H. lra. }
  set (f := q * n1 - inject_Z k) in *.
  destruct Ha, Hb. split; nra.
Qed.

Lemma count_le (p : Q -> bool) (values : list Q) :
  (count p values <= length values)%nat.
Proof. unfold count. apply List.filter_length_le. Qed.

(** A share of the days, as a percentage with one decimal. *)
Lemma share_range (k n : nat) :
  (k <= n)%nat -> (0 < n)%nat ->
  0 <= round (inject_Z (Z.of_nat k) / inject_Z (Z.of_nat n) * 100) 1
  /\ round (inject_Z (Z.of_nat k) / inject_Z (Z.of_nat n) * 100) 1 <= 100.
Proof.
  intros Hk Hn.
  assert (N : 0 < inject_Z (Z.of_nat n)) by (rewrite <- (Zlt_Qlt 0); lia).
  assert (K0 : 0 <= inject_Z (Z.of_nat k)) by (rewrite <- (Zle_Qle 0); lia).
  assert (K1 : inject_Z (Z.of_nat k) <= inject_Z (Z.of_nat n))
    by (rewrite <- Zle_Qle; lia).
  assert (D0 : 0 <= inject_Z (Z.of_nat k) / inject_Z (Z.of_nat n)).
  { apply Qle_shift_div_l; [assumption | lra]. }
  assert (D1 : inject_Z (Z.of_nat k) / inject_Z (Z.of_nat n) <= 1).
  { apply Qle_shift_div_r; [assumption | lra]. }
  apply (round_between 0 100); [change (inject_Z 0) with 0
                               | change (inject_Z 100) with 100]; lra.
Qed.

End NumericBounds.

Ltac conjuncts := repeat match goal with |- _ /\ _ => split end.

Section StatisticsBounds.

Lemma stats_between (lo hi : Z) (data : list row) (column : row -> cell) :
  numeric column data <> [] ->
  Forall (fun q => inject_Z lo <= q /\ q <= inject_Z hi)
    (numeric column data) ->
  let s := _calculate_utilization_stats data column in
  (inject_Z lo <= avg s /\ avg s <= inject_Z hi)
  /\ (inject_Z lo <= max s /\ max s <= inject_Z hi)
  /\ (inject_Z lo <= min s /\ min s <= inject_Z hi)
  /\ (inject_Z lo <= p95 s /\ p95 s <= inject_Z hi)
  /\ (inject_Z lo <= p90 s /\ p90 s <= inject_Z hi).
Proof.
  intros Hne Hl. cbv zeta. unfold _calculate_utilization_stats.
  destruct (numeric column data) as [|v vs] eqn:E; [congruence|].
  cbn [avg max min p95 p90]. rewrite Forall_forall in Hl.
  destruct (series_max_spec (v :: vs) Hne) as [Imax _].
  destruct (series_min_spec (v :: vs) Hne) as [Imin _].
  assert (F : Forall (fun q => inject_Z lo <= q /\ q <= inject_Z hi)
                (v :: vs)) by now apply Forall_forall.
  pose proof (mean_between _ _ _ Hne F) as [? ?].
  pose proof (quantile_between _ _ _ (95 # 100) Hne
                ltac:(lra) ltac:(lra) F) as [? ?].
  pose proof (quantile_between _ _ _ (90 # 100) Hne
                ltac:(lra) ltac:(lra) F) as [? ?].
  pose proof (Hl _ Imax) as [? ?]. pose proof (Hl _ Imin) as [? ?].
  split; [|split; [|split; [|split]]]; apply round_between; assumption.
Qed.

Lemma disjoint_counts (p q : Q -> bool) (l : list Q) :
  (forall x, p x = true -> q x = false) ->
  (count p l + count q l <= length l)%nat.
Proof.
  intros D. unfold count. induction l as [|x l IH]; simpl; [lia|].
  destruct (p x) eqn:P; [rewrite (D x P)|destruct (q x)]; simpl; lia.
Qed.

End StatisticsBounds.

(** The counts of a statistics dictionary are consistent, whatever the
    column holds.  When the column has at least one number, total_days is
    the number of its numbers, the days of low usage (below 20) and of high
    usage (above 80) together do not exceed it, and both shares lie in
    [0,100]; when it has none, the four keys high_usage_days, total_days,
    low_usage_percentage and high_usage_percentage are missing together and
    low_usage_days is 0. *)
Theorem usage_days_are_consistent (data : list row) (column : row -> cell) :
  let s := _calculate_utilization_stats data column in
  match high_usage_days s, total_days s,
        low_usage_percentage s, high_usage_percentage s with
  | Some high_days, Some total, Some low_share, Some high_share =>
      total = length (numeric column data)
      /\ (0 < total)%nat
      /\ (low_usage_days s + high_days <= total)%nat
      /\ (0 <= low_share /\ low_share <= 100)
      /\ (0 <= high_share /\ high_share <= 100)
  | None, None, None, None =>
      numeric column data = [] /\ low_usage_days s = 0%nat
  | _, _, _, _ => False
  end.
Proof.
  cbv zeta. unfold _calculate_utilization_stats.
  destruct (numeric column data) as [|v vs] eqn:E.
  - cbn. split; reflexivity.
  - set (values := v :: vs).
    cbn [high_usage_days total_days low_usage_days
         low_usage_percentage high_usage_percentage].
    split; [reflexivity|]. split; [unfold values; simpl; lia|].
    split.
    { apply disjoint_counts. intros x Hx.
      apply Qltb_lt in Hx. apply Qltb_ge. lra. }
    split; apply share_range;
      first [apply count_le | unfold values; simpl; lia].
Qed.

(** The statistics of percentages are percentages: when every number of
    the column lies in [0,100], so do the average, the maximum, the
    minimum and the two percentiles, rounded as they are stored. *)
Theorem statistics_of_percentages (data : list row) (column : row -> cell) :
  Forall (fun q => 0 <= q /\ q <= 100) (numeric column data) ->
  let s := _calculate_utilization_stats data column in
  (0 <= avg s /\ avg s <= 100)
  /\ (0 <= max s /\ max s <= 100)
  /\ (0 <= min s /\ min s <= 100)
  /\ (0 <= p95 s /\ p95 s <= 100)
  /\ (0 <= p90 s /\ p90 s <= 100).
Proof.
  intros Hl.
  destruct (numeric column data) as [|v vs] eqn:E.
  - cbv zeta. unfold _calculate_utilization_stats. rewrite E. cbn.
    conjuncts; lra.
  - apply (stats_between 0 100); rewrite E; [discriminate | exact Hl].
Qed.

Lemma statistics_of_percentages_witness :
  let s := _calculate_utilization_stats (rows idle_history) CPUUtilization in
  (0 <= avg s /\ avg s <= 100)
  /\ (0 <= max s /\ max s <= 100)
  /\ (0 <= min s /\ min s <= 100)
  /\ (0 <= p95 s /\ p95 s <= 100)
  /\ (0 <= p90 s /\ p90 s <= 100).
Proof.
  apply (statistics_of_percentages (rows idle_history) CPUUtilization).
  vm_compute. repeat constructor; discriminate.
Defined.

(** * Properties of the collectors *)

Section CollectorFacts.

Lemma sorted_reverse_head (l : list Collector.datapoint) :
  match Collector.sorted_reverse l with
  | [] => l = []
  | h :: _ => Invariants.latest h l
  end.
Proof.
  induction l as [|d l IH]; [reflexivity|].
  cbn [Collector.sorted_reverse fold_right].
  fold (Collector.sorted_reverse l).
  destruct (Collector.sorted_reverse l) as [|y t].
  - subst l. simpl. split; [now left|]. intros x [<-|[]]. lia.
  - destruct IH as [Iy My]. cbn [Collector.insert_datapoint].
    destruct (Collector.Timestamp y <=? Collector.Timestamp d)%Z eqn:C.
    + apply Z.leb_le in C. split; [now left|].
      intros x [<-|Hx]; [lia|]. specialize (My x Hx). lia.
    + apply Z.leb_gt in C. split; [now right|].
      intros x [<-|Hx]; [lia | now apply My].
Qed.

Lemma fold_right_add_app (l : list Z) (z : Z) :
  fold_right Z.add 0%Z (l ++ [z]) = (fold_right Z.add 0 l + z)%Z.
Proof. induction l as [|x l IH]; simpl; lia. Qed.

Lemma scan_devices_consistent (devices : list Collector.device) :
  forall info, Invariants.consistent info ->
               Invariants.consistent (Collector.scan_devices devices info).
Proof.
  induction devices as [|[|id [| |size]] rest IH]; intros info H;
    cbn [Collector.scan_devices]; auto.
  apply IH. destruct H as (A & B & C). unfold Invariants.consistent. simpl.
  rewrite !length_app, fold_right_add_app. simpl. lia.
Qed.

Lemma scan_devices_stops (before after : list Collector.device) id :
  forall info,
    Collector.scan_devices
      (before ++ Collector.Ebs id Collector.describe_volumes_raises
              :: after) info
    = Collector.scan_devices before info.
Proof.
  induction before as [|[|i [| |size]] rest IH]; intros info;
    cbn [app Collector.scan_devices]; auto.
Qed.

Lemma estimated_memory_range (cpu_util : Q) :
  25 <= Collector.estimated_memory cpu_util
  /\ Collector.estimated_memory cpu_util <= 80.
Proof.
  unfold Collector.estimated_memory, Collector.pymin.
  destruct (Qltb 70 cpu_util) eqn:A.
  - apply Qltb_lt in A. destruct (Qltb (cpu_util * 1.1) 80) eqn:B.
    + apply Qltb_lt in B. split; lra.
    + split; lra.
  - destruct (Qltb 30 cpu_util) eqn:B; [|split; lra].
    apply Qltb_lt in B. destruct (Qltb (cpu_util * 1.3) 60) eqn:C.
    + apply Qltb_lt in C. split; lra.
    + split; lra.
Qed.

Lemma memory_percent_range (lines : list string) :
  0 <= memory_percent (get_fixed_ssm_metrics lines)
  /\ memory_percent (get_fixed_ssm_metrics lines) <= 100.
Proof.
  rewrite memory_percent_is_memory.
  assert (Z0 : 0 <= 0 /\ 0 <= 100) by (split; discriminate).
  unfold parse_memory. destruct (index lines 0) as [l0|]; [|exact Z0].
  destruct (float l0) as [v|]; [|exact Z0].
  destruct (percentage v) as [q|] eqn:E; [|exact Z0].
  simpl. now apply percentage_range in E.
Qed.

Lemma disk_usage_avg_range (lines : list string) :
  0 <= disk_usage_avg (get_fixed_ssm_metrics lines)
  /\ disk_usage_avg (get_fixed_ssm_metrics lines) <= 100.
Proof.
  rewrite disk_usage_avg_is_parse_avg.
  assert (Z0 : 0 <= 0 /\ 0 <= 100) by (split; discriminate).
  pose proof (parse_disks_range lines) as R.
  assert (Hm : disk_usage_avg
                 (set_disk_details (parse_disks lines)
                    (parse_memory lines initial_metrics)) = 0)
    by apply disk_usage_avg_parse_memory.
  assert (Hf : forall m, disk_usage_avg m = 0 ->
             0 <= disk_usage_avg
                    (fallback_avg (map usage_percent (parse_disks lines)) m)
             /\ disk_usage_avg
                  (fallback_avg (map usage_percent (parse_disks lines)) m)
                <= 100).
  { intros m Hz. unfold fallback_avg.
    destruct (map usage_percent (parse_disks lines)) as [|u us] eqn:E.
    - rewrite Hz. exact Z0.
    - cbn [disk_usage_avg set_disk_usage_avg]. rewrite <- E.
      apply mean_range; [rewrite E; discriminate|].
      apply Forall_map. exact R. }
  unfold parse_avg.
  destruct (2 <? length lines)%nat; [|now apply Hf].
  destruct (avg_disk_line lines) as [line|]; [|now apply Hf].
  destruct (float line) as [v|]; [|now apply Hf].
  destruct (percentage v) as [q|] eqn:E.
  - cbn [disk_usage_avg set_disk_usage_avg]. now apply percentage_range in E.
  - rewrite Hm. exact Z0.
Qed.

Lemma estimate_rds_memory_range (db_class : string) :
  (1 <= Collector.estimate_rds_memory db_class <= 128)%Z.
Proof.
  unfold Collector.estimate_rds_memory, get.
  destruct (lookup Collector.memory_map db_class) as [v|] eqn:E; [|lia].
  pose proof (table_forall (fun _ v => (1 <=? v)%Z && (v <=? 128)%Z)
                Collector.memory_map db_class v eq_refl E) as H.
  apply andb_true_iff in H. destruct H as [A B].
  apply Z.leb_le in A, B. lia.
Qed.

Lemma estimate_rds_vcpu_range (db_class : string) :
  (1 <= Collector.estimate_rds_vcpu db_class <= 16)%Z.
Proof.
  unfold Collector.estimate_rds_vcpu, get.
  destruct (lookup Collector.vcpu_map db_class) as [v|] eqn:E; [|lia].
  pose proof (table_forall (fun _ v => (1 <=? v)%Z && (v <=? 16)%Z)
                Collector.vcpu_map db_class v eq_refl E) as H.
  apply andb_true_iff in H. destruct H as [A B].
  apply Z.leb_le in A, B. lia.
Qed.

End CollectorFacts.

(** The metric reported is the average of the latest datapoint,
    rounded to two decimals, wherever that datapoint stands in the
    response: a datapoint that every other datapoint is strictly older than
    is the one reported, so that the value does not depend on the order in
    which CloudWatch lists the datapoints. *)
Theorem latest_datapoint_is_reported
    (datapoints : list Collector.datapoint) (d : Collector.datapoint) :
  In d datapoints ->
  (forall d', In d' datapoints ->
     d' = d \/ (Collector.Timestamp d' < Collector.Timestamp d)%Z) ->
  Collector.get_cloudwatch_metric (Some datapoints)
  = round (Collector.Average d) 2
  /\ Collector.get_rds_metric (Some datapoints)
     = round (Collector.Average d) 2.
Proof.
  intros Hd Hlate.
  unfold Collector.get_rds_metric, Collector.get_cloudwatch_metric.
  pose proof (sorted_reverse_head datapoints) as H.
  destruct (Collector.sorted_reverse datapoints) as [|h t].
  - subst datapoints. destruct Hd.
  - destruct H as [Ih Mh]. specialize (Mh d Hd).
    destruct (Hlate h Ih) as [->|Lt]; [now split | lia].
Qed.

Lemma latest_datapoint_is_reported_witness :
  Collector.get_cloudwatch_metric (Some Scenarios.three_datapoints)
  = round 12.345 2
  /\ Collector.get_rds_metric (Some Scenarios.three_datapoints)
     = round 12.345 2.
Proof.
  apply (latest_datapoint_is_reported Scenarios.three_datapoints
           (Collector.Datapoint 900 12.345)).
  - simpl. tauto.
  - intros d' [<-|[<-|[<-|[]]]]; simpl; first [now left | right; lia].
Defined.

(** The volume dictionary is consistent whatever the answers: count is
    the number of sizes and of volume ids, and total_size is the sum of the
    sizes.  When the request for a volume raises, the dictionary returned
    is the one for the devices before it: the volumes counted so far are
    kept, the devices after it are not looked at. *)
Theorem volume_info_is_consistent (response : Collector.instances_response) :
  let info := Collector.get_ebs_volumes_info response in
  Collector.count info = length (Collector.sizes info)
  /\ Collector.count info = length (Collector.volume_ids info)
  /\ Collector.total_size info
     = fold_right Z.add 0%Z (Collector.sizes info)
  /\ forall before id after,
       response
       = Collector.first_instance
           (before ++ Collector.Ebs id Collector.describe_volumes_raises
                   :: after) ->
       info
       = Collector.get_ebs_volumes_info (Collector.first_instance before).
Proof.
  cbv zeta.
  assert (C : Invariants.consistent
                (Collector.get_ebs_volumes_info response)).
  { destruct response as [| |devices]; cbn [Collector.get_ebs_volumes_info];
      try (now repeat split).
    apply scan_devices_consistent. now repeat split. }
  destruct C as (A & B & D). split; [|split; [|split]]; try assumption.
  intros before id after ->. cbn [Collector.get_ebs_volumes_info].
  apply scan_devices_stops.
Qed.

Lemma volume_info_is_consistent_witness :
  Collector.get_ebs_volumes_info
    (Collector.first_instance Scenarios.three_devices)
  = Collector.get_ebs_volumes_info
      (Collector.first_instance
         [Collector.Ebs "vol-1" (Collector.first_volume 8)]).
Proof.
  apply (proj2 (proj2 (proj2
    (volume_info_is_consistent
       (Collector.first_instance Scenarios.three_devices))))
    [Collector.Ebs "vol-1" (Collector.first_volume 8)] "vol-2"
    [Collector.Ebs "vol-3" (Collector.first_volume 100)]).
  reflexivity.
Defined.

(** The memory and disk usage of an EC2 record are percentages,
    whatever the probes print and whatever CloudWatch reports: both lie in
    [0,100].  The record is marked as estimated exactly when the memory
    line gave no value (success is false); its memory usage then lies in
    [25,80] and its disk usage is 0. *)
Theorem ec2_usage_is_a_percentage (today : Z) (i : Collector.instance)
    (o : Collector.observations) :
  let r := Collector.ec2_record today i o in
  let ssm_metrics := Collector.ssm_metrics_of (Collector.ssm_output o) in
  exists ram disk,
    RAMUtilization (Collector.columns r) = Some ram
    /\ DiskUsage (Collector.columns r) = Some disk
    /\ (0 <= ram /\ ram <= 100)
    /\ (0 <= disk /\ disk <= 100)
    /\ (success ssm_metrics = true ->
        Collector.DataCollection r = "SSM+CloudWatch"
        /\ ram = round (memory_percent ssm_metrics) 2
        /\ disk = round (disk_usage_avg ssm_metrics) 2)
    /\ (success ssm_metrics = false ->
        Collector.DataCollection r = "CloudWatch+Estimated"
        /\ (25 <= ram /\ ram <= 80) /\ disk = 0).
Proof.
  cbv zeta. unfold Collector.ec2_record.
  set (m := Collector.ssm_metrics_of (Collector.ssm_output o)).
  assert (R : (0 <= memory_percent m /\ memory_percent m <= 100)
              /\ (0 <= disk_usage_avg m /\ disk_usage_avg m <= 100)).
  { unfold m, Collector.ssm_metrics_of.
    destruct (Collector.ssm_output o) as [lines|].
    - split; [apply memory_percent_range | apply disk_usage_avg_range].
    - simpl. repeat split; discriminate. }
  destruct R as [Rm Rd].
  destruct (success m) eqn:S;
    cbn [Collector.columns RAMUtilization DiskUsage Collector.DataCollection];
    eexists; eexists; (split; [reflexivity|]); (split; [reflexivity|]).
  - split; [|split; [|split]].
    + now apply (round_between 0 100).
    + now apply (round_between 0 100).
    + intros _. repeat split.
    + discriminate.
  - pose proof (estimated_memory_range
                  (Collector.get_cloudwatch_metric
                     (Collector.cpu_response o))) as [E1 E2].
    pose proof (round_between 25 80 _ 2 E1 E2) as [F1 F2].
    change (inject_Z 25) with 25 in F1. change (inject_Z 80) with 80 in F2.
    split; [|split; [|split]].
    + split; lra.
    + split; discriminate.
    + discriminate.
    + intros _. split; [reflexivity|]. split; [now split | reflexivity].
Qed.

Lemma ec2_usage_is_a_percentage_witness :
  exists ram disk,
    RAMUtilization
      (Collector.columns
         (Collector.ec2_record 0 Scenarios.silent_instance Scenarios.silent))
    = Some ram
    /\ DiskUsage
         (Collector.columns
            (Collector.ec2_record 0 Scenarios.silent_instance
               Scenarios.silent))
       = Some disk
    /\ (25 <= ram /\ ram <= 80) /\ disk = 0.
Proof.
  pose proof (ec2_usage_is_a_percentage 0 Scenarios.silent_instance
                Scenarios.silent) as H.
  cbv zeta in H. destruct H as (ram & disk & A & B & _ & _ & _ & F).
  exists ram, disk. destruct (F eq_refl) as (_ & R & D).
  split; [exact A|]. split; [exact B|]. split; [exact R | exact D].
Defined.

Section Reservations.

Variable today : Z.
Variable observe : string -> Collector.observations.

Lemma collect_reservations_records reservations :
  forall bound data,
    exists recs,
      Collector.collect_reservations today observe reservations bound data
      = (data ++ recs)%list
      /\ (length recs <= length reservations)%nat.
Proof.
  induction reservations as [|instances rest IH]; intros bound data.
  - exists []. simpl. now rewrite app_nil_r.
  - cbn [Collector.collect_reservations].
    destruct (Collector.bound_instance instances bound) as [i|].
    + destruct (IH (Some i)
                  (data ++ [Collector.ec2_record today i
                              (observe (Collector.InstanceId i))])%list)
        as (recs & E & L).
      eexists (_ :: recs). rewrite E, <- app_assoc. split; [reflexivity|].
      simpl. lia.
    + exists []. rewrite app_nil_r. split; [reflexivity | simpl; lia].
Qed.

Lemma collect_reservations_last reservations :
  Forall (fun instances => instances <> []) reservations ->
  forall bound data,
    exists recs,
      Collector.collect_reservations today observe reservations bound data
      = (data ++ recs)%list
      /\ Forall2 (Invariants.record_of_last today observe) reservations
           recs.
Proof.
  induction 1 as [|instances rest Hne Hrest IH]; intros bound data.
  - exists []. simpl. now rewrite app_nil_r.
  - cbn [Collector.collect_reservations]. unfold Collector.bound_instance.
    destruct (index_from_end instances 1) as [i|] eqn:E.
    + destruct (IH (Some i)
                  (data ++ [Collector.ec2_record today i
                              (observe (Collector.InstanceId i))])%list)
        as (recs & Er & F).
      eexists (_ :: recs). rewrite Er, <- app_assoc. split; [reflexivity|].
      constructor; [|exact F]. now exists i.
    + exfalso. unfold index_from_end in E.
      destruct instances as [|x l]; [congruence|].
      destruct (1 <=? length (x :: l))%nat eqn:C.
      * apply nth_error_None in E. simpl in E. lia.
      * apply Nat.leb_gt in C. simpl in C. lia.
Qed.

End Reservations.

(** [collect_ec2_data] builds its record in the loop over the
    reservations, after the loop over the instances of the reservation: it
    never returns more records than there are reservations, and when no
    reservation is empty it returns exactly one record per reservation, in
    order, which is the record of the last instance of that reservation.
    The other instances of a reservation are not reported. *)
Theorem one_record_per_reservation (today : Z)
    (observe : string -> Collector.observations)
    (pages : list (list (list Collector.instance))) :
  let data := Collector.collect_ec2_data today observe pages in
  (length data <= length (concat pages))%nat
  /\ (Forall (fun instances => instances <> []) (concat pages) ->
      Forall2 (Invariants.record_of_last today observe) (concat pages)
        data).
Proof.
  cbv zeta. unfold Collector.collect_ec2_data. split.
  - destruct (collect_reservations_records today observe (concat pages)
                None []) as (recs & E & L).
    rewrite E. simpl. exact L.
  - intros H.
    destruct (collect_reservations_last today observe (concat pages) H
                None []) as (recs & E & F).
    rewrite E. exact F.
Qed.

Lemma one_record_per_reservation_witness :
  Forall2 (Invariants.record_of_last 0 (fun _ => Scenarios.silent))
    (concat Scenarios.two_reservations)
    (Collector.collect_ec2_data 0 (fun _ => Scenarios.silent)
       Scenarios.two_reservations).
Proof.
  apply (proj2 (one_record_per_reservation 0 (fun _ => Scenarios.silent)
                  Scenarios.two_reservations)).
  simpl. repeat constructor; discriminate.
Defined.

(** The memory utilization of an RDS record is computed against an
    estimate of the installed memory that is always positive (1 to 128 GiB,
    8 for a class the table does not list), so that only the freeable
    memory decides: without a positive reading the utilization is 0; with
    one it is below 100, and it is negative exactly when the freeable
    memory reported exceeds the estimate.  It is not clamped at 0; as
    stored, rounded, it is at most 100. *)
Theorem rds_memory_utilization_range (db_class : string)
    (freeable_memory : Q) :
  let memory_gb := Collector.estimate_rds_memory db_class in
  let u := Collector.memory_utilization db_class freeable_memory in
  (1 <= memory_gb <= 128)%Z
  /\ (freeable_memory <= 0 -> u = 0)
  /\ (0 < freeable_memory -> u < 100)
  /\ (u < 0 <->
      inject_Z (memory_gb * 1024 * 1024 * 1024) < freeable_memory)
  /\ round u 2 <= 100.
Proof.
  cbv zeta. pose proof (estimate_rds_memory_range db_class) as G.
  unfold Collector.memory_utilization.
  set (g := Collector.estimate_rds_memory db_class) in *.
  assert (G1 : 1 <= inject_Z g).
  { change 1 with (inject_Z 1). rewrite <- Zle_Qle. lia. }
  assert (L : Qltb 0 (inject_Z g) = true) by (apply Qltb_lt; lra).
  rewrite L. cbn [andb].
  change (inject_Z (1024 * 1024)) with 1048576.
  assert (E : inject_Z (g * 1024 * 1024 * 1024)
              == inject_Z g * 1024 * 1048576).
  { rewrite !inject_Z_mult. change (inject_Z 1024) with 1024. ring. }
  assert (Ef : freeable_memory == freeable_memory / 1048576 * 1048576)
    by (field; discriminate).
  set (f := freeable_memory / 1048576) in *.
  set (M := inject_Z g * 1024) in *.
  assert (HM : 0 < M) by (unfold M; lra).
  assert (D : (M - f) / M * 100 == 100 - 100 * (f / M)) by (field; lra).
  assert (T : f == f / M * M) by (field; lra).
  set (t := f / M) in *.
  split; [exact G|].
  destruct (Qltb 0 f) eqn:C.
  - apply Qltb_lt in C.
    assert (Ht : 0 < t).
    { destruct (Qlt_le_dec 0 t) as [H|H]; [exact H|].
      assert (0 <= (0 - t) * M) by (apply Qmult_le_0_compat; lra). lra. }
    split; [intros; lra|]. split; [intros _; lra|]. split.
    + rewrite D, E. split; intros H.
      * assert (0 < (t - 1) * M) by (apply Qmult_lt_0_compat; lra). lra.
      * destruct (Qlt_le_dec 1 t) as [H1|H1]; [lra|].
        assert (0 <= (1 - t) * M) by (apply Qmult_le_0_compat; lra). lra.
    + apply Qle_trans with (round 100 2); [|vm_compute; discriminate].
      apply round_mono. lra.
  - apply Qltb_ge in C.
    split; [reflexivity|]. split; [intros; lra|]. split.
    + rewrite E. split; intros H; lra.
    + vm_compute. discriminate.
Qed.

Lemma rds_memory_utilization_range_witness :
  Collector.memory_utilization "db.t3.micro" 2147483648 < 0.
Proof.
  apply (proj2 (proj1 (proj2 (proj2 (proj2
           (rds_memory_utilization_range "db.t3.micro" 2147483648)))))).
  vm_compute. reflexivity.
Defined.

Section EstimatedMemory.

Lemma numeric_of_numbers (P : Q -> Prop) (column : row -> cell)
    (data : list row) :
  (forall r, In r data -> exists q, column r = Some q /\ P q) ->
  Forall P (numeric column data)
  /\ length (numeric column data) = length data.
Proof.
  unfold numeric. induction data as [|r data IH]; intros H; simpl.
  - now split.
  - destruct (H r (or_introl eq_refl)) as (q & -> & Hq).
    destruct IH as [F L]; [intros; apply H; now right|].
    split; [now constructor | simpl; congruence].
Qed.

Lemma downsize_condition_ram_not_low (cpu ram : stats) :
  25 <= avg ram -> downsize_condition cpu ram = Ok false.
Proof.
  intros H. unfold downsize_condition. apply Qltb_ge in H. rewrite H.
  now rewrite andb_false_r.
Qed.

Lemma memory_condition_ram_not_high (ram : stats) :
  avg ram <= 85 -> memory_condition ram = Ok false.
Proof.
  intros H. unfold memory_condition. apply Qltb_ge in H. now rewrite H.
Qed.

Lemma storage_condition_disk_not_high (dc : bool) (data : list row) :
  (forall r, In r data -> exists q, DiskUsage r = Some q /\ (0 <= q /\ q <= 85))
  -> data <> [] ->
  storage_condition (disk_stats_of dc data) = false.
Proof.
  intros H Hne. unfold disk_stats_of.
  destruct dc; [|reflexivity].
  destruct (all_na DiskUsage data); [reflexivity|].
  cbn [storage_condition].
  destruct (numeric_of_numbers _ DiskUsage data H) as [F L].
  assert (N : numeric DiskUsage data <> []).
  { intros E. rewrite E in L. destruct data; [congruence | discriminate]. }
  destruct (stats_between 0 85 data DiskUsage N F) as [[_ A] _].
  change (inject_Z 85) with 85 in A. apply Qltb_ge in A. now rewrite A.
Qed.

(** An instance whose memory usage stayed within [25,85] is left alone or
    upsized (or asked for more storage), and its analysis does not raise,
    whatever its processor usage. *)
Lemma steady_memory_is_not_downsized (dc : bool) (recent : list row)
    (id : string) :
  (7 <= length (instance_rows recent id))%nat ->
  (forall r, In r (instance_rows recent id) ->
     exists q, RAMUtilization r = Some q /\ (25 <= q /\ q <= 85)) ->
  exists rec,
    analyze_instance dc recent id = Some (Ok rec)
    /\ (action rec = monitor \/ action rec = upsize
        \/ (action rec = increase_storage
            /\ storage_condition
                 (disk_stats_of dc (instance_rows recent id)) = true)).
Proof.
  intros Hlen Hram.
  destruct (latest_record_exists recent id Hlen) as (latest & El & _ & _).
  rewrite (analyze_instance_analyzed dc recent id latest Hlen El).
  set (data := instance_rows recent id) in *.
  destruct (numeric_of_numbers _ RAMUtilization data Hram) as [F L].
  assert (N : numeric RAMUtilization data <> []).
  { intros E. rewrite E in L. simpl in L. lia. }
  destruct (stats_between 25 85 data RAMUtilization N F) as [[A B] _].
  change (inject_Z 25) with 25 in A. change (inject_Z 85) with 85 in B.
  unfold _generate_instance_recommendation.
  rewrite (downsize_condition_ram_not_low _ _ A). cbn [bind].
  destruct (upsize_condition_computed data CPUUtilization) as [b ->].
  cbn [bind]. destruct b.
  - destruct (negb _); eexists; (split; [reflexivity|]); record_simpl; auto.
  - rewrite (memory_condition_ram_not_high _ B). cbn [bind].
    destruct (storage_condition (disk_stats_of dc data)) eqn:S;
      eexists; (split; [reflexivity|]); record_simpl; auto.
Qed.

End EstimatedMemory.

(** An EC2 instance for which the probes failed on every day of the
    window, so that each of its rows carries the estimated memory usage and
    a disk usage of 0, is never recommended for downsizing, for a
    memory-optimized type or for more storage, however idle its processor
    is: the estimate is at least 25, and the downsize rule asks for an
    average below 25.  Its analysis does not raise, and its action is
    monitor or upsize. *)
Theorem estimated_memory_is_never_downsized (dc : bool) (recent : list row)
    (id : string) :
  (7 <= length (instance_rows recent id))%nat ->
  (forall r, In r (instance_rows recent id) ->
     exists today i o,
       r = Collector.columns (Collector.ec2_record today i o)
       /\ success (Collector.ssm_metrics_of (Collector.ssm_output o))
          = false) ->
  exists rec,
    analyze_instance dc recent id = Some (Ok rec)
    /\ (action rec = monitor \/ action rec = upsize).
Proof.
  intros Hlen Hrows.
  assert (Hram : forall r, In r (instance_rows recent id) ->
            exists q, RAMUtilization r = Some q /\ (25 <= q /\ q <= 85)).
  { intros r Hr. destruct (Hrows r Hr) as (today & i & o & -> & S).
    unfold Collector.ec2_record. rewrite S.
    cbn [Collector.columns RAMUtilization]. eexists. split; [reflexivity|].
    pose proof (estimated_memory_range
                  (Collector.get_cloudwatch_metric
                     (Collector.cpu_response o))) as [E1 E2].
    pose proof (round_between 25 80 _ 2 E1 E2) as [F1 F2].
    change (inject_Z 25) with 25 in F1. change (inject_Z 80) with 80 in F2.
    split; lra. }
  assert (Hdisk : forall r, In r (instance_rows recent id) ->
            exists q, DiskUsage r = Some q /\ (0 <= q /\ q <= 85)).
  { intros r Hr. destruct (Hrows r Hr) as (today & i & o & -> & S).
    unfold Collector.ec2_record. rewrite S.
    cbn [Collector.columns DiskUsage]. eexists. split; [reflexivity|].
    split; discriminate. }
  destruct (steady_memory_is_not_downsized dc recent id Hlen Hram)
    as (rec & E & [M|[U|[_ S]]]); exists rec; (split; [exact E|]); auto.
  rewrite storage_condition_disk_not_high in S; [discriminate|exact Hdisk|].
  intros Z. rewrite Z in Hlen. simpl in Hlen. lia.
Qed.

Lemma estimated_memory_is_never_downsized_witness :
  exists rec,
    analyze_instance true Scenarios.silent_week "i-est" = Some (Ok rec)
    /\ (action rec = monitor \/ action rec = upsize).
Proof.
  apply (estimated_memory_is_never_downsized true Scenarios.silent_week
           "i-est").
  - vm_compute. lia.
  - intros r Hr. apply filter_In in Hr. destruct Hr as [Hr _].
    apply in_map_iff in Hr. destruct Hr as (d & <- & _).
    exists (d * 86400000000)%Z, Scenarios.silent_instance, Scenarios.silent.
    split; reflexivity.
Defined.

(** * Properties of the history file *)

Section Deduplication.

Variable same : row -> row -> bool.
Hypothesis same_refl : forall a, same a a = true.
Hypothesis same_trans :
  forall a b c, same a b = true -> same b c = true -> same a c = true.

Lemma In_drop_duplicates r df :
  In r (History.drop_duplicates same df) -> In r df.
Proof.
  induction df as [|x df IH]; simpl; [tauto|].
  destruct (existsb (same x) df); simpl; tauto.
Qed.

Lemma drop_duplicates_Forall (P : row -> Prop) df :
  Forall P df -> Forall P (History.drop_duplicates same df).
Proof.
  rewrite !Forall_forall. intros H r Hr. apply H.
  now apply In_drop_duplicates.
Qed.

(** No two rows kept have the same key. *)
Lemma drop_duplicates_distinct df :
  ForallOrdPairs (fun a b => same a b = false)
    (History.drop_duplicates same df).
Proof.
  induction df as [|x df IH]; simpl; [constructor|].
  destruct (existsb (same x) df) eqn:E; [exact IH|].
  constructor; [|exact IH].
  apply Forall_forall. intros b Hb. apply In_drop_duplicates in Hb.
  destruct (same x b) eqn:S; [|reflexivity].
  assert (existsb (same x) df = true) by (apply existsb_exists; eauto).
  congruence.
Qed.

(** Every key stays represented. *)
Lemma drop_duplicates_represents r df :
  In r df ->
  exists r', In r' (History.drop_duplicates same df) /\ same r r' = true.
Proof.
  revert r. induction df as [|x df IH]; intros r; simpl; [tauto|].
  intros [->|Hr].
  - destruct (existsb (same r) df) eqn:E.
    + apply existsb_exists in E. destruct E as (y & Hy & Sy).
      destruct (IH y Hy) as (r' & Hr' & S'). exists r'. split; [exact Hr'|].
      eauto.
    + exists r. split; [now left | apply same_refl].
  - destruct (IH r Hr) as (r' & Hr' & S').
    exists r'. split; [|exact S'].
    destruct (existsb (same x) df); [exact Hr' | now right].
Qed.

(** The row kept for a key is the last one of the frame with that key. *)
Lemma drop_duplicates_keeps_last before r after :
  existsb (same r) after = false ->
  In r (History.drop_duplicates same (before ++ r :: after)).
Proof.
  intros E. induction before as [|x before IH]; simpl.
  - rewrite E. now left.
  - destruct (existsb (same x) (before ++ r :: after)); [exact IH|].
    now right.
Qed.

Lemma drop_duplicates_fixed df :
  ForallOrdPairs (fun a b => same a b = false) df ->
  History.drop_duplicates same df = df.
Proof.
  induction 1 as [|x df Hx Hdf IH]; simpl; [reflexivity|].
  assert (E : existsb (same x) df = false).
  { destruct (existsb (same x) df) eqn:E; [|reflexivity].
    apply existsb_exists in E. destruct E as (y & Hy & Sy).
    rewrite Forall_forall in Hx. rewrite (Hx y Hy) in Sy. discriminate. }
  rewrite E. now f_equal.
Qed.

Lemma drop_duplicates_app a b :
  History.drop_duplicates same (a ++ b)
  = (filter (fun r => negb (existsb (same r) b))
       (History.drop_duplicates same a)
     ++ History.drop_duplicates same b)%list.
Proof.
  induction a as [|x a IH]; [reflexivity|].
  cbn [app History.drop_duplicates]. rewrite existsb_app.
  destruct (existsb (same x) a) eqn:Ea; cbn [orb]; [exact IH|].
  cbn [filter]. destruct (existsb (same x) b); cbn [negb]; [exact IH|].
  cbn [app]. now f_equal.
Qed.

Lemma drop_duplicates_not_empty df :
  df <> [] -> History.drop_duplicates same df <> [].
Proof.
  intros Hne E. destruct df as [|x df]; [congruence|].
  destruct (drop_duplicates_represents x (x :: df) (or_introl eq_refl))
    as (r' & Hr' & _).
  rewrite E in Hr'. destruct Hr'.
Qed.

End Deduplication.

Section HistoryFacts.

Lemma option_Z_eqb_eq a b : option_Z_eqb a b = true <-> a = b.
Proof.
  destruct a as [x|], b as [y|]; simpl; try (split; congruence).
  rewrite Z.eqb_eq. split; congruence.
Qed.

Lemma same_ID_Date_iff a b :
  History.same_ID_Date a b = true <-> ID a = ID b /\ Date a = Date b.
Proof.
  unfold History.same_ID_Date.
  now rewrite andb_true_iff, String.eqb_eq, option_Z_eqb_eq.
Qed.

Lemma same_ID_Date_refl a : History.same_ID_Date a a = true.
Proof. now apply same_ID_Date_iff. Qed.

Lemma same_ID_Date_trans a b c :
  History.same_ID_Date a b = true -> History.same_ID_Date b c = true ->
  History.same_ID_Date a c = true.
Proof.
  rewrite !same_ID_Date_iff. intros [A B] [C D]. split; congruence.
Qed.

Lemma same_ID_Service_Date_iff a b :
  History.same_ID_Service_Date a b = true
  <-> ID a = ID b /\ Service a = Service b /\ Date a = Date b.
Proof.
  unfold History.same_ID_Service_Date.
  rewrite !andb_true_iff, !String.eqb_eq, option_Z_eqb_eq. tauto.
Qed.

Lemma not_today_iff today r :
  History.not_today today r = true <-> Date r <> Some today.
Proof.
  unfold History.not_today. rewrite negb_true_iff, <- not_true_iff_false.
  now rewrite option_Z_eqb_eq.
Qed.

Lemma ForallOrdPairs_impl {A} (R S : A -> A -> Prop) (l : list A) :
  (forall a b, R a b -> S a b) -> ForallOrdPairs R l -> ForallOrdPairs S l.
Proof.
  intros H. induction 1 as [|a l Ha Hl IH]; constructor; [|exact IH].
  eapply Forall_impl; [|exact Ha]. intros b. apply H.
Qed.

Lemma filter_all {A} (f : A -> bool) (l : list A) :
  Forall (fun x => f x = true) l -> filter f l = l.
Proof.
  induction 1 as [|x l Hx Hl IH]; simpl; [reflexivity|].
  rewrite Hx. now f_equal.
Qed.

Lemma filter_none {A} (f : A -> bool) (l : list A) :
  Forall (fun x => f x = false) l -> filter f l = [].
Proof.
  induction 1 as [|x l Hx Hl IH]; simpl; [reflexivity|].
  now rewrite Hx.
Qed.

Lemma filter_Forall {A} (f : A -> bool) (l : list A) :
  Forall (fun x => f x = true) (filter f l).
Proof. apply Forall_forall. intros x Hx. now apply filter_In in Hx. Qed.

Lemma today_in_window now today r :
  (now - thirty_days <= today)%Z -> Date r = Some today ->
  in_window now r = true.
Proof.
  intros H E. unfold in_window. rewrite E. now apply Z.leb_le.
Qed.

(** What is stored on a day whose rows all carry today's date: the older
    rows of the history, then the rows of the run. *)
Lemma save_historical_data_today now today historical df :
  historical <> [] ->
  (now - thirty_days <= today)%Z ->
  Forall (fun r => Date r = Some today) df ->
  History.save_historical_data now today historical df
  = (History.drop_duplicates History.same_ID_Date
       (filter (in_window now)
          (filter (History.not_today today) historical))
     ++ History.drop_duplicates History.same_ID_Date df)%list.
Proof.
  intros Hne Hw Hdf. unfold History.save_historical_data.
  destruct historical as [|h0 hs]; [congruence|]. cbn [is_empty negb].
  set (old := filter (History.not_today today) (h0 :: hs)).
  rewrite filter_app.
  rewrite (filter_all (in_window now) df).
  2:{ eapply Forall_impl; [|exact Hdf]. intros r. now apply today_in_window. }
  rewrite drop_duplicates_app. f_equal.
  apply filter_all. apply Forall_forall. intros r Hr.
  apply In_drop_duplicates in Hr. apply filter_In in Hr.
  destruct Hr as [Hr _]. apply filter_In in Hr. destruct Hr as [_ Hr].
  apply not_today_iff in Hr. apply negb_true_iff.
  destruct (existsb (History.same_ID_Date r) df) eqn:E; [|reflexivity].
  apply existsb_exists in E. destruct E as (x & Hx & S).
  apply same_ID_Date_iff in S. destruct S as [_ S].
  rewrite Forall_forall in Hdf. rewrite (Hdf x Hx) in S. contradiction.
Qed.

End HistoryFacts.

(** What [save_historical_data] stores once a history exists: only
    rows inside the 30-day window, no two of them with the same ID and Date;
    each is a row of the run or a row of the old history that is not dated
    today; and every (ID, Date) of the rows combined that is inside the
    window is still represented.  The monthly analysis run at the same
    instant therefore reads every row stored. *)
Theorem stored_history_is_deduplicated (now today : Z)
    (historical df : list row) :
  historical <> [] ->
  let stored := History.save_historical_data now today historical df in
  Forall (fun r => in_window now r = true) stored
  /\ ForallOrdPairs (fun a b => ID a <> ID b \/ Date a <> Date b) stored
  /\ (forall r, In r stored ->
        In r df \/ (In r historical /\ Date r <> Some today))
  /\ (forall r, In r df \/ (In r historical /\ Date r <> Some today) ->
        in_window now r = true ->
        exists r', In r' stored /\ ID r' = ID r /\ Date r' = Date r)
  /\ (forall dc, recent_rows now (Frame dc stored) = stored).
Proof.
  intros Hne. cbv zeta. unfold History.save_historical_data.
  destruct historical as [|h0 hs]; [congruence|]. cbn [is_empty negb].
  set (h := h0 :: hs).
  set (combined := filter (in_window now)
                     (filter (History.not_today today) h ++ df)).
  assert (W : Forall (fun r => in_window now r = true)
                (History.drop_duplicates History.same_ID_Date combined)).
  { apply drop_duplicates_Forall. apply filter_Forall. }
  split; [exact W|]. split; [|split; [|split]].
  - eapply ForallOrdPairs_impl;
      [|exact (drop_duplicates_distinct History.same_ID_Date combined)].
    intros a b Hb. cbv beta in Hb.
    destruct (string_dec (ID a) (ID b)) as [E1|]; [|now left]. right.
    intros E2. rewrite (proj2 (same_ID_Date_iff a b)) in Hb;
      [discriminate | now split].
  - intros r Hr. apply In_drop_duplicates in Hr. apply filter_In in Hr.
    destruct Hr as [Hr _]. apply in_app_or in Hr. destruct Hr as [Hr|Hr].
    + apply filter_In in Hr. destruct Hr as [Hr Ht].
      right. split; [exact Hr | now apply not_today_iff].
    + now left.
  - intros r Hr Hw.
    assert (Hc : In r combined).
    { apply filter_In. split; [|exact Hw]. apply in_or_app.
      destruct Hr as [Hr|[Hr Ht]]; [now right|]. left.
      apply filter_In. split; [exact Hr | now apply not_today_iff]. }
    destruct (drop_duplicates_represents History.same_ID_Date
                same_ID_Date_refl same_ID_Date_trans r combined Hc)
      as (r' & Hr' & S).
    apply same_ID_Date_iff in S. exists r'. split; [exact Hr'|].
    split; symmetry; apply S.
  - intros dc. unfold recent_rows. cbn [rows]. now apply filter_all.
Qed.

Lemma stored_history_is_deduplicated_witness :
  let stored :=
    History.save_historical_data day_10 day_10
      (rows Scenarios.yesterday_df) Scenarios.today_df in
  Forall (fun r => in_window day_10 r = true) stored
  /\ ForallOrdPairs (fun a b => ID a <> ID b \/ Date a <> Date b) stored
  /\ (forall r, In r stored ->
        In r Scenarios.today_df
        \/ (In r (rows Scenarios.yesterday_df) /\ Date r <> Some day_10))
  /\ (forall r,
        In r Scenarios.today_df
        \/ (In r (rows Scenarios.yesterday_df) /\ Date r <> Some day_10) ->
        in_window day_10 r = true ->
        exists r', In r' stored /\ ID r' = ID r /\ Date r' = Date r)
  /\ (forall dc, recent_rows day_10 (Frame dc stored) = stored).
Proof.
  apply (stored_history_is_deduplicated day_10 day_10
           (rows Scenarios.yesterday_df) Scenarios.today_df).
  discriminate.
Defined.

(** A run replaces the rows of its day: when the rows of the run all
    carry today's date (and today is inside the window), the history stored
    consists of the older rows of the previous history (those not dated
    today, inside the window, one per ID and Date) followed by the rows of
    the run, one per ID.  A row of the previous history dated today is
    stored only if it is also a row of the run. *)
Theorem run_replaces_the_rows_of_its_day (now today : Z)
    (historical df : list row) :
  historical <> [] ->
  (now - thirty_days <= today)%Z ->
  Forall (fun r => Date r = Some today) df ->
  let stored := History.save_historical_data now today historical df in
  stored
  = (History.drop_duplicates History.same_ID_Date
       (filter (in_window now)
          (filter (History.not_today today) historical))
     ++ History.drop_duplicates History.same_ID_Date df)%list
  /\ filter (fun r => negb (History.not_today today r)) stored
     = History.drop_duplicates History.same_ID_Date df
  /\ (forall r, In r stored -> Date r = Some today -> In r df).
Proof.
  intros Hne Hw Hdf. cbv zeta.
  rewrite (save_historical_data_today now today historical df Hne Hw Hdf).
  split; [reflexivity|].
  assert (Old : Forall (fun r => History.not_today today r = true)
                  (History.drop_duplicates History.same_ID_Date
                     (filter (in_window now)
                        (filter (History.not_today today) historical)))).
  { apply drop_duplicates_Forall. apply Forall_forall. intros r Hr.
    apply filter_In in Hr. destruct Hr as [Hr _].
    now apply filter_In in Hr. }
  assert (New : Forall (fun r => History.not_today today r = false)
                  (History.drop_duplicates History.same_ID_Date df)).
  { apply drop_duplicates_Forall. eapply Forall_impl; [|exact Hdf].
    intros r E. cbv beta. apply not_true_iff_false.
    rewrite not_today_iff. tauto. }
  split.
  - rewrite filter_app. rewrite filter_none, filter_all; [reflexivity| |].
    + eapply Forall_impl; [|exact New]. intros r E. cbv beta. now rewrite E.
    + eapply Forall_impl; [|exact Old]. intros r E. cbv beta. now rewrite E.
  - intros r Hr Ht. apply in_app_or in Hr. destruct Hr as [Hr|Hr].
    + rewrite Forall_forall in Old. apply Old in Hr.
      apply not_today_iff in Hr. contradiction.
    + now apply In_drop_duplicates in Hr.
Qed.

Lemma run_replaces_the_rows_of_its_day_witness :
  let stored :=
    History.save_historical_data day_10 day_10
      (rows Scenarios.yesterday_df ++ Scenarios.today_df)
      Scenarios.today_df in
  stored
  = (History.drop_duplicates History.same_ID_Date
       (filter (in_window day_10)
          (filter (History.not_today day_10)
             (rows Scenarios.yesterday_df ++ Scenarios.today_df)))
     ++ History.drop_duplicates History.same_ID_Date Scenarios.today_df)%list
  /\ filter (fun r => negb (History.not_today day_10 r)) stored
     = History.drop_duplicates History.same_ID_Date Scenarios.today_df
  /\ (forall r, In r stored -> Date r = Some day_10 ->
        In r Scenarios.today_df).
Proof.
  apply (run_replaces_the_rows_of_its_day day_10 day_10
           (rows Scenarios.yesterday_df ++ Scenarios.today_df)
           Scenarios.today_df).
  - discriminate.
  - vm_compute. discriminate.
  - repeat constructor.
Defined.

(** Saving the same run twice changes nothing: with a non-empty run
    whose rows carry today's date, saving it onto the history that the
    first save stored gives that history again. *)
Theorem saving_twice_is_saving_once (now today : Z)
    (historical df : list row) :
  historical <> [] -> df <> [] ->
  (now - thirty_days <= today)%Z ->
  Forall (fun r => Date r = Some today) df ->
  History.save_historical_data now today
    (History.save_historical_data now today historical df) df
  = History.save_historical_data now today historical df.
Proof.
  intros Hne Hdf0 Hw Hdf.
  assert (Hs : History.save_historical_data now today historical df <> []).
  { rewrite (save_historical_data_today now today historical df Hne Hw Hdf).
    intros E. apply app_eq_nil in E. destruct E as [_ E].
    exact (drop_duplicates_not_empty History.same_ID_Date same_ID_Date_refl
             same_ID_Date_trans df Hdf0 E). }
  rewrite (save_historical_data_today now today _ df Hs Hw Hdf).
  rewrite (save_historical_data_today now today historical df Hne Hw Hdf).
  f_equal.
  set (old := History.drop_duplicates History.same_ID_Date
                (filter (in_window now)
                   (filter (History.not_today today) historical))).
  assert (Old : Forall (fun r => History.not_today today r = true) old).
  { apply drop_duplicates_Forall. apply Forall_forall. intros r Hr.
    apply filter_In in Hr. destruct Hr as [Hr _].
    now apply filter_In in Hr. }
  assert (Win : Forall (fun r => in_window now r = true) old).
  { apply drop_duplicates_Forall. apply filter_Forall. }
  assert (New : Forall (fun r => History.not_today today r = false)
                  (History.drop_duplicates History.same_ID_Date df)).
  { apply drop_duplicates_Forall. eapply Forall_impl; [|exact Hdf].
    intros r E. cbv beta. apply not_true_iff_false.
    rewrite not_today_iff. tauto. }
  rewrite filter_app, (filter_all _ old Old), (filter_none _ _ New).
  rewrite app_nil_r, (filter_all _ old Win).
  apply drop_duplicates_fixed. apply drop_duplicates_distinct.
Qed.

Lemma saving_twice_is_saving_once_witness :
  History.save_historical_data day_10 day_10
    (History.save_historical_data day_10 day_10
       (rows Scenarios.yesterday_df) Scenarios.today_df)
    Scenarios.today_df
  = History.save_historical_data day_10 day_10
      (rows Scenarios.yesterday_df) Scenarios.today_df.
Proof.
  apply (saving_twice_is_saving_once day_10 day_10
           (rows Scenarios.yesterday_df) Scenarios.today_df).
  - discriminate.
  - discriminate.
  - vm_compute. discriminate.
  - repeat constructor.
Defined.

(** The frame of a run holds no two rows with the same ID, Service
    and Date; every row of it was returned by one of the collectors, and
    every row returned is represented by a row with its ID, Service and
    Date, the last one returned with them. *)
Theorem collected_rows_are_distinct (results : list (list row)) :
  let df := History.collect_all_data results in
  ForallOrdPairs
    (fun a b => ID a <> ID b \/ Service a <> Service b \/ Date a <> Date b)
    df
  /\ (forall r, In r df -> exists data, In data results /\ In r data)
  /\ (forall before r after,
        concat results = (before ++ r :: after)%list ->
        existsb (History.same_ID_Service_Date r) after = false ->
        In r df).
Proof.
  cbv zeta. unfold History.collect_all_data.
  assert (E : (if is_empty (concat results) then concat results
               else History.drop_duplicates History.same_ID_Service_Date
                      (concat results))
              = History.drop_duplicates History.same_ID_Service_Date
                  (concat results)).
  { destruct (concat results); reflexivity. }
  rewrite E. clear E. split; [|split].
  - eapply ForallOrdPairs_impl;
      [|exact (drop_duplicates_distinct History.same_ID_Service_Date
                 (concat results))].
    intros a b Hb. cbv beta in Hb.
    destruct (string_dec (ID a) (ID b)) as [E1|]; [|now left]. right.
    destruct (string_dec (Service a) (Service b)) as [E2|]; [|now left].
    right. intros E3.
    rewrite (proj2 (same_ID_Service_Date_iff a b)) in Hb;
      [discriminate | now repeat split].
  - intros r Hr. apply In_drop_duplicates in Hr.
    apply in_concat in Hr. destruct Hr as (data & H1 & H2). eauto.
  - intros before r after -> Hlast.
    now apply drop_duplicates_keeps_last.
Qed.

Lemma collected_rows_are_distinct_witness :
  In (Scenarios.usage day_10 "i-3" 7 2)
    (History.collect_all_data Scenarios.doubled_results)
  /\ length (History.collect_all_data Scenarios.doubled_results) = 2%nat.
Proof.
  split; [|reflexivity].
  apply (proj2 (proj2 (collected_rows_are_distinct
                         Scenarios.doubled_results))
           (Scenarios.today_df ++ [Scenarios.usage day_10 "i-1" 30 50])%list
           (Scenarios.usage day_10 "i-3" 7 2) []);
    reflexivity.
Defined.

(** * Properties of the trends *)

Section TrendFacts.

Lemma matches_at_most_one (previous : list row) (id : string) :
  NoDup (map ID previous) ->
  (length (filter (fun p => String.eqb (ID p) id) previous) <= 1)%nat.
Proof.
  induction previous as [|p previous IH]; simpl; [lia|].
  intros H. inversion H as [|? ? Hn Hd]; subst. specialize (IH Hd).
  destruct (String.eqb (ID p) id) eqn:E; [|exact IH].
  apply String.eqb_eq in E. simpl.
  destruct (filter (fun p0 => String.eqb (ID p0) id) previous) as [|q l] eqn:F;
    [simpl; lia|].
  exfalso. apply Hn.
  assert (Hq : In q (filter (fun p0 => String.eqb (ID p0) id) previous))
    by (rewrite F; now left).
  apply filter_In in Hq. destruct Hq as [Hq Eq].
  apply String.eqb_eq in Eq. rewrite E, <- Eq. now apply in_map.
Qed.

Lemma merge_left_rows (current_df previous : list row) :
  Forall (fun m => In (fst m) current_df)
    (Trends.merge_left current_df previous)
  /\ (length current_df
      <= length (Trends.merge_left current_df previous))%nat
  /\ (NoDup (map ID previous) ->
      map fst (Trends.merge_left current_df previous) = current_df).
Proof.
  unfold Trends.merge_left.
  induction current_df as [|c cs (IH1 & IH2 & IH3)]; cbn [flat_map].
  - repeat split; [constructor | simpl; lia].
  - set (ms := filter (fun p => String.eqb (ID p) (ID c)) previous).
    set (rest := flat_map _ cs) in *.
    split; [|split].
    + apply Forall_app. split.
      * destruct ms as [|p ms']; [repeat constructor|].
        apply Forall_forall. intros m Hm. apply in_map_iff in Hm.
        destruct Hm as (x & <- & _). now left.
      * eapply Forall_impl; [|exact IH1]. intros m Hm. now right.
    + rewrite length_app. destruct ms as [|p ms']; cbn [length map]; lia.
    + intros Hd. rewrite map_app, (IH3 Hd).
      pose proof (matches_at_most_one previous (ID c) Hd) as L. fold ms in L.
      destruct ms as [|p [|p' ms']]; [reflexivity | reflexivity|].
      simpl in L. lia.
Qed.

Lemma trend_row_of_current dc m :
  Trends.current (Trends.trend_row_of dc m) = fst m.
Proof. destruct m. reflexivity. Qed.

Lemma Qltb_compat (a b x y : Q) : a == b -> x == y -> Qltb a x = Qltb b y.
Proof.
  intros E1 E2. destruct (Qltb a x) eqn:A, (Qltb b y) eqn:B; try reflexivity;
    first [apply Qltb_lt in A | apply Qltb_ge in A];
    first [apply Qltb_lt in B | apply Qltb_ge in B]; exfalso; lra.
Qed.

Lemma trend_of_minus_zero (c : cell) :
  Trends.trend_of (Trends.minus c 0) = Trends.trend_of c.
Proof.
  destruct c as [x|]; [|reflexivity]. cbn [Trends.minus Trends.trend_of].
  assert (E : Qred (x - 0) == x) by (rewrite Qred_correct; ring).
  rewrite (Qltb_compat 5 5 _ x (Qeq_refl 5) E).
  now rewrite (Qltb_compat _ x (-5) (-5) E (Qeq_refl _)).
Qed.

End TrendFacts.

(** A trend is computed for every row of the run, and nothing else:
    each row returned carries a row of the run, there are at least as many
    as rows in the run, and when the rows of the previous day have pairwise
    distinct IDs the rows returned are the rows of the run, one for one and
    in order.  (With two rows of the same ID on the previous day, a row of
    the run is returned once for each.) *)
Theorem trend_rows_follow_the_run (current_df : list row)
    (previous_df : frame) :
  let merged := Trends.calculate_trends current_df previous_df in
  Forall (fun t => In (Trends.current t) current_df) merged
  /\ (length current_df <= length merged)%nat
  /\ (NoDup (map ID (rows previous_df)) ->
      map Trends.current merged = current_df).
Proof.
  cbv zeta. unfold Trends.calculate_trends.
  destruct (is_empty (rows previous_df)).
  - split; [|split].
    + apply Forall_forall. intros t Ht. apply in_map_iff in Ht.
      destruct Ht as (c & <- & Hc). exact Hc.
    + rewrite length_map. lia.
    + intros _. rewrite map_map. apply map_id.
  - destruct (merge_left_rows current_df (rows previous_df))
      as (M1 & M2 & M3).
    split; [|split].
    + apply Forall_forall. intros t Ht. apply in_map_iff in Ht.
      destruct Ht as (m & <- & Hm). rewrite trend_row_of_current.
      rewrite Forall_forall in M1. now apply M1.
    + now rewrite length_map.
    + intros Hd. rewrite map_map. rewrite <- (M3 Hd) at 2.
      apply map_ext. intros m. apply trend_row_of_current.
Qed.

Lemma trend_rows_follow_the_run_witness :
  map Trends.current
    (Trends.calculate_trends Scenarios.today_df Scenarios.yesterday_df)
  = Scenarios.today_df.
Proof.
  apply (proj2 (proj2 (trend_rows_follow_the_run Scenarios.today_df
                         Scenarios.yesterday_df))).
  simpl. repeat constructor; simpl; intuition discriminate.
Defined.

(** An instance that has no row on the previous day is compared with
    zero: its changes are its current values, so that its processor and
    memory trends are those of the values themselves, increased as soon as
    the usage exceeds 5 and never decreased for a usage that is not
    negative. *)
Theorem new_instance_is_compared_with_zero (current_df : list row)
    (previous_df : frame) (c : row) :
  rows previous_df <> [] ->
  In c current_df ->
  (forall p, In p (rows previous_df) -> ID p <> ID c) ->
  exists t,
    In t (Trends.calculate_trends current_df previous_df)
    /\ Trends.current t = c
    /\ Trends.CPU_Change t = Trends.minus (CPUUtilization c) 0
    /\ Trends.RAM_Change t = Trends.minus (RAMUtilization c) 0
    /\ Trends.CPU_Trend t = Trends.trend_of (CPUUtilization c)
    /\ Trends.RAM_Trend t = Trends.trend_of (RAMUtilization c)
    /\ (forall x, CPUUtilization c = Some x ->
          (5 < x -> Trends.CPU_Trend t = Trends.increased)
          /\ (0 <= x -> Trends.CPU_Trend t <> Trends.decreased)).
Proof.
  intros Hne Hc Hnew. unfold Trends.calculate_trends.
  destruct (rows previous_df) as [|p0 ps] eqn:E; [congruence|].
  cbn [is_empty]. rewrite <- E in *. clear E p0 ps.
  exists (Trends.trend_row_of (disk_usage_column previous_df) (c, None)).
  split.
  - apply in_map. unfold Trends.merge_left. apply in_flat_map.
    exists c. split; [exact Hc|].
    rewrite filter_none; [now left|].
    apply Forall_forall. intros p Hp. apply String.eqb_neq.
    now apply Hnew.
  - cbn [Trends.trend_row_of Trends.current Trends.CPU_Change
         Trends.RAM_Change Trends.CPU_Trend Trends.RAM_Trend Trends.prev
         Trends.fillna0].
    rewrite !trend_of_minus_zero.
    split; [reflexivity|]. split; [reflexivity|]. split; [reflexivity|].
    split; [reflexivity|]. split; [reflexivity|].
    intros x ->. cbn [Trends.trend_of]. split.
    + intros H. apply Qltb_lt in H. now rewrite H.
    + intros H. destruct (Qltb 5 x); [discriminate|].
      assert (L : Qltb x (-5) = false) by (apply Qltb_ge; lra).
      rewrite L. discriminate.
Qed.

Lemma new_instance_is_compared_with_zero_witness :
  exists t,
    In t (Trends.calculate_trends Scenarios.today_df Scenarios.yesterday_df)
    /\ ID (Trends.current t) = "i-3"
    /\ Trends.CPU_Trend t = Trends.increased
    /\ Trends.RAM_Trend t = Trends.stable.
Proof.
  destruct (new_instance_is_compared_with_zero Scenarios.today_df
              Scenarios.yesterday_df (Scenarios.usage day_10 "i-3" 7 2))
    as (t & Ht & Ec & _ & _ & Tc & Tr & _).
  - discriminate.
  - simpl. tauto.
  - intros p [<-|[<-|[]]]; discriminate.
  - exists t. rewrite Ec, Tc, Tr. split; [exact Ht|]. repeat split.
Defined.

(** * The prices behind a recommendation *)

Section PricedTypes.

Lemma get_changed (d : dict string) (k : string) :
  get d k k <> k -> lookup d k = Some (get d k k).
Proof.
  unfold get. destruct (lookup d k) as [v|]; [reflexivity | congruence].
Qed.

Lemma priced_cost (svc ty : string) :
  Prices.priced svc ty = true ->
  lookup (Prices.price_table svc) ty
  = Some (_get_instance_monthly_cost ty svc).
Proof.
  unfold Prices.priced, Prices.price_table, _get_instance_monthly_cost, get.
  destruct (String.eqb svc "EC2");
    destruct (lookup _ ty); intros H; (reflexivity || discriminate).
Qed.

Lemma priced_in (costs : dict Q) (d : dict string) (ty target : string) :
  forallb
    (fun kv =>
       match lookup costs (fst kv) with Some _ => true | None => false end
       && match lookup costs (snd kv) with Some _ => true | None => false end)
    d = true ->
  lookup d ty = Some target ->
  match lookup costs ty with Some _ => true | None => false end = true
  /\ match lookup costs target with Some _ => true | None => false end
     = true.
Proof.
  intros F H. apply andb_true_iff.
  exact (table_forall
           (fun k v =>
              match lookup costs k with Some _ => true | None => false end
              && match lookup costs v with Some _ => true | None => false
                 end)
           d ty target F H).
Qed.

Lemma table_types_are_priced (svc ty target : string) :
  lookup (downsize_map svc) ty = Some target
  \/ lookup (upsize_map svc) ty = Some target
  \/ lookup (memory_optimized_map svc) ty = Some target ->
  Prices.priced svc ty = true /\ Prices.priced svc target = true.
Proof.
  unfold downsize_map, upsize_map, memory_optimized_map, Prices.priced,
    Prices.price_table.
  destruct (String.eqb svc "EC2"); intros [H|[H|H]];
    match goal with
    | |- context [lookup ?c ty] =>
        refine (priced_in c _ ty target _ H); vm_compute; reflexivity
    end.
Qed.

End PricedTypes.

(** A recommendation that changes the type is priced from the table: the
    current type and the recommended type both have a listed price, the
    default price is not used, and the amounts reported are the clamped
    difference of these two prices, as savings for a downsize and as cost
    increase for an upsize or a memory-optimized type. *)
Theorem changes_of_type_are_priced id nm svc ty cpu ram disk n rec :
  _generate_instance_recommendation id nm svc ty cpu ram disk n = Ok rec ->
  recommended_type rec <> ty ->
  exists current_price recommended_price,
    lookup (Prices.price_table svc) ty = Some current_price
    /\ lookup (Prices.price_table svc) (recommended_type rec)
       = Some recommended_price
    /\ estimated_monthly_savings rec
       = (if Action_eqb (action rec) downsize
          then max0 (Qred (current_price - recommended_price)) else 0)
    /\ estimated_monthly_cost_increase rec
       = (if Action_eqb (action rec) downsize then 0
          else max0 (Qred (recommended_price - current_price))).
Proof.
  assert (N : forall a b, negb (String.eqb a b) = true -> a <> b).
  { intros a b H ->. now rewrite String.eqb_refl in H. }
  assert (P : forall target,
            lookup (downsize_map svc) ty = Some target
            \/ lookup (upsize_map svc) ty = Some target
            \/ lookup (memory_optimized_map svc) ty = Some target ->
            lookup (Prices.price_table svc) ty
            = Some (_get_instance_monthly_cost ty svc)
            /\ lookup (Prices.price_table svc) target
               = Some (_get_instance_monthly_cost target svc)).
  { intros target H. destruct (table_types_are_priced svc ty target H).
    split; now apply priced_cost. }
  unfold _generate_instance_recommendation.
  destruct (downsize_condition cpu ram) as [[|]|e]; cbn [bind];
    [| |discriminate].
  { destruct (negb _) eqn:E; intros [= <-]; record_simpl;
      [|congruence]. intros _.
    apply N, get_changed in E.
    destruct (P _ (or_introl E)) as [P1 P2].
    do 2 eexists. split; [exact P1|]. split; [exact P2|].
    split; reflexivity. }
  destruct (upsize_condition cpu) as [[|]|e]; cbn [bind]; [| |discriminate].
  { destruct (negb _) eqn:E; intros [= <-]; record_simpl;
      [|congruence]. intros _.
    apply N, get_changed in E.
    destruct (P _ (or_intror (or_introl E))) as [P1 P2].
    do 2 eexists. split; [exact P1|]. split; [exact P2|].
    split; reflexivity. }
  destruct (memory_condition ram) as [[|]|e]; cbn [bind]; [| |discriminate].
  { destruct (negb _) eqn:E; intros [= <-]; record_simpl;
      [|congruence]. intros _.
    apply N, get_changed in E.
    destruct (P _ (or_intror (or_intror E))) as [P1 P2].
    do 2 eexists. split; [exact P1|]. split; [exact P2|].
    split; reflexivity. }
  destruct (storage_condition disk); intros [= <-]; record_simpl; congruence.
Qed.

Lemma changes_of_type_are_priced_witness :
  exists rec current_price recommended_price,
    _generate_instance_recommendation "i-idle" "i-idle" "EC2" "t3a.large"
      (_calculate_utilization_stats (rows idle_history) CPUUtilization)
      (_calculate_utilization_stats (rows idle_history) RAMUtilization)
      None 7
    = Ok rec
    /\ lookup (Prices.price_table "EC2") "t3a.large" = Some current_price
    /\ lookup (Prices.price_table "EC2") (recommended_type rec)
       = Some recommended_price
    /\ estimated_monthly_savings rec
       = max0 (Qred (current_price - recommended_price)).
Proof.
  destruct (_generate_instance_recommendation "i-idle" "i-idle" "EC2"
              "t3a.large"
              (_calculate_utilization_stats (rows idle_history)
                 CPUUtilization)
              (_calculate_utilization_stats (rows idle_history)
                 RAMUtilization)
              None 7) as [rec|e] eqn:G; [|vm_compute in G; discriminate].
  assert (D : recommended_type rec <> "t3a.large" /\ action rec = downsize).
  { pose proof G as G'. vm_compute in G'. injection G' as <-.
    split; [discriminate | reflexivity]. }
  destruct D as [D Ac].
  destruct (changes_of_type_are_priced _ _ _ _ _ _ _ _ _ G D)
    as (cp & rp & P1 & P2 & S & _).
  rewrite Ac in S. exists rec, cp, rp. repeat split; assumption.
Defined.

(** * The collection summary *)

Section CollectionSummary.

Lemma ec2_record_label (today : Z) (i : Collector.instance)
    (o : Collector.observations) :
  Collector.DataCollection (Collector.ec2_record today i o)
  = if success (Collector.ssm_metrics_of (Collector.ssm_output o))
    then "SSM+CloudWatch" else "CloudWatch+Estimated".
Proof.
  unfold Collector.ec2_record.
  now destruct (success (Collector.ssm_metrics_of (Collector.ssm_output o))).
Qed.

End CollectionSummary.

(** The two counts of the collection summary leave no EC2 record out: every
    record that [collect_ec2_data] builds carries one of the two labels the
    summary counts, so that the instances with real data and those with
    estimated data add up to the number of records, the first count being
    the number of records whose probes succeeded; and the success rate is a
    percentage. *)
Theorem collection_counts_add_up (ec2_df : list Collector.record) :
  Forall (fun r => exists today i o, r = Collector.ec2_record today i o)
    ec2_df ->
  (Run.ssm_count ec2_df + Run.estimated_count ec2_df = length ec2_df)%nat
  /\ 0 <= Run.success_rate ec2_df /\ Run.success_rate ec2_df <= 100.
Proof.
  intros H.
  assert (E : (Run.ssm_count ec2_df + Run.estimated_count ec2_df
               = length ec2_df)%nat).
  { unfold Run.ssm_count, Run.estimated_count.
    induction H as [|r l (today & i & o & ->) Hl IH]; [reflexivity|].
    cbn [filter length]. rewrite ec2_record_label.
    destruct (success _); cbn [String.eqb Ascii.eqb Bool.eqb andb length];
      lia. }
  split; [exact E|]. unfold Run.success_rate. rewrite E.
  destruct (0 <? length ec2_df)%nat eqn:C; [|split; lra].
  apply Nat.ltb_lt in C.
  assert (N : 0 < inject_Z (Z.of_nat (length ec2_df)))
    by (rewrite <- (Zlt_Qlt 0); lia).
  assert (K0 : 0 <= inject_Z (Z.of_nat (Run.ssm_count ec2_df)))
    by (rewrite <- (Zle_Qle 0); lia).
  assert (K1 : inject_Z (Z.of_nat (Run.ssm_count ec2_df))
               <= inject_Z (Z.of_nat (length ec2_df)))
    by (rewrite <- Zle_Qle; lia).
  assert (D0 : 0 <= inject_Z (Z.of_nat (Run.ssm_count ec2_df))
                    / inject_Z (Z.of_nat (length ec2_df))).
  { apply Qle_shift_div_l; [assumption | lra]. }
  assert (D1 : inject_Z (Z.of_nat (Run.ssm_count ec2_df))
               / inject_Z (Z.of_nat (length ec2_df)) <= 1).
  { apply Qle_shift_div_r; [assumption | lra]. }
  split; lra.
Qed.

Lemma collection_counts_add_up_witness :
  (Run.ssm_count
     (Collector.collect_ec2_data 0 (fun _ => Scenarios.silent)
        Scenarios.two_reservations)
   + Run.estimated_count
       (Collector.collect_ec2_data 0 (fun _ => Scenarios.silent)
          Scenarios.two_reservations)
   = length
       (Collector.collect_ec2_data 0 (fun _ => Scenarios.silent)
          Scenarios.two_reservations))%nat.
Proof.
  apply (collection_counts_add_up
           (Collector.collect_ec2_data 0 (fun _ => Scenarios.silent)
              Scenarios.two_reservations)).
  repeat constructor; do 3 eexists; reflexivity.
Defined.
